(** * MEMEBE bingo relay: connection registry, room directory and message router

    A shallow embedding of [src/server.ts] (module [Server] below) and of the
    deployment variant [src/unnamed/part_000] (module [Deploy]), with the
    properties of the relay stated and proved over it.

    Conventions of the embedding:
    - JavaScript strings are [string]; one character stands for one code unit.
    - [Map<string, V>] is [gmap string V]; only [get], [set], [has] and
      [delete] are used by the code, never iteration over a map.
    - [Set<string>] is a duplicate-free [list string] kept in insertion order,
      which is the order a JavaScript [Set] iterates in.
    - [Date.now()] / [new Date()] is a parameter [now : Z] (milliseconds).
    - An inbound frame is the value [JSON.parse] returned ([Parsed]); when
      it is an object it is a finite map from keys to values, and a key it
      lacks reads as [undefined].
    - The global maps are the fields of [State]; code runs in the monad [M],
      which threads the state, collects the calls to [socket.send] and
      propagates a thrown exception.
    - A request is the part of a [Request] the server reads; the file
      system is a function from a path to the size of the file there; the
      HTML literals of the responses are named, not spelled out.
    - A call to [socket.send] is recorded with the connection it writes to;
      what the transport then does with the frame is outside the model.  A
      handler writes to the socket of its own connection, which is open
      while its events are delivered, or to a socket it has just found open
      ([socket_send]); the one send to a socket in a state the code has not
      looked at, the relay of a signaling message to its target, raises
      [InvalidStateError] while that socket is still connecting
      ([WebSocket_send]).
    - The exceptions of the model are that one and the [TypeError]s of the
      property reads and calls of the relay. *)

From Stdlib Require Import QArith Ascii DecimalString.
From stdpp Require Import gmap strings list fin_maps.

Local Open Scope string_scope.
Local Open Scope list_scope.
Local Open Scope Z_scope.

(** ** JavaScript values carried by a parsed frame *)

(** A number as [JSON.parse] can produce it: a finite value, given by its
    exact rational value, or an infinity (an overflowing literal). *)
Inductive JsNumber :=
  | Finite (q : Q)
  | Infinity
  | NegInfinity.

(** [a < b] on numbers. *)
Definition js_lt (a b : JsNumber) : bool :=
  match a, b with
  | Finite x, Finite y => negb (Qle_bool y x)
  | Finite _, Infinity => true
  | NegInfinity, Finite _ => true
  | NegInfinity, Infinity => true
  | _, _ => false
  end.

Definition js_gt (a b : JsNumber) : bool := js_lt b a.

Definition js_int (z : Z) : JsNumber := Finite (inject_Z z).

(** The value of a field of a parsed message.  Objects and arrays are opaque
    to the router: it only tests them for truthiness. *)
Inductive JsValue :=
  | JUndefined
  | JNull
  | JBool (b : bool)
  | JNum (n : JsNumber)
  | JStr (s : string)
  | JObject (tag : nat).

(** Truthiness, as used by [||] and [if (x)]. *)
Definition truthy (v : JsValue) : bool :=
  match v with
  | JUndefined | JNull => false
  | JBool b => b
  | JNum (Finite q) => negb (Qeq_bool q 0)
  | JNum _ => true
  | JStr s => negb (String.eqb s "")
  | JObject _ => true
  end.

(** [a || b] *)
Definition js_or (a b : JsValue) : JsValue := if truthy a then a else b.

(** [interface WebSocketMessage { type: string; [key: string]: any }] *)
Definition WebSocketMessage := gmap string JsValue.

(** [message.key]: a missing key reads as [undefined]. *)
Definition field (message : WebSocketMessage) (key : string) : JsValue :=
  default JUndefined (message !! key).

(** What [JSON.parse(event.data)] returns: an object, [null], or a number, a
    string, a boolean or an array, none of which has any of the properties
    the router reads. *)
Inductive Parsed :=
  | ParsedObject (message : WebSocketMessage)
  | ParsedNull
  | ParsedOther.

(** What a recipient reads back for a value written by [JSON.stringify]: a
    number that is not finite is written as [null].  (An object or an array
    is written member by member, in the same way.) *)
Definition serialized (v : JsValue) : JsValue :=
  match v with
  | JNum (Finite q) => JNum (Finite q)
  | JNum _ => JNull
  | _ => v
  end.

(** ** String helpers *)

Definition dquote : ascii := Eval cbv in ascii_of_nat 34.
Definition squote : ascii := Eval cbv in ascii_of_nat 39.
Definition lt_sign : ascii := Eval cbv in ascii_of_nat 60.
Definition gt_sign : ascii := Eval cbv in ascii_of_nat 62.

(** [s.replace(/c/g, rep)] for a one-character pattern [c]. *)
Fixpoint replaceAll (c : ascii) (rep : string) (s : string) : string :=
  match s with
  | EmptyString => EmptyString
  | String x rest =>
      if Ascii.eqb x c then rep +:+ replaceAll c rep rest
      else String x (replaceAll c rep rest)
  end.

(** [occurs d s]: the character [d] occurs in [s]. *)
Fixpoint occurs (d : ascii) (s : string) : bool :=
  match s with
  | EmptyString => false
  | String x rest => Ascii.eqb x d || occurs d rest
  end.

(** [n] copies of the character [c]. *)
Fixpoint str_repeat (c : ascii) (n : nat) : string :=
  match n with
  | O => EmptyString
  | S k => String c (str_repeat c k)
  end.

(** ** Data model *)

(** [socket.readyState] *)
Inductive ReadyState := CONNECTING | OPEN | CLOSING | CLOSED.

Global Instance ReadyState_eq_dec : EqDecision ReadyState.
Proof. solve_decision. Defined.

(** The part of a [WebSocket] object the relay reads. *)
Record WebSocket := { readyState : ReadyState }.

(** [interface Client] *)
Module Client.
Record t := mk {
  socket : WebSocket;
  userId : string;
  name : string;
  room : string;
  role : string;
  joinedAt : Z;
  ip : string
}.
End Client.

(** [interface Room]; [clients] is the [Set<string>] of member ids. *)
Module Room.
Record t := mk {
  clients : list string;
  name : string;
  createdAt : Z
}.
End Room.

(** The bucket objects [{ count, resetTime }] of [rateLimits]. *)
Module RateLimit.
Record t := mk {
  count : Z;
  resetTime : Z
}.
End RateLimit.

(** [Set.prototype.add], [delete], [has] and [size] on the member lists. *)
Definition Set_has (x : string) (l : list string) : bool :=
  bool_decide (x ∈ l).

Definition Set_add (x : string) (l : list string) : list string :=
  if Set_has x l then l else l ++ [x].

Definition Set_delete (x : string) (l : list string) : list string :=
  filter (λ y, y ≠ x) l.

Definition Set_size (l : list string) : nat := length l.

(** The global state of the process. *)
Record State := mkState {
  clients : gmap string Client.t;
  rooms : gmap string Room.t;
  clientRooms : gmap string string;
  rateLimits : gmap string RateLimit.t
}.

Definition initial : State := mkState ∅ ∅ ∅ ∅.

(** ** Outbound frames *)

(** The entries of a [users] list; [joinedAt] is the instant, a [Date] in
    [server.ts] and a number in the deployment variant. *)
Module UserInfo.
Record t := mk {
  userId : string;
  name : string;
  role : string;
  joinedAt : Z
}.
End UserInfo.

(** [new Date().toISOString()] in [server.ts], [Date.now()] in the
    deployment variant. *)
Inductive Timestamp :=
  | IsoString (ms : Z)
  | Millis (ms : Z).

(** The objects handed to [JSON.stringify] and [socket.send]. *)
Inductive Frame :=
  | FWelcome (message userId : string) (timestamp : Timestamp)
  | FUserJoined (userId name : string) (timestamp : Timestamp)
      (users : list UserInfo.t)
  | FUserLeft (userId name : string) (timestamp : Timestamp)
      (users : list UserInfo.t)
  | FPong (timestamp : Timestamp)
  | FError (message : string)
  | FBingoNumber (number : JsNumber) (calledBy : string)
      (timestamp : Timestamp)
  | FWinner (userId userName : string) (timestamp : Timestamp)
      (winAmount : JsValue)
  | FChat (userId userName message : string) (timestamp : Timestamp)
  | FUsers (users : list UserInfo.t) (timestamp : Timestamp)
  | FRelay (message : WebSocketMessage) (from : string).

(** The [type] field of a frame; [{...message, from}] keeps the type of the
    relayed message. *)
Definition frame_type (f : Frame) : JsValue :=
  match f with
  | FWelcome _ _ _ => JStr "welcome"
  | FUserJoined _ _ _ _ => JStr "user-joined"
  | FUserLeft _ _ _ _ => JStr "user-left"
  | FPong _ => JStr "pong"
  | FError _ => JStr "error"
  | FBingoNumber _ _ _ => JStr "bingo-number"
  | FWinner _ _ _ _ => JStr "winner"
  | FChat _ _ _ _ => JStr "chat"
  | FUsers _ _ => JStr "users"
  | FRelay message _ => field message "type"
  end.

(** One call [client.socket.send(JSON.stringify(frame))]: the connection
    whose socket is written to, and the frame. *)
Definition Send : Type := string * Frame.

(** ** The monad of the handlers *)

Inductive Result (A : Type) :=
  | Ret (a : A)
  | Throw (e : string).
Arguments Ret {A} a.
Arguments Throw {A} e.

Definition M (A : Type) : Type := State → Result A * State * list Send.

Global Instance M_ret : MRet M := λ A a s, (Ret a, s, []).

Global Instance M_bind : MBind M := λ A B f m s,
  match m s with
  | (Ret a, s1, t1) =>
      match f a s1 with
      | (r, s2, t2) => (r, s2, t1 ++ t2)
      end
  | (Throw e, s1, t1) => (Throw e, s1, t1)
  end.

Definition get_state : M State := λ s, (Ret s, s, []).
Definition put_state (s : State) : M unit := λ _, (Ret tt, s, []).
Definition throw {A} (e : string) : M A := λ s, (Throw e, s, []).

(** [client.socket.send(JSON.stringify(frame))] *)
Definition socket_send (to : string) (frame : Frame) : M unit :=
  λ s, (Ret tt, s, [(to, frame)]).

(** [socket.send(JSON.stringify(frame))] on a socket whose [readyState] the
    caller has not tested: the call raises [InvalidStateError] while the
    socket is still connecting, and returns in every other state (a socket
    that is closing or closed takes the call and drops the frame). *)
Definition WebSocket_send (socket : WebSocket) (to : string) (frame : Frame)
    : M unit :=
  match readyState socket with
  | CONNECTING => throw "InvalidStateError"
  | _ => socket_send to frame
  end.

(** [try { body } catch (error) { handler }] *)
Definition try_catch (body : M unit) (handler : string → M unit) : M unit :=
  λ s,
  match body s with
  | (Ret a, s1, t1) => (Ret a, s1, t1)
  | (Throw e, s1, t1) =>
      match handler e s1 with
      | (r, s2, t2) => (r, s2, t1 ++ t2)
      end
  end.

(** [v === str] for a string literal [str] *)
Definition strict_eq_str (v : JsValue) (str : string) : bool :=
  match v with
  | JStr s => String.eqb s str
  | _ => false
  end.

(** [map.get(key)] for a key of any type: only a string can be a key. *)
Definition Map_get {V} (m : gmap string V) (key : JsValue) : option V :=
  match key with
  | JStr k => m !! k
  | _ => None
  end.

(** [for (const x of xs) body(x)] *)
Fixpoint for_of {A} (xs : list A) (body : A → M unit) : M unit :=
  match xs with
  | [] => mret tt
  | x :: rest => body x ;; for_of rest body
  end.

(** Writes to the global maps. *)
Definition set_clients (f : gmap string Client.t → gmap string Client.t)
    : M unit :=
  s ← get_state;
  put_state (mkState (f (clients s)) (rooms s) (clientRooms s) (rateLimits s)).

Definition set_rooms (f : gmap string Room.t → gmap string Room.t)
    : M unit :=
  s ← get_state;
  put_state (mkState (clients s) (f (rooms s)) (clientRooms s) (rateLimits s)).

Definition set_clientRooms (f : gmap string string → gmap string string)
    : M unit :=
  s ← get_state;
  put_state (mkState (clients s) (rooms s) (f (clientRooms s)) (rateLimits s)).

Definition set_rateLimits
    (f : gmap string RateLimit.t → gmap string RateLimit.t) : M unit :=
  s ← get_state;
  put_state (mkState (clients s) (rooms s) (clientRooms s) (f (rateLimits s))).

(** The runtime moves the socket of the connection registered under
    [clientId] to the state [st] (opened, closing, closed). *)
Definition socket_state (clientId : string) (st : ReadyState) : M unit :=
  set_clients
    (alter (λ c, Client.mk {| readyState := st |} (Client.userId c)
                   (Client.name c) (Client.room c) (Client.role c)
                   (Client.joinedAt c) (Client.ip c)) clientId).

(** [params.get(key) || fallback] *)
Definition param_or (p : option string) (fallback : string) : string :=
  match p with
  | Some v => if String.eqb v "" then fallback else v
  | None => fallback
  end.

(** The final state and the sends of a computation. *)
Definition state_of {A} (r : Result A * State * list Send) : State := r.1.2.
Definition sends_of {A} (r : Result A * State * list Send) : list Send := r.2.
Definition result_of {A} (r : Result A * State * list Send) : Result A :=
  r.1.1.

(** The frames a trace sends to the connection [to], in order. *)
Definition sent_to (to : string) (t : list Send) : list Frame :=
  (filter (λ x : Send, x.1 = to) t).*2.

(** ** The HTTP surface *)

(** The white space [String.prototype.trim] removes, among the code units a
    header value can hold (a header value is a byte string). *)
Definition is_space (c : ascii) : bool :=
  bool_decide (nat_of_ascii c ∈ [9; 10; 11; 12; 13; 32; 160]%nat).

(** [s.trimStart()] *)
Fixpoint trim_start (s : string) : string :=
  match s with
  | EmptyString => EmptyString
  | String c rest => if is_space c then trim_start rest else s
  end.

(** [s.trimEnd()] *)
Fixpoint trim_end (s : string) : string :=
  match s with
  | EmptyString => EmptyString
  | String c rest =>
      let rest' := trim_end rest in
      if is_space c && String.eqb rest' "" then "" else String c rest'
  end.

(** [s.trim()] *)
Definition trim (s : string) : string := trim_end (trim_start s).

(** [s.split(sep)[0]] for a one-character separator: the part of [s] before
    its first [sep]. *)
Fixpoint first_field (sep : ascii) (s : string) : string :=
  match s with
  | EmptyString => EmptyString
  | String c rest =>
      if Ascii.eqb c sep then "" else String c (first_field sep rest)
  end.

(** [s.startsWith(p)], [s.endsWith(p)], [s.includes(p)] *)
Definition starts_with (p s : string) : bool := String.prefix p s.

Definition ends_with (p s : string) : bool :=
  let n := String.length s in
  let m := String.length p in
  (m <=? n)%nat && String.eqb (String.substring (n - m) m s) p.

Definition includes (p s : string) : bool :=
  match String.index 0 p s with
  | Some _ => true
  | None => false
  end.

(** [n.toString()] for a file size *)
Definition size_toString (n : N) : string :=
  NilZero.string_of_uint (N.to_uint n).

(** The parts of a [Request] the server reads: the method, [url.pathname],
    [url.searchParams] and the headers, under their lower-case names. *)
Module Request.
Record t := mk {
  method : string;
  pathname : string;
  searchParams : gmap string string;
  headers : gmap string string
}.
End Request.

(** The HTML literals the server answers with. *)
Inductive Page := AccessDeniedPage | NotFoundPage.

(** The body handed to [new Response]. *)
Inductive Body :=
  | BodyNull
  | BodyText (text : string)
  | BodyPage (page : Page)
  | BodyFile (path : string)
  | BodyUpgrade.

(** A [Response]: its status (200 when none is given), the headers it was
    built with, and its body. *)
Module Response.
Record t := mk {
  status : Z;
  headers : gmap string string;
  body : Body
}.
End Response.

(** The [response] of [Deno.upgradeWebSocket]. *)
Definition upgrade_response : Response.t := Response.mk 101 ∅ BodyUpgrade.

(** The headers object [handleRequest] builds. *)
Definition cors_headers : gmap string string :=
  {[ "access-control-allow-origin" := "*";
     "access-control-allow-methods" := "GET, POST, OPTIONS";
     "access-control-allow-headers" := "Content-Type" ]}.

Module Server.

(** [function sanitizeInput(input: string): string] *)
Definition sanitizeInput (input : string) : string :=
  replaceAll squote "&#x27;"
    (replaceAll dquote "&quot;"
       (replaceAll gt_sign "&gt;"
          (replaceAll lt_sign "&lt;" input))).

(** [function isRateLimited(ip: string): boolean] *)
Definition isRateLimited (ip : string) (now : Z) : M bool :=
  s ← get_state;
  match rateLimits s !! ip with
  | None =>
      set_rateLimits (<[ip := RateLimit.mk 1 (now + 60000)]>) ;;
      mret false
  | Some limit =>
      if RateLimit.resetTime limit <? now then
        set_rateLimits (<[ip := RateLimit.mk 1 (now + 60000)]>) ;;
        mret false
      else if 100 <=? RateLimit.count limit then
        mret true
      else
        set_rateLimits
          (<[ip := RateLimit.mk (RateLimit.count limit + 1)
                     (RateLimit.resetTime limit)]>) ;;
        mret false
  end.

(** [function getRoomUsers(room: string)] *)
Definition getRoomUsers (room : string) : M (list UserInfo.t) :=
  s ← get_state;
  match rooms s !! room with
  | None => mret []
  | Some roomObj =>
      mret (omap (λ clientId,
                    match clients s !! clientId with
                    | Some client =>
                        Some (UserInfo.mk (Client.userId client)
                                (Client.name client) (Client.role client)
                                (Client.joinedAt client))
                    | None => None
                    end)
              (Room.clients roomObj))
  end.

(** [function broadcastToRoom(room, excludeClientId, message)] *)
Definition broadcastToRoom (room : string) (excludeClientId : option string)
    (message : Frame) : M unit :=
  s ← get_state;
  match rooms s !! room with
  | None => mret tt
  | Some roomObj =>
      for_of (Room.clients roomObj) (λ clientId,
        if bool_decide (Some clientId = excludeClientId) then mret tt
        else
          s' ← get_state;
          match clients s' !! clientId with
          | Some client =>
              if bool_decide (readyState (Client.socket client) = OPEN)
              then socket_send (Client.userId client) message
              else mret tt
          | None => mret tt
          end)
  end.

(** The synchronous part of [handleWebSocket(req, clientId)]: the client is
    built from the query parameters and stored in the maps.  The socket
    returned by [Deno.upgradeWebSocket] is not open yet. *)
Definition handleWebSocket (clientId : string)
    (name_param room_param role_param : option string) (ip : string)
    (now : Z) : M unit :=
  let name := sanitizeInput (param_or name_param "Anonymous") in
  let room := sanitizeInput (param_or room_param "bingo_main") in
  let role := sanitizeInput (param_or role_param "player") in
  let client :=
    Client.mk {| readyState := CONNECTING |} clientId name room role now ip in
  set_clients (<[clientId := client]>) ;;
  s ← get_state;
  (if bool_decide (is_Some (rooms s !! room)) then mret tt
   else set_rooms (<[room := Room.mk [] room now]>)) ;;
  s ← get_state;
  match rooms s !! room with
  | Some roomObj =>
      set_rooms (<[room := Room.mk (Set_add clientId (Room.clients roomObj))
                             (Room.name roomObj) (Room.createdAt roomObj)]>)
  | None => throw "TypeError"
  end ;;
  set_clientRooms (<[clientId := room]>).

(** [socket.onopen] of the connection [clientId], with the [name] and [room]
    its closure captured. *)
Definition onopen (clientId name room : string) (now : Z) : M unit :=
  socket_send clientId
    (FWelcome ("Welcome to " +:+ room +:+ "!") clientId (IsoString now)) ;;
  users ← getRoomUsers room;
  broadcastToRoom room (Some clientId)
    (FUserJoined clientId name (IsoString now) users).

(** [function handleBingoNumber(client, message)]; the comparisons are only
    reached by a value whose [typeof] is ['number']. *)
Definition handleBingoNumber (client : Client.t) (message : WebSocketMessage)
    (now : Z) : M unit :=
  let number := field message "number" in
  match number with
  | JNum n =>
      if js_lt n (js_int 1) || js_gt n (js_int 90) then
        socket_send (Client.userId client) (FError "Invalid bingo number")
      else
        broadcastToRoom (Client.room client) (Some (Client.userId client))
          (FBingoNumber n (Client.name client) (IsoString now))
  | _ => socket_send (Client.userId client) (FError "Invalid bingo number")
  end.

(** [function handleWinner(client, message)] *)
Definition handleWinner (client : Client.t) (message : WebSocketMessage)
    (now : Z) : M unit :=
  broadcastToRoom (Client.room client) None
    (FWinner (Client.userId client) (Client.name client) (IsoString now)
       (js_or (field message "winAmount") (JNum (js_int 0)))).

(** [function handleRTCSignaling(client, message)] *)
Definition handleRTCSignaling (client : Client.t)
    (message : WebSocketMessage) : M unit :=
  let target := field message "target" in
  if strict_eq_str target "broadcast" then
    broadcastToRoom (Client.room client) (Some (Client.userId client))
      (FRelay message (Client.userId client))
  else if truthy target then
    s ← get_state;
    match Map_get (clients s) target with
    | Some targetClient =>
        if bool_decide (Client.room targetClient = Client.room client) then
          WebSocket_send (Client.socket targetClient)
            (Client.userId targetClient)
            (FRelay message (Client.userId client))
        else mret tt
    | None => mret tt
    end
  else mret tt.

(** [function handleChatMessage(client, message)]; [sanitizeInput] calls
    [input.replace], which is a [TypeError] unless [input] is a string. *)
Definition handleChatMessage (client : Client.t) (message : WebSocketMessage)
    (now : Z) : M unit :=
  match js_or (field message "message") (JStr "") with
  | JStr input =>
      let chatMessage := sanitizeInput input in
      if (500 <? String.length chatMessage)%nat then
        socket_send (Client.userId client) (FError "Message too long")
      else
        broadcastToRoom (Client.room client) None
          (FChat (Client.userId client) (Client.name client) chatMessage
             (IsoString now))
  | _ => throw "TypeError: input.replace is not a function"
  end.

(** [function sendRoomUsers(client)] *)
Definition sendRoomUsers (client : Client.t) (now : Z) : M unit :=
  roomUsers ← getRoomUsers (Client.room client);
  socket_send (Client.userId client) (FUsers roomUsers (IsoString now)).

(** [function handleWebSocketMessage(clientId, message)]; the first read
    of [message.type], after the lookup of the client, is a [TypeError]
    when [message] is [null]. *)
Definition handleWebSocketMessage (clientId : string) (parsed : Parsed)
    (now : Z) : M unit :=
  s ← get_state;
  match clients s !! clientId with
  | None => mret tt
  | Some client =>
      match parsed with
      | ParsedNull => throw "TypeError: Cannot read properties of null"
      | ParsedOther => mret tt
      | ParsedObject message =>
        let type := field message "type" in
        if strict_eq_str type "ping" then
          socket_send (Client.userId client) (FPong (Millis now))
        else if strict_eq_str type "join" then mret tt
        else if strict_eq_str type "bingo-number" then
          handleBingoNumber client message now
        else if strict_eq_str type "winner" then
          handleWinner client message now
        else if strict_eq_str type "offer" || strict_eq_str type "answer"
                || strict_eq_str type "ice-candidate" then
          handleRTCSignaling client message
        else if strict_eq_str type "chat" then
          handleChatMessage client message now
        else if strict_eq_str type "get-users" then
          sendRoomUsers client now
        else mret tt
      end
  end.

(** [socket.onmessage] of the connection [clientId]; [parsed] is the result
    of [JSON.parse(event.data)], [None] when it throws. *)
Definition onmessage (clientId : string) (parsed : option Parsed)
    (now : Z) : M unit :=
  try_catch
    (match parsed with
     | Some message => handleWebSocketMessage clientId message now
     | None => throw "SyntaxError"
     end)
    (λ _, socket_send clientId (FError "Invalid message format")).

(** [function handleClientDisconnect(clientId)] *)
Definition handleClientDisconnect (clientId : string) (now : Z) : M unit :=
  s ← get_state;
  match clients s !! clientId with
  | None => mret tt
  | Some client =>
      let room := Client.room client in
      match rooms s !! room with
      | Some roomObj =>
          let members := Set_delete clientId (Room.clients roomObj) in
          set_rooms (<[room := Room.mk members (Room.name roomObj)
                                 (Room.createdAt roomObj)]>) ;;
          if bool_decide (Set_size members = 0%nat)
          then set_rooms (delete room)
          else mret tt
      | None => mret tt
      end ;;
      set_clients (delete clientId) ;;
      set_clientRooms (delete clientId) ;;
      users ← getRoomUsers room;
      broadcastToRoom room None
        (FUserLeft clientId (Client.name client) (IsoString now) users)
  end.

(** Join and leave operations on the registry and the directory. *)
Inductive Op :=
  | Join (clientId : string) (name_param room_param role_param : option string)
      (ip : string) (now : Z)
  | Leave (clientId : string) (now : Z).

Definition exec (op : Op) : M unit :=
  match op with
  | Join clientId name_param room_param role_param ip now =>
      handleWebSocket clientId name_param room_param role_param ip now
  | Leave clientId now => handleClientDisconnect clientId now
  end.

(** The state after a sequence of operations. *)
Definition run (ops : list Op) (s : State) : State :=
  foldl (λ st op, state_of (exec op st)) s ops.

(** [const ADMIN_PASSWORD = Deno.env.get("ADMIN_PASSWORD") || "we17me78"] *)
Definition ADMIN_PASSWORD (env : option string) : string :=
  param_or env "we17me78".

(** [function validatePassword(input: string | null): boolean] *)
Definition validatePassword (password : string) (input : option string)
    : bool :=
  match input with
  | None => false
  | Some v => if String.eqb v "" then false else String.eqb v password
  end.

(** [function getClientIp(req: Request): string] *)
Definition getClientIp (req : Request.t) : string :=
  param_or
    (match Request.headers req !! "x-forwarded-for" with
     | Some forwardedFor => Some (trim (first_field "," forwardedFor))
     | None => None
     end)
    (param_or (Request.headers req !! "x-real-ip") "unknown").

(** [async function serveStaticFile(path, headers)]; [fs] gives the size of
    the file at a path, [None] when [Deno.open] throws. *)
Definition serveStaticFile (fs : string → option N) (path : string)
    (headers : gmap string string) : Response.t :=
  let filePath :=
    if starts_with "/" path
    then String.substring 1 (String.length path - 1) path
    else path in
  let finalPath :=
    if String.eqb filePath "" then "frontend/index.html" else filePath in
  match fs finalPath with
  | Some size =>
      let contentType :=
        if ends_with ".html" finalPath then "text/html"
        else if ends_with ".js" finalPath then "application/javascript"
        else if ends_with ".css" finalPath then "text/css"
        else if ends_with ".png" finalPath then "image/png"
        else if ends_with ".jpg" finalPath || ends_with ".jpeg" finalPath
        then "image/jpeg"
        else if ends_with ".mp3" finalPath then "audio/mpeg"
        else if ends_with ".json" finalPath then "application/json"
        else "text/plain" in
      Response.mk 200
        (<["content-length" := size_toString size]>
           (<["content-type" := contentType]> headers))
        (BodyFile finalPath)
  | None =>
      if includes "admin" path then
        Response.mk 404 ∅ (BodyText "Admin page not found")
      else
        Response.mk 404 {[ "content-type" := "text/html" ]}
          (BodyPage NotFoundPage)
  end.

(** [async function handleAdminRequest(req)] *)
Definition handleAdminRequest (fs : string → option N) (password : string)
    (req : Request.t) : Response.t :=
  if negb (validatePassword password (Request.searchParams req !! "password"))
  then
    Response.mk 403 {[ "content-type" := "text/html" ]}
      (BodyPage AccessDeniedPage)
  else
    serveStaticFile fs "frontend/admin.html" {[ "content-type" := "text/html" ]}.

(** [async function handleRequest(req)].  [clientId] is what
    [generateClientId()] returns when it is called; [observability] stands
    for the [/health] and [/stats] branches, which read [process.uptime()].
    In the [/ws] branch [Deno.upgradeWebSocket] is taken to accept the
    request. *)
Definition handleRequest (fs : string → option N) (password : string)
    (observability : string → M Response.t) (req : Request.t)
    (clientId : string) (now : Z) : M Response.t :=
  let path := Request.pathname req in
  let clientIp := getClientIp req in
  limited ← isRateLimited clientIp now;
  if limited : bool then
    mret (Response.mk 429 ∅ (BodyText "Too many requests"))
  else
    let headers := cors_headers in
    if String.eqb (Request.method req) "OPTIONS" then
      mret (Response.mk 200 headers BodyNull)
    else if String.eqb path "/ws" then
      if bool_decide (Request.headers req !! "upgrade" = Some "websocket")
      then
        handleWebSocket clientId (Request.searchParams req !! "name")
          (Request.searchParams req !! "room")
          (Request.searchParams req !! "role") (getClientIp req) now ;;
        mret upgrade_response
      else
        mret (Response.mk 400 ∅ (BodyText "Expected WebSocket upgrade"))
    else if String.eqb path "/admin.html" || String.eqb path "/admin" then
      mret (handleAdminRequest fs password req)
    else if String.eqb path "/health" || String.eqb path "/stats" then
      observability path
    else if String.eqb path "/" || String.eqb path "/index.html" then
      mret (serveStaticFile fs "frontend/index.html" headers)
    else
      mret (serveStaticFile fs path headers).

End Server.

(** The deployment variant [src/unnamed/part_000]: the same maps (it has no
    [rateLimits]), numeric timestamps, and its own copy of the router. *)
Module Deploy.

(** [function sanitizeInput(input: string): string] *)
Definition sanitizeInput (input : string) : string :=
  if String.eqb input "" then ""
  else
    replaceAll squote "&#x27;"
      (replaceAll dquote "&quot;"
         (replaceAll gt_sign "&gt;"
            (replaceAll lt_sign "&lt;" input))).

(** [function getRoomUsers(room: string)] *)
Definition getRoomUsers (room : string) : M (list UserInfo.t) :=
  s ← get_state;
  match rooms s !! room with
  | None => mret []
  | Some roomObj =>
      mret (omap (λ clientId,
                    match clients s !! clientId with
                    | Some client =>
                        Some (UserInfo.mk (Client.userId client)
                                (Client.name client) (Client.role client)
                                (Client.joinedAt client))
                    | None => None
                    end)
              (Room.clients roomObj))
  end.

(** [function broadcastToRoom(room, excludeClientId, message)]; the frame is
    serialized once, before the loop. *)
Definition broadcastToRoom (room : string) (excludeClientId : option string)
    (message : Frame) : M unit :=
  s ← get_state;
  match rooms s !! room with
  | None => mret tt
  | Some roomObj =>
      let messageStr := message in
      for_of (Room.clients roomObj) (λ clientId,
        if bool_decide (Some clientId = excludeClientId) then mret tt
        else
          s' ← get_state;
          match clients s' !! clientId with
          | Some client =>
              if bool_decide (readyState (Client.socket client) = OPEN)
              then socket_send (Client.userId client) messageStr
              else mret tt
          | None => mret tt
          end)
  end.

(** [function handleBingoNumber(client, message)] *)
Definition handleBingoNumber (client : Client.t) (message : WebSocketMessage)
    (now : Z) : M unit :=
  let number := field message "number" in
  match number with
  | JNum n =>
      if js_lt n (js_int 1) || js_gt n (js_int 90) then
        socket_send (Client.userId client)
          (FError "Invalid bingo number (1-90)")
      else
        broadcastToRoom (Client.room client) (Some (Client.userId client))
          (FBingoNumber n (Client.name client) (Millis now))
  | _ =>
      socket_send (Client.userId client) (FError "Invalid bingo number (1-90)")
  end.

(** [function handleWinner(client, message)] *)
Definition handleWinner (client : Client.t) (message : WebSocketMessage)
    (now : Z) : M unit :=
  broadcastToRoom (Client.room client) None
    (FWinner (Client.userId client) (Client.name client) (Millis now)
       (js_or (field message "winAmount") (JNum (js_int 0)))).

(** [function handleRTCSignaling(client, message)] *)
Definition handleRTCSignaling (client : Client.t)
    (message : WebSocketMessage) : M unit :=
  let target := field message "target" in
  if strict_eq_str target "broadcast" then
    broadcastToRoom (Client.room client) (Some (Client.userId client))
      (FRelay message (Client.userId client))
  else if truthy target then
    s ← get_state;
    match Map_get (clients s) target with
    | Some targetClient =>
        if bool_decide (Client.room targetClient = Client.room client) then
          WebSocket_send (Client.socket targetClient)
            (Client.userId targetClient)
            (FRelay message (Client.userId client))
        else mret tt
    | None => mret tt
    end
  else mret tt.

(** [function handleChatMessage(client, message)] *)
Definition handleChatMessage (client : Client.t) (message : WebSocketMessage)
    (now : Z) : M unit :=
  match js_or (field message "message") (JStr "") with
  | JStr input =>
      let chatMessage := sanitizeInput input in
      if (500 <? String.length chatMessage)%nat then
        socket_send (Client.userId client) (FError "Message too long")
      else
        broadcastToRoom (Client.room client) None
          (FChat (Client.userId client) (Client.name client) chatMessage
             (Millis now))
  | _ => throw "TypeError: input.replace is not a function"
  end.

(** [function sendRoomUsers(client)] *)
Definition sendRoomUsers (client : Client.t) (now : Z) : M unit :=
  roomUsers ← getRoomUsers (Client.room client);
  socket_send (Client.userId client) (FUsers roomUsers (Millis now)).

(** [function handleWebSocketMessage(clientId, message)]; [switch
    (message.type)], after the lookup of the client, is a [TypeError] when
    [message] is [null]. *)
Definition handleWebSocketMessage (clientId : string) (parsed : Parsed)
    (now : Z) : M unit :=
  s ← get_state;
  match clients s !! clientId with
  | None => mret tt
  | Some client =>
      match parsed with
      | ParsedNull => throw "TypeError: Cannot read properties of null"
      | ParsedOther => mret tt
      | ParsedObject message =>
        let type := field message "type" in
        if strict_eq_str type "ping" then
          socket_send (Client.userId client) (FPong (Millis now))
        else if strict_eq_str type "bingo-number" then
          handleBingoNumber client message now
        else if strict_eq_str type "winner" then
          handleWinner client message now
        else if strict_eq_str type "offer" || strict_eq_str type "answer"
                || strict_eq_str type "ice-candidate" then
          handleRTCSignaling client message
        else if strict_eq_str type "chat" then
          handleChatMessage client message now
        else if strict_eq_str type "get-users" then
          sendRoomUsers client now
        else mret tt
      end
  end.

(** [function getClientIp(req: Request): string] *)
Definition getClientIp (req : Request.t) : string :=
  match Request.headers req !! "x-forwarded-for" with
  | Some forwardedFor =>
      if String.eqb forwardedFor "" then
        param_or (Request.headers req !! "x-real-ip") "unknown"
      else
        param_or (Some (trim (first_field "," forwardedFor))) "unknown"
  | None => param_or (Request.headers req !! "x-real-ip") "unknown"
  end.

(** The synchronous part of [handleWebSocket(req)]; [clientId] is what
    [generateClientId()] returns. *)
Definition handleWebSocket (clientId : string)
    (name_param room_param role_param : option string) (ip : string)
    (now : Z) : M unit :=
  let name := sanitizeInput (param_or name_param "Anonymous") in
  let room := sanitizeInput (param_or room_param "bingo_main") in
  let role := sanitizeInput (param_or role_param "player") in
  let client :=
    Client.mk {| readyState := CONNECTING |} clientId name room role now ip in
  set_clients (<[clientId := client]>) ;;
  s ← get_state;
  (if bool_decide (is_Some (rooms s !! room)) then mret tt
   else set_rooms (<[room := Room.mk [] room now]>)) ;;
  s ← get_state;
  match rooms s !! room with
  | Some roomObj =>
      set_rooms (<[room := Room.mk (Set_add clientId (Room.clients roomObj))
                             (Room.name roomObj) (Room.createdAt roomObj)]>)
  | None => throw "TypeError"
  end ;;
  set_clientRooms (<[clientId := room]>).

(** [socket.onopen] of the connection [clientId]. *)
Definition onopen (clientId name room : string) (now : Z) : M unit :=
  socket_send clientId
    (FWelcome ("Welcome to " +:+ room +:+ "!") clientId (Millis now)) ;;
  users ← getRoomUsers room;
  broadcastToRoom room (Some clientId)
    (FUserJoined clientId name (Millis now) users).

(** [function handleClientDisconnect(clientId)] *)
Definition handleClientDisconnect (clientId : string) (now : Z) : M unit :=
  s ← get_state;
  match clients s !! clientId with
  | None => mret tt
  | Some client =>
      let room := Client.room client in
      match rooms s !! room with
      | Some roomObj =>
          let members := Set_delete clientId (Room.clients roomObj) in
          set_rooms (<[room := Room.mk members (Room.name roomObj)
                                 (Room.createdAt roomObj)]>) ;;
          if bool_decide (Set_size members = 0%nat)
          then set_rooms (delete room)
          else mret tt
      | None => mret tt
      end ;;
      set_clients (delete clientId) ;;
      set_clientRooms (delete clientId) ;;
      users ← getRoomUsers room;
      broadcastToRoom room None
        (FUserLeft clientId (Client.name client) (Millis now) users)
  end.

(** [async function handleRequest(req)], up to its [/ws] branch; the later
    branches (admin page, [/health], [/stats], files) are [later].  In the
    [/ws] branch [Deno.upgradeWebSocket] is taken to accept the request. *)
Definition handleRequest (later : Request.t → M Response.t)
    (req : Request.t) (clientId : string) (now : Z) : M Response.t :=
  let path := Request.pathname req in
  let headers := cors_headers in
  if String.eqb (Request.method req) "OPTIONS" then
    mret (Response.mk 200 headers BodyNull)
  else if String.eqb path "/ws" then
    if bool_decide (Request.headers req !! "upgrade" = Some "websocket")
    then
      handleWebSocket clientId (Request.searchParams req !! "name")
        (Request.searchParams req !! "room")
        (Request.searchParams req !! "role") (getClientIp req) now ;;
      mret upgrade_response
    else
      mret (Response.mk 400 ∅ (BodyText "Expected WebSocket"))
  else later req.

End Deploy.

(** ** Predicates used by the statements *)

(** A string without any of the four characters [sanitizeInput] escapes. *)
Definition clean (s : string) : Prop :=
  occurs lt_sign s = false ∧ occurs gt_sign s = false ∧
  occurs dquote s = false ∧ occurs squote s = false.

(** The member ids of a room; a room that does not exist has none. *)
Definition members (s : State) (room : string) : list string :=
  match rooms s !! room with
  | Some roomObj => Room.clients roomObj
  | None => []
  end.

(** The shape every state built by the code has: a member [Set] holds an id
    once, and a client is stored under its own [userId]. *)
Definition well_formed (s : State) : Prop :=
  (∀ room roomObj, rooms s !! room = Some roomObj →
     NoDup (Room.clients roomObj)) ∧
  (∀ clientId client, clients s !! clientId = Some client →
     Client.userId client = clientId).

(** The registry and the directory agree, in both directions. *)
Definition consistent (s : State) : Prop :=
  (∀ room roomObj clientId,
     rooms s !! room = Some roomObj → clientId ∈ Room.clients roomObj →
     ∃ client, clients s !! clientId = Some client ∧
               Client.room client = room) ∧
  (∀ clientId client,
     clients s !! clientId = Some client →
     ∃ roomObj, rooms s !! Client.room client = Some roomObj ∧
                clientId ∈ Room.clients roomObj).

(** The answers of [isRateLimited] to a sequence of calls, each with its
    origin and the time it is made at. *)
Fixpoint admissions (calls : list (string * Z)) : M (list bool) :=
  match calls with
  | [] => mret []
  | (ip, now) :: rest =>
      limited ← Server.isRateLimited ip now;
      others ← admissions rest;
      mret (limited :: others)
  end.

(** The state with the bucket of [ip] replaced. *)
Definition with_bucket (s : State) (ip : string) (bucket : RateLimit.t)
    : State :=
  mkState (clients s) (rooms s) (clientRooms s) (<[ip := bucket]> (rateLimits s)).

(** [ip] has no bucket, or the window of its bucket has elapsed at [now]. *)
Definition window_over (s : State) (ip : string) (now : Z) : Prop :=
  match rateLimits s !! ip with
  | None => True
  | Some limit => RateLimit.resetTime limit < now
  end.

(** Every name and room name kept in the maps is left unchanged by
    [sanitizeInput]. *)
Definition sanitized (s : State) : Prop :=
  (∀ clientId client, clients s !! clientId = Some client →
     Server.sanitizeInput (Client.name client) = Client.name client ∧
     Server.sanitizeInput (Client.room client) = Client.room client) ∧
  (∀ room roomObj, rooms s !! room = Some roomObj →
     Server.sanitizeInput room = room ∧
     Server.sanitizeInput (Room.name roomObj) = Room.name roomObj).

(** No room object with an empty member set is kept in [rooms]. *)
Definition no_empty_room (s : State) : Prop :=
  ∀ room roomObj, rooms s !! room = Some roomObj → Room.clients roomObj ≠ [].

(** Every join of the sequence uses an id that is not in [clients] when it
    runs, as ids drawn by [generateClientId] are meant to be. *)
Fixpoint fresh_joins (ops : list Server.Op) (s : State) : Prop :=
  match ops with
  | [] => True
  | op :: rest =>
      match op with
      | Server.Join clientId _ _ _ _ _ => clients s !! clientId = None
      | Server.Leave _ _ => True
      end ∧ fresh_joins rest (state_of (Server.exec op s))
  end.

(** The connection [clientId] is registered and its socket is open. *)
Definition is_open (s : State) (clientId : string) : bool :=
  match clients s !! clientId with
  | Some client => bool_decide (readyState (Client.socket client) = OPEN)
  | None => false
  end.

(** The ids a broadcast to [room] writes to, in order: the members other
    than [excludeClientId] that are registered with an open socket. *)
Definition recipients (s : State) (room : string)
    (excludeClientId : option string) : list string :=
  filter (λ clientId, Some clientId ≠ excludeClientId ∧
                      is_open s clientId = true)
    (members s room).

(** The [users] list [getRoomUsers] builds for [room]. *)
Definition room_users (s : State) (room : string) : list UserInfo.t :=
  omap (λ clientId,
          match clients s !! clientId with
          | Some client =>
              Some (UserInfo.mk (Client.userId client) (Client.name client)
                      (Client.role client) (Client.joinedAt client))
          | None => None
          end)
    (members s room).

(** The client object [handleWebSocket] builds. *)
Definition new_client (clientId : string)
    (name_param room_param role_param : option string) (ip : string)
    (now : Z) : Client.t :=
  Client.mk {| readyState := CONNECTING |} clientId
    (Server.sanitizeInput (param_or name_param "Anonymous"))
    (Server.sanitizeInput (param_or room_param "bingo_main"))
    (Server.sanitizeInput (param_or role_param "player")) now ip.

(** The room object a join adds its member to: the existing one, or a new
    empty one. *)
Definition room_or_new (s : State) (room : string) (now : Z) : Room.t :=
  default (Room.mk [] room now) (rooms s !! room).

(** The state after the join of [client] under [clientId]. *)
Definition joined (s : State) (clientId : string) (client : Client.t)
    (now : Z) : State :=
  let room := Client.room client in
  let roomObj := room_or_new s room now in
  mkState (<[clientId := client]> (clients s))
    (<[room := Room.mk (Set_add clientId (Room.clients roomObj))
                 (Room.name roomObj) (Room.createdAt roomObj)]> (rooms s))
    (<[clientId := room]> (clientRooms s))
    (rateLimits s).

(** The directory after [clientId] left [room]. *)
Definition rooms_without (s : State) (clientId room : string)
    : gmap string Room.t :=
  match rooms s !! room with
  | Some roomObj =>
      let remaining := Set_delete clientId (Room.clients roomObj) in
      if bool_decide (Set_size remaining = 0%nat) then delete room (rooms s)
      else <[room := Room.mk remaining (Room.name roomObj)
                       (Room.createdAt roomObj)]> (rooms s)
  | None => rooms s
  end.

(** The state after the registered client [client] left. *)
Definition left (s : State) (clientId : string) (client : Client.t) : State :=
  mkState (delete clientId (clients s))
    (rooms_without s clientId (Client.room client))
    (delete clientId (clientRooms s))
    (rateLimits s).

(** The body of the loop of [broadcastToRoom]. *)
Definition broadcast_body (excludeClientId : option string) (message : Frame)
    (clientId : string) : M unit :=
  if bool_decide (Some clientId = excludeClientId) then mret tt
  else
    s' ← get_state;
    match clients s' !! clientId with
    | Some client =>
        if bool_decide (readyState (Client.socket client) = OPEN)
        then socket_send (Client.userId client) message
        else mret tt
    | None => mret tt
    end.

(** The connections one round of the loop writes to: none or one. *)
Definition broadcast_target (s : State) (excludeClientId : option string)
    (clientId : string) : list string :=
  if bool_decide (Some clientId = excludeClientId) then []
  else
    match clients s !! clientId with
    | Some client =>
        if bool_decide (readyState (Client.socket client) = OPEN)
        then [Client.userId client]
        else []
    | None => []
    end.

(** The connections a broadcast to [room] writes to, in any state. *)
Definition broadcast_targets (s : State) (room : string)
    (excludeClientId : option string) : list string :=
  members s room ≫= broadcast_target s excludeClientId.

(** A frame that reports an error to its recipient. *)
Definition frame_is_error (f : Frame) : bool :=
  match f with
  | FError _ => true
  | _ => false
  end.

(** The (recipient, frame type) pairs of a trace. *)
Definition deliveries (t : list Send) : list (string * JsValue) :=
  (λ x : Send, (x.1, frame_type x.2)) <$> t.

(** The (recipient, is an error frame) pairs of a trace. *)
Definition decisions (t : list Send) : list (string * bool) :=
  (λ x : Send, (x.1, frame_is_error x.2)) <$> t.

(** Two runs end alike: the same result and state, and frames of the same
    types to the same recipients, in the same order. *)
Definition same_routing (r1 r2 : Result unit * State * list Send) : Prop :=
  result_of r1 = result_of r2 ∧ state_of r1 = state_of r2 ∧
  deliveries (sends_of r1) = deliveries (sends_of r2) ∧
  decisions (sends_of r1) = decisions (sends_of r2).

(** [clientRooms] repeats, for every registered connection, the [room] of
    its registry entry, and holds nothing else. *)
Definition mirrored (s : State) : Prop :=
  ∀ clientId, clientRooms s !! clientId = Client.room <$> clients s !! clientId.


(** The responses of [handleRequest] to a sequence of requests, each with
    the id [generateClientId] would give it and the time it arrives at. *)
Fixpoint serve_all (fs : string → option N) (password : string)
    (observability : string → M Response.t)
    (requests : list (Request.t * string * Z)) : M (list Response.t) :=
  match requests with
  | [] => mret []
  | (req, clientId, now) :: rest =>
      response ← Server.handleRequest fs password observability req clientId
                   now;
      others ← serve_all fs password observability rest;
      mret (response :: others)
  end.

(** The sends of a trace stay with the sender [client]: each goes to the
    sender, to a target of a broadcast to the sender's room, or to a
    registered client whose [room] is the sender's. *)
Definition local_sends (s : State) (client : Client.t) (t : list Send)
    : Prop :=
  ∀ to frame, (to, frame) ∈ t →
    to = Client.userId client ∨
    (∃ excludeClientId,
       to ∈ broadcast_targets s (Client.room client) excludeClientId) ∨
    (∃ target targetClient,
       clients s !! target = Some targetClient ∧
       to = Client.userId targetClient ∧
       Client.room targetClient = Client.room client).

(** A chat whose payload is neither falsy nor a string: [sanitizeInput]
    calls [replace] on it. *)
Definition chat_payload_error (message : WebSocketMessage) : Prop :=
  field message "type" = JStr "chat" ∧
  truthy (field message "message") = true ∧
  ∀ text, field message "message" ≠ JStr text.

(** A signaling message of [client] whose target names a registered
    connection of the same room whose socket is still connecting. *)
Definition connecting_target (s : State) (client : Client.t)
    (message : WebSocketMessage) : Prop :=
  ∃ type target targetClient,
    field message "type" = JStr type ∧
    type ∈ ["offer"; "answer"; "ice-candidate"] ∧
    field message "target" = JStr target ∧
    target ≠ "broadcast" ∧ target ≠ "" ∧
    clients s !! target = Some targetClient ∧
    Client.room targetClient = Client.room client ∧
    readyState (Client.socket targetClient) = CONNECTING.

(** The frames of the registered sender [client] for which the router
    raises: [null], a chat with a payload that has no [replace], and a
    signaling message for a target that is still connecting. *)
Definition router_raises (s : State) (client : Client.t) (parsed : Parsed)
    : Prop :=
  match parsed with
  | ParsedNull => True
  | ParsedOther => False
  | ParsedObject message =>
      chat_payload_error message ∨ connecting_target s client message
  end.


(** The frame with its timestamp in the format of the deployment variant. *)
Definition numeric_timestamp (f : Frame) : Frame :=
  let numeric (t : Timestamp) : Timestamp :=
    match t with
    | IsoString ms | Millis ms => Millis ms
    end in
  match f with
  | FWelcome message userId t => FWelcome message userId (numeric t)
  | FUserJoined userId name t users => FUserJoined userId name (numeric t) users
  | FUserLeft userId name t users => FUserLeft userId name (numeric t) users
  | FPong t => FPong (numeric t)
  | FError message => FError message
  | FBingoNumber number calledBy t => FBingoNumber number calledBy (numeric t)
  | FWinner userId userName t winAmount =>
      FWinner userId userName (numeric t) winAmount
  | FChat userId userName message t => FChat userId userName message (numeric t)
  | FUsers users t => FUsers users (numeric t)
  | FRelay message from => FRelay message from
  end.

(** The trace with every frame in the format of the deployment variant. *)
Definition numeric_timestamps (t : list Send) : list Send :=
  (λ x : Send, (x.1, numeric_timestamp x.2)) <$> t.

(** A string that does not begin with white space. *)
Definition starts_clean (s : string) : bool :=
  match s with
  | EmptyString => true
  | String c _ => negb (is_space c)
  end.

(** The first entry of an [x-forwarded-for] value, trimmed. *)
Definition first_forwarded (forwardedFor : string) : string :=
  trim (first_field "," forwardedFor).

(** A call of [isRateLimited] for [ip] at [now] will not be rejected: [ip]
    has no bucket, or its window has elapsed, or its count is below 100. *)
Definition admitted (s : State) (ip : string) (now : Z) : Prop :=
  match rateLimits s !! ip with
  | None => True
  | Some limit =>
      RateLimit.resetTime limit < now ∨ RateLimit.count limit < 100
  end.

(** The request asks for a websocket upgrade on [/ws]. *)
Definition is_upgrade (req : Request.t) : Prop :=
  Request.method req ≠ "OPTIONS" ∧ Request.pathname req = "/ws" ∧
  Request.headers req !! "upgrade" = Some "websocket".

(** The request is for one of the two branches left to [observability]. *)
Definition is_observability (req : Request.t) : Prop :=
  Request.method req ≠ "OPTIONS" ∧
  (Request.pathname req = "/health" ∨ Request.pathname req = "/stats").

(** ** Example states *)

(** Ann and Bob have joined room ["r1"], Cy room ["r2"]. *)
Definition three_joined : State :=
  Server.run
    [Server.Join "a" (Some "Ann") (Some "r1") None "10.0.0.1" 1;
     Server.Join "b" (Some "Bob") (Some "r1") None "10.0.0.2" 2;
     Server.Join "c" (Some "Cy") (Some "r2") None "10.0.0.3" 3]
    initial.

(** All three sockets have been opened. *)
Definition all_open : State :=
  state_of
    ((socket_state "a" OPEN ;; socket_state "b" OPEN ;;
      socket_state "c" OPEN) three_joined).

(** Bob's socket is still connecting: his [open] event has not come yet. *)
Definition bob_connecting : State :=
  state_of ((socket_state "a" OPEN ;; socket_state "c" OPEN) three_joined).

(** * Properties *)

Local Arguments Server.sanitizeInput : simpl never.

Lemma occurs_app d s t : occurs d (s +:+ t) = occurs d s || occurs d t.
Proof.
  induction s as [|x s IH]; simpl; [done|].
  rewrite IH. by rewrite orb_assoc.
Qed.

Lemma replaceAll_absent c rep s :
  occurs c s = false → replaceAll c rep s = s.
Proof.
  induction s as [|x s IH]; simpl; [done|].
  intros [Hx Hs]%orb_false_iff. rewrite Hx. f_equal. auto.
Qed.

Lemma occurs_replaceAll d c rep s :
  occurs d rep = false →
  d = c ∨ occurs d s = false →
  occurs d (replaceAll c rep s) = false.
Proof.
  intros Hrep Hd. induction s as [|x s IH]; simpl; [done|].
  assert (Hs : d = c ∨ occurs d s = false).
  { destruct Hd as [->|Hd]; [by left|]. simpl in Hd.
    apply orb_false_iff in Hd as [_ Hd]. by right. }
  destruct (Ascii.eqb x c) eqn:Hxc.
  - rewrite occurs_app, Hrep. simpl. auto.
  - simpl. rewrite (IH Hs), orb_false_r.
    destruct Hd as [->|Hd]; [done|]. simpl in Hd.
    by apply orb_false_iff in Hd as [Hd _].
Qed.

(** ** Sanitization *)

Lemma sanitizeInput_clean input : clean (Server.sanitizeInput input).
Proof.
  unfold clean, Server.sanitizeInput.
  repeat split.
  - do 3 (apply occurs_replaceAll; [reflexivity|right]).
    apply occurs_replaceAll; [reflexivity|by left].
  - do 2 (apply occurs_replaceAll; [reflexivity|right]).
    apply occurs_replaceAll; [reflexivity|by left].
  - apply occurs_replaceAll; [reflexivity|right].
    apply occurs_replaceAll; [reflexivity|by left].
  - apply occurs_replaceAll; [reflexivity|by left].
Qed.

Lemma sanitizeInput_fixed s : clean s → Server.sanitizeInput s = s.
Proof.
  intros (Hlt & Hgt & Hdq & Hsq). unfold Server.sanitizeInput.
  by rewrite (replaceAll_absent lt_sign), (replaceAll_absent gt_sign),
    (replaceAll_absent dquote), (replaceAll_absent squote).
Qed.

Lemma Deploy_sanitizeInput_eq input :
  Deploy.sanitizeInput input = Server.sanitizeInput input.
Proof.
  unfold Deploy.sanitizeInput. destruct (String.eqb_spec input "") as [->|]; done.
Qed.

Lemma length_app_str s t :
  String.length (s +:+ t) = (String.length s + String.length t)%nat.
Proof. induction s as [|x s IH]; simpl; [done|]. by rewrite IH. Qed.

Lemma replaceAll_length c rep s :
  (0 < String.length rep)%nat →
  (String.length s ≤ String.length (replaceAll c rep s))%nat.
Proof.
  intros Hrep. induction s as [|x s IH]; simpl; [done|].
  destruct (Ascii.eqb x c); simpl; [rewrite length_app_str|]; lia.
Qed.

Lemma sanitizeInput_length input :
  (String.length input ≤ String.length (Server.sanitizeInput input))%nat.
Proof.
  unfold Server.sanitizeInput.
  etrans; [apply (replaceAll_length lt_sign "&lt;"); simpl; lia|].
  etrans; [apply (replaceAll_length gt_sign "&gt;"); simpl; lia|].
  etrans; [apply (replaceAll_length dquote "&quot;"); simpl; lia|].
  apply (replaceAll_length squote "&#x27;"); simpl; lia.
Qed.

(** ** The monad *)

Ltac run_m :=
  cbv [mbind M_bind mret M_ret get_state put_state throw socket_send
       set_clients set_rooms set_clientRooms set_rateLimits];
  cbn [clients rooms clientRooms rateLimits].

Lemma bind_ret_l {A B} (m : M A) (f : A → M B) s a s1 t1 :
  m s = (Ret a, s1, t1) →
  (m ≫= f) s = (let '(r, s2, t2) := f a s1 in (r, s2, t1 ++ t2)).
Proof. intros H. unfold mbind, M_bind. rewrite H. by destruct (f a s1) as [[??]?]. Qed.

(** ** Broadcast *)

Section broadcast.
Context (s : State) (excludeClientId : option string) (message : Frame).

Lemma broadcast_body_spec clientId :
  broadcast_body excludeClientId message clientId s =
    (Ret tt, s,
     (λ to, (to, message)) <$> broadcast_target s excludeClientId clientId).
Proof.
  unfold broadcast_body, broadcast_target.
  case_bool_decide; [done|]. run_m.
  destruct (clients s !! clientId) as [client|]; [|done].
  by case_bool_decide.
Qed.

Lemma broadcast_loop (l : list string) :
  for_of l (broadcast_body excludeClientId message) s =
    (Ret tt, s,
     (λ to, (to, message)) <$> (l ≫= broadcast_target s excludeClientId)).
Proof.
  induction l as [|x l IH]; [done|].
  cbn [for_of].
  rewrite (bind_ret_l _ _ _ _ _ _ (broadcast_body_spec x)), IH.
  by rewrite bind_cons, fmap_app.
Qed.

Lemma broadcast_targets_recipients room :
  well_formed s →
  broadcast_targets s room excludeClientId =
  recipients s room excludeClientId.
Proof.
  intros [_ Hid]. unfold broadcast_targets, recipients.
  induction (members s room) as [|x l IH]; [done|].
  rewrite bind_cons, filter_cons, IH.
  unfold broadcast_target, is_open.
  case_bool_decide as Hex.
  - rewrite decide_False; [done|]. by intros [? _].
  - destruct (clients s !! x) as [client|] eqn:Hx.
    + case_bool_decide as Hop.
      * rewrite decide_True by done. by rewrite (Hid _ _ Hx).
      * rewrite decide_False; [done|]. by intros [_ ?].
    + rewrite decide_False; [done|]. by intros [_ ?].
Qed.
End broadcast.

Lemma broadcastToRoom_run s room excludeClientId message :
  Server.broadcastToRoom room excludeClientId message s =
    (Ret tt, s,
     (λ to, (to, message)) <$> broadcast_targets s room excludeClientId).
Proof.
  unfold Server.broadcastToRoom, broadcast_targets, members.
  unfold mbind at 1, M_bind at 1, get_state at 1.
  destruct (rooms s !! room) as [roomObj|]; [|done].
  pose proof (broadcast_loop s excludeClientId message
                (Room.clients roomObj)) as H.
  unfold broadcast_body in H. by rewrite H.
Qed.

Lemma broadcastToRoom_spec s room excludeClientId message :
  well_formed s →
  Server.broadcastToRoom room excludeClientId message s =
    (Ret tt, s,
     (λ clientId, (clientId, message)) <$> recipients s room excludeClientId).
Proof.
  intros Hwf. rewrite broadcastToRoom_run.
  by rewrite broadcast_targets_recipients.
Qed.

Lemma Deploy_broadcastToRoom_eq room excludeClientId message :
  Deploy.broadcastToRoom room excludeClientId message =
  Server.broadcastToRoom room excludeClientId message.
Proof. reflexivity. Qed.

(** ** Join and leave *)

Lemma getRoomUsers_spec s room :
  Server.getRoomUsers room s = (Ret (room_users s room), s, []).
Proof.
  unfold Server.getRoomUsers, room_users, members, mbind, M_bind, get_state.
  by destruct (rooms s !! room).
Qed.

Lemma handleWebSocket_spec clientId name_param room_param role_param ip now s :
  Server.handleWebSocket clientId name_param room_param role_param ip now s =
    (Ret tt,
     joined s clientId
       (new_client clientId name_param room_param role_param ip now) now,
     []).
Proof.
  unfold Server.handleWebSocket, joined, new_client, room_or_new.
  cbn [Client.room].
  set (room := Server.sanitizeInput (param_or room_param "bingo_main")).
  run_m.
  destruct (rooms s !! room) as [roomObj|] eqn:Hroom.
  - rewrite bool_decide_true by eauto. run_m. by rewrite Hroom.
  - rewrite bool_decide_false by (by intros [??]). run_m.
    rewrite lookup_insert_eq. cbn. by rewrite insert_insert_eq.
Qed.

Lemma handleClientDisconnect_absent clientId now s :
  clients s !! clientId = None →
  Server.handleClientDisconnect clientId now s = (Ret tt, s, []).
Proof.
  intros H. unfold Server.handleClientDisconnect, mbind, M_bind, get_state.
  by rewrite H.
Qed.

Lemma well_formed_left s clientId client :
  well_formed s → well_formed (left s clientId client).
Proof.
  intros [Hnd Hid]. split; cbn.
  - intros room roomObj. unfold rooms_without.
    destruct (rooms s !! Client.room client) as [ro|] eqn:Hro; [|by eauto].
    case_bool_decide.
    + intros [_ ?]%lookup_delete_Some. eauto.
    + intros [[_ <-]|[_ ?]]%lookup_insert_Some; [|by eauto].
      cbn. apply NoDup_filter. eauto.
  - intros id c [_ ?]%lookup_delete_Some. eauto.
Qed.

Lemma handleClientDisconnect_spec clientId now s client :
  well_formed s →
  clients s !! clientId = Some client →
  let s' := left s clientId client in
  Server.handleClientDisconnect clientId now s =
    (Ret tt, s',
     (λ to, (to, FUserLeft clientId (Client.name client) (IsoString now)
                   (room_users s' (Client.room client)))) <$>
       recipients s' (Client.room client) None).
Proof.
  intros Hwf Hc s'.
  pose proof (well_formed_left s clientId client Hwf) as Hwf'.
  fold s' in Hwf'.
  unfold Server.handleClientDisconnect. run_m. rewrite Hc.
  subst s'. unfold left, rooms_without in *.
  destruct (rooms s !! Client.room client) as [roomObj|] eqn:Hro.
  - case_bool_decide; run_m.
    + rewrite delete_insert_eq, getRoomUsers_spec.
      by rewrite (broadcastToRoom_spec _ _ _ _ Hwf').
    + rewrite getRoomUsers_spec.
      by rewrite (broadcastToRoom_spec _ _ _ _ Hwf').
  - rewrite getRoomUsers_spec.
    by rewrite (broadcastToRoom_spec _ _ _ _ Hwf').
Qed.

Lemma elem_of_Set_add x y l : x ∈ Set_add y l ↔ x = y ∨ x ∈ l.
Proof.
  unfold Set_add, Set_has. case_bool_decide.
  - split; [by right|]. by intros [->|].
  - rewrite elem_of_app, list_elem_of_singleton. tauto.
Qed.

Lemma NoDup_Set_add y l : NoDup l → NoDup (Set_add y l).
Proof.
  intros Hl. unfold Set_add, Set_has. case_bool_decide; [done|].
  apply NoDup_app. split_and!; [done| |apply NoDup_singleton].
  by intros x Hx ->%list_elem_of_singleton.
Qed.

Lemma elem_of_Set_delete x y l : x ∈ Set_delete y l ↔ x ≠ y ∧ x ∈ l.
Proof. unfold Set_delete. by rewrite list_elem_of_filter. Qed.

Lemma Set_add_not_nil y l : Set_add y l ≠ [].
Proof.
  intros H. assert (Hy : y ∈ Set_add y l) by (apply elem_of_Set_add; by left).
  rewrite H in Hy. by apply elem_of_nil in Hy.
Qed.

Lemma well_formed_initial : well_formed initial.
Proof. split; cbn; intros ?? H; by apply lookup_empty_Some in H. Qed.

Lemma well_formed_joined s clientId name_param room_param role_param ip now :
  well_formed s →
  well_formed
    (joined s clientId
       (new_client clientId name_param room_param role_param ip now) now).
Proof.
  intros [Hnd Hid]. split; cbn.
  - intros room roomObj [[_ <-]|[_ ?]]%lookup_insert_Some; [|by eauto].
    cbn. apply NoDup_Set_add. unfold room_or_new.
    destruct (rooms s !! _) eqn:E; cbn; [by eauto|apply NoDup_nil_2].
  - intros id c [[<- <-]|[_ ?]]%lookup_insert_Some; [done|by eauto].
Qed.

Lemma no_empty_room_joined s clientId client now :
  no_empty_room s → no_empty_room (joined s clientId client now).
Proof.
  intros Hne room roomObj. cbn.
  intros [[_ <-]|[_ ?]]%lookup_insert_Some; [|by eauto].
  cbn. apply Set_add_not_nil.
Qed.

Lemma no_empty_room_left s clientId client :
  no_empty_room s → no_empty_room (left s clientId client).
Proof.
  intros Hne room roomObj. cbn. unfold rooms_without.
  destruct (rooms s !! Client.room client) as [ro|] eqn:Hro; [|by eauto].
  case_bool_decide as Hsz.
  - intros [_ ?]%lookup_delete_Some. eauto.
  - intros [[_ <-]|[_ ?]]%lookup_insert_Some; [|by eauto].
    cbn. intros Hnil. apply Hsz. unfold Set_size. by rewrite Hnil.
Qed.

Lemma consistent_joined s clientId client now :
  clients s !! clientId = None →
  consistent s → consistent (joined s clientId client now).
Proof.
  intros Hfresh [Hrc Hcr]. split; cbn.
  - intros room roomObj id [[<- <-]|[Hne Hro]]%lookup_insert_Some Hin.
    + cbn in Hin. apply elem_of_Set_add in Hin as [->|Hin].
      { exists client. by rewrite lookup_insert_eq. }
      unfold room_or_new in Hin.
      destruct (rooms s !! Client.room client) as [ro|] eqn:Hro; cbn in Hin;
        [|by apply elem_of_nil in Hin].
      destruct (Hrc _ _ _ Hro Hin) as (c & Hc & Hroom).
      exists c. split; [|done]. rewrite lookup_insert_ne; [done|].
      intros <-. congruence.
    + destruct (Hrc _ _ _ Hro Hin) as (c & Hc & Hroom).
      exists c. split; [|done]. rewrite lookup_insert_ne; [done|].
      intros <-. congruence.
  - intros id c [[<- <-]|[Hne Hc]]%lookup_insert_Some.
    + eexists. rewrite lookup_insert_eq. split; [done|].
      cbn. apply elem_of_Set_add. by left.
    + destruct (Hcr _ _ Hc) as (ro & Hro & Hin).
      destruct (decide (Client.room client = Client.room c)) as [Heq|Hneq].
      * eexists. rewrite Heq, lookup_insert_eq. split; [done|].
        cbn. apply elem_of_Set_add. right.
        unfold room_or_new. by rewrite Hro.
      * exists ro. by rewrite lookup_insert_ne.
Qed.

Lemma consistent_left s clientId client :
  clients s !! clientId = Some client →
  consistent s → consistent (left s clientId client).
Proof.
  intros Hclient [Hrc Hcr]. split; cbn.
  - intros room roomObj id Hro Hin.
    assert (∃ ro, rooms s !! room = Some ro ∧ id ∈ Room.clients ro ∧
                  (room = Client.room client → id ≠ clientId))
      as (ro & Hro' & Hin' & Hne).
    { unfold rooms_without in Hro.
      destruct (rooms s !! Client.room client) as [ro0|] eqn:Hro0.
      - case_bool_decide.
        + apply lookup_delete_Some in Hro as [? ?]. exists roomObj.
          split_and!; [done..|]. congruence.
        + apply lookup_insert_Some in Hro as [[<- <-]|[? ?]].
          * cbn in Hin. apply elem_of_Set_delete in Hin as [? ?].
            exists ro0. done.
          * exists roomObj. split_and!; [done..|]. congruence.
      - exists roomObj. split_and!; [done..|]. intros ->. congruence. }
    destruct (Hrc _ _ _ Hro' Hin') as (c & Hc & Hroom).
    exists c. split; [|done]. rewrite lookup_delete_ne; [done|].
    intros <-. apply Hne; [|done]. congruence.
  - intros id c [Hne Hc]%lookup_delete_Some.
    destruct (Hcr _ _ Hc) as (ro & Hro & Hin). unfold rooms_without.
    destruct (decide (Client.room c = Client.room client)) as [Heq|Hneq].
    + rewrite <- Heq, Hro.
      assert (Hin' : id ∈ Set_delete clientId (Room.clients ro))
        by (apply elem_of_Set_delete; done).
      rewrite bool_decide_false.
      * eexists. rewrite lookup_insert_eq. done.
      * unfold Set_size. intros Hlen. apply nil_length_inv in Hlen.
        rewrite Hlen in Hin'. by apply elem_of_nil in Hin'.
    + destruct (rooms s !! Client.room client) as [ro0|]; [|by eauto].
      case_bool_decide.
      * exists ro. by rewrite lookup_delete_ne.
      * exists ro. by rewrite lookup_insert_ne.
Qed.

(** The state after one operation. *)
Lemma exec_state op s :
  well_formed s →
  state_of (Server.exec op s) =
    match op with
    | Server.Join clientId name_param room_param role_param ip now =>
        joined s clientId
          (new_client clientId name_param room_param role_param ip now) now
    | Server.Leave clientId _ =>
        match clients s !! clientId with
        | Some client => left s clientId client
        | None => s
        end
    end.
Proof.
  intros Hwf. destruct op as [clientId np rp rlp ip now|clientId now]; cbn.
  - by rewrite handleWebSocket_spec.
  - destruct (clients s !! clientId) as [client|] eqn:Hc.
    + by rewrite (handleClientDisconnect_spec _ _ _ _ Hwf Hc).
    + by rewrite handleClientDisconnect_absent.
Qed.

Lemma well_formed_exec op s :
  well_formed s → well_formed (state_of (Server.exec op s)).
Proof.
  intros Hwf. rewrite exec_state by done. destruct op.
  - by apply well_formed_joined.
  - destruct (clients s !! clientId); [by apply well_formed_left|done].
Qed.

Lemma run_snoc ops op s :
  Server.run (ops ++ [op]) s = state_of (Server.exec op (Server.run ops s)).
Proof. unfold Server.run. by rewrite foldl_app. Qed.

Lemma well_formed_run ops s : well_formed s → well_formed (Server.run ops s).
Proof.
  intros Hwf. induction ops as [|op ops IH] using rev_ind; [done|].
  rewrite run_snoc. by apply well_formed_exec.
Qed.

Lemma no_empty_room_run ops s :
  well_formed s → no_empty_room s → no_empty_room (Server.run ops s).
Proof.
  intros Hwf Hne. induction ops as [|op ops IH] using rev_ind; [done|].
  rewrite run_snoc, exec_state by by apply well_formed_run.
  destruct op.
  - by apply no_empty_room_joined.
  - destruct (clients _ !! clientId); [by apply no_empty_room_left|done].
Qed.

Lemma consistent_exec op s :
  well_formed s → fresh_joins [op] s → consistent s →
  consistent (state_of (Server.exec op s)).
Proof.
  intros Hwf [Hfresh _] Hc. rewrite exec_state by done. destruct op.
  - by apply consistent_joined.
  - destruct (clients s !! clientId) eqn:E; [by apply consistent_left|done].
Qed.

Lemma run_cons op ops s :
  Server.run (op :: ops) s = Server.run ops (state_of (Server.exec op s)).
Proof. done. Qed.

Lemma consistent_run ops s :
  well_formed s → consistent s → fresh_joins ops s →
  ∀ k, consistent (Server.run (take k ops) s).
Proof.
  revert s. induction ops as [|op ops IH]; intros s Hwf Hc Hfresh k.
  - by rewrite take_nil.
  - destruct k as [|k]; [done|]. destruct Hfresh as [Hop Hrest].
    rewrite firstn_cons, run_cons. apply IH; [|by apply consistent_exec|done].
    by apply well_formed_exec.
Qed.

Lemma consistent_initial : consistent initial.
Proof.
  split; cbn.
  - intros ??? H. by apply lookup_empty_Some in H.
  - intros ?? H. by apply lookup_empty_Some in H.
Qed.

(** ** C1: registry and directory stay consistent *)

(** C1, as stated, fails when a join reuses an id that is still registered:
    [clients.set] overwrites the entry while the old room keeps the id.  Here
    ["c1"] joins ["r1"] and then ["r2"]: it stays a member of ["r1"], but its
    registry entry names ["r2"]. *)
Lemma C1_reused_id_breaks_consistency :
  ¬ consistent
      (Server.run
         [Server.Join "c1" None (Some "r1") None "10.0.0.1" 1;
          Server.Join "c1" None (Some "r2") None "10.0.0.1" 2]
         initial).
Proof.
  intros [Hrc _].
  destruct (Hrc "r1" (Room.mk ["c1"] "r1" 1) "c1") as (client & Hc & Hroom).
  - by vm_compute.
  - by apply list_elem_of_singleton.
  - vm_compute in Hc. by simplify_eq.
Qed.

(** C1 (amended): after each operation of every sequence of joins and leaves
    in which each join uses a connection id that is not in the clients map at
    that moment, every id in a room's member set has a clients entry whose
    [room] names that room, and every clients entry's [room] names a room
    whose member set contains the entry's id. *)
Theorem C1_registry_directory_consistent (ops : list Server.Op) (k : nat) :
  fresh_joins ops initial →
  consistent (Server.run (take k ops) initial).
Proof.
  intros Hfresh.
  by apply consistent_run;
    [apply well_formed_initial|apply consistent_initial|].
Qed.

Lemma C1_witness :
  let ops :=
    [Server.Join "a" (Some "Ann") (Some "r1") None "10.0.0.1" 1;
     Server.Join "b" (Some "Bob") (Some "r1") None "10.0.0.2" 2;
     Server.Join "c" None (Some "r2") None "10.0.0.3" 3;
     Server.Leave "a" 4;
     Server.Join "a" None (Some "r2") None "10.0.0.1" 5] in
  fresh_joins ops initial ∧ consistent (Server.run (take 5 ops) initial).
Proof.
  intros ops.
  assert (Hfresh : fresh_joins ops initial) by (vm_compute; done).
  split; [exact Hfresh|].
  exact (C1_registry_directory_consistent ops 5 Hfresh).
Defined.

(** ** C7: a room exists exactly while it has members *)

(** C7: after every sequence of joins and leaves, a room name is in the
    rooms map if and only if its member set is non-empty; a join to a name
    that is not in the map creates the room with the joiner as its only
    member, and the leave of the last member deletes the room in the same
    operation. *)
Theorem C7_room_present_iff_nonempty (ops : list Server.Op) :
  let s := Server.run ops initial in
  (∀ room, is_Some (rooms s !! room) ↔ members s room ≠ []) ∧
  (∀ clientId name_param room_param role_param ip now,
     let room := Server.sanitizeInput (param_or room_param "bingo_main") in
     rooms s !! room = None →
     rooms (state_of (Server.handleWebSocket clientId name_param room_param
                        role_param ip now s)) !! room =
       Some (Room.mk [clientId] room now)) ∧
  (∀ clientId client now,
     clients s !! clientId = Some client →
     members s (Client.room client) = [clientId] →
     rooms (state_of (Server.handleClientDisconnect clientId now s))
       !! Client.room client = None).
Proof.
  intros s.
  assert (Hwf : well_formed s)
    by apply well_formed_run, well_formed_initial.
  assert (Hne : no_empty_room s).
  { apply no_empty_room_run; [apply well_formed_initial|].
    intros ?? H. cbn in H. by apply lookup_empty_Some in H. }
  split_and!.
  - intros room. unfold members.
    destruct (rooms s !! room) as [roomObj|] eqn:Hro.
    + split; [intros _; by eapply Hne|by eauto].
    + split; [by intros [??]|done].
  - intros clientId np rp rlp ip now room Hro.
    rewrite handleWebSocket_spec. cbn. fold room.
    rewrite lookup_insert_eq. unfold room_or_new. by rewrite Hro.
  - intros clientId client now Hc Hm.
    rewrite (handleClientDisconnect_spec _ _ _ _ Hwf Hc). cbn.
    unfold rooms_without, members in *.
    destruct (rooms s !! Client.room client) as [roomObj|]; [|done].
    rewrite Hm. unfold Set_delete. rewrite filter_cons, decide_False by tauto.
    rewrite filter_nil, bool_decide_true by done. by rewrite lookup_delete_eq.
Qed.

Lemma C7_witness :
  let ops :=
    [Server.Join "a" (Some "Ann") (Some "r1") None "10.0.0.1" 1;
     Server.Join "b" (Some "Bob") (Some "r1") None "10.0.0.2" 2;
     Server.Leave "a" 3] in
  let s := Server.run ops initial in
  (is_Some (rooms s !! "r1") ↔ members s "r1" ≠ []) ∧
  (is_Some (rooms s !! "r2") ↔ members s "r2" ≠ []) ∧
  rooms (state_of (Server.handleWebSocket "c" None (Some "r2") None
                     "10.0.0.3" 4 s)) !! "r2" =
    Some (Room.mk ["c"] "r2" 4) ∧
  rooms (state_of (Server.handleClientDisconnect "b" 5 s)) !! "r1" = None.
Proof.
  intros ops s.
  destruct (C7_room_present_iff_nonempty ops) as (Hiff & Hjoin & Hleave).
  split_and!.
  - exact (Hiff "r1").
  - exact (Hiff "r2").
  - exact (Hjoin "c" None (Some "r2") None "10.0.0.3" 4 eq_refl).
  - exact (Hleave "b"
             (Client.mk {| readyState := CONNECTING |} "b" "Bob" "r1" "player"
                2 "10.0.0.2") 5 eq_refl eq_refl).
Defined.

(** ** The handlers of the router *)

Lemma js_or_string text : js_or (JStr text) (JStr "") = JStr text.
Proof.
  unfold js_or, truthy. by destruct (String.eqb_spec text "") as [->|].
Qed.

Lemma elem_of_broadcast (to : string) (frame message : Frame)
    (l : list string) :
  (to, frame) ∈ (λ x, (x, message)) <$> l → frame = message ∧ to ∈ l.
Proof. intros (x & [= -> ->] & Hx)%list_elem_of_fmap. done. Qed.

Lemma handleBingoNumber_reject client message now s :
  (∀ q, field message "number" = JNum (Finite q) →
        ¬ (1 <= q ∧ q <= 90)%Q) →
  Server.handleBingoNumber client message now s =
    (Ret tt, s, [(Client.userId client, FError "Invalid bingo number")]).
Proof.
  intros Hq. unfold Server.handleBingoNumber.
  destruct (field message "number") as [| | |[q| |]| |] eqn:Hn; try done.
  unfold js_gt, js_lt, js_int.
  destruct (Qle_bool q (inject_Z 1)) eqn:H1;
    destruct (Qle_bool (inject_Z 1) q) eqn:H1';
    destruct (Qle_bool (inject_Z 90) q) eqn:H90;
    destruct (Qle_bool q (inject_Z 90)) eqn:H90'; cbn; try done.
  all: exfalso; apply (Hq q eq_refl); split; by apply Qle_bool_iff.
Qed.

Lemma handleBingoNumber_accept client message now s q :
  field message "number" = JNum (Finite q) →
  (1 <= q ∧ q <= 90)%Q →
  Server.handleBingoNumber client message now s =
    (Ret tt, s,
     (λ to, (to, FBingoNumber (Finite q) (Client.name client)
                   (IsoString now))) <$>
       broadcast_targets s (Client.room client) (Some (Client.userId client))).
Proof.
  intros Hn [H1 H90]. unfold Server.handleBingoNumber. rewrite Hn.
  unfold js_gt, js_lt, js_int.
  rewrite (proj2 (Qle_bool_iff (inject_Z 1) q) H1).
  rewrite (proj2 (Qle_bool_iff q (inject_Z 90)) H90). cbn [negb orb].
  by rewrite broadcastToRoom_run.
Qed.

Lemma handleChatMessage_run client message now s text :
  field message "message" = JStr text →
  Server.handleChatMessage client message now s =
    if (500 <? String.length (Server.sanitizeInput text))%nat then
      (Ret tt, s, [(Client.userId client, FError "Message too long")])
    else
      (Ret tt, s,
       (λ to, (to, FChat (Client.userId client) (Client.name client)
                     (Server.sanitizeInput text) (IsoString now))) <$>
         broadcast_targets s (Client.room client) None).
Proof.
  intros Hm. unfold Server.handleChatMessage. rewrite Hm, js_or_string.
  cbn zeta. destruct (500 <? _)%nat; [done|].
  by rewrite broadcastToRoom_run.
Qed.

Lemma handleRTCSignaling_broadcast client message s :
  field message "target" = JStr "broadcast" →
  Server.handleRTCSignaling client message s =
    (Ret tt, s,
     (λ to, (to, FRelay message (Client.userId client))) <$>
       broadcast_targets s (Client.room client) (Some (Client.userId client))).
Proof.
  intros Ht. unfold Server.handleRTCSignaling. rewrite Ht. cbn.
  by rewrite broadcastToRoom_run.
Qed.

Lemma WebSocket_send_run socket to frame s :
  WebSocket_send socket to frame s =
    if bool_decide (readyState socket = CONNECTING)
    then (Throw "InvalidStateError", s, [])
    else (Ret tt, s, [(to, frame)]).
Proof. unfold WebSocket_send. by destruct (readyState socket). Qed.

Lemma handleRTCSignaling_target client message s :
  strict_eq_str (field message "target") "broadcast" = false →
  Server.handleRTCSignaling client message s =
    match Map_get (clients s) (field message "target") with
    | Some targetClient =>
        if truthy (field message "target")
           && bool_decide (Client.room targetClient = Client.room client)
        then
          if bool_decide
               (readyState (Client.socket targetClient) = CONNECTING)
          then (Throw "InvalidStateError", s, [])
          else (Ret tt, s, [(Client.userId targetClient,
                             FRelay message (Client.userId client))])
        else (Ret tt, s, [])
    | None => (Ret tt, s, [])
    end.
Proof.
  intros Ht. unfold Server.handleRTCSignaling. rewrite Ht.
  destruct (truthy _); cbn [andb].
  - unfold mbind, M_bind, get_state.
    destruct (Map_get _ _) as [targetClient|]; [|done].
    case_bool_decide; [|done]. rewrite WebSocket_send_run.
    by case_bool_decide.
  - by destruct (Map_get _ _).
Qed.

Lemma handleWebSocketMessage_dispatch clientId client message now s :
  clients s !! clientId = Some client →
  Server.handleWebSocketMessage clientId (ParsedObject message) now s =
    (let type := field message "type" in
     if strict_eq_str type "ping" then
       socket_send (Client.userId client) (FPong (Millis now))
     else if strict_eq_str type "join" then mret tt
     else if strict_eq_str type "bingo-number" then
       Server.handleBingoNumber client message now
     else if strict_eq_str type "winner" then
       Server.handleWinner client message now
     else if strict_eq_str type "offer" || strict_eq_str type "answer"
             || strict_eq_str type "ice-candidate" then
       Server.handleRTCSignaling client message
     else if strict_eq_str type "chat" then
       Server.handleChatMessage client message now
     else if strict_eq_str type "get-users" then
       Server.sendRoomUsers client now
     else mret tt) s.
Proof.
  intros Hc. unfold Server.handleWebSocketMessage.
  unfold mbind at 1, M_bind at 1, get_state at 1. rewrite Hc. cbn zeta.
  match goal with |- (let (_, _) := ?x in _) = _ => by destruct x as [[??]?] end.
Qed.

(** ** C8: an event of an unregistered sender is dropped *)

(** C8: when [senderId] has no entry in the clients map, the router returns
    normally, sends no frame to anyone, and leaves the registry, the
    directory and the rate-limit map as they were; the same holds with the
    [onmessage] handler around it. *)
Theorem C8_unknown_sender_dropped (s : State) (senderId : string)
    (parsed : Parsed) (now : Z) :
  clients s !! senderId = None →
  Server.handleWebSocketMessage senderId parsed now s = (Ret tt, s, []) ∧
  Server.onmessage senderId (Some parsed) now s = (Ret tt, s, []).
Proof.
  intros Hc.
  assert (H : Server.handleWebSocketMessage senderId parsed now s
              = (Ret tt, s, [])).
  { unfold Server.handleWebSocketMessage, mbind, M_bind, get_state.
    by rewrite Hc. }
  split; [done|]. unfold Server.onmessage, try_catch. by rewrite H.
Qed.

Lemma C8_witness :
  let s :=
    Server.run
      [Server.Join "a" (Some "Ann") (Some "r1") None "10.0.0.1" 1;
       Server.Join "b" (Some "Bob") (Some "r1") None "10.0.0.2" 2;
       Server.Leave "a" 3] initial in
  let message : WebSocketMessage :=
    {[ "type" := JStr "chat"; "message" := JStr "hi" ]} in
  clients s !! "a" = None ∧
  Server.handleWebSocketMessage "a" (ParsedObject message) 4 s
    = (Ret tt, s, []) ∧
  Server.onmessage "a" (Some (ParsedObject message)) 4 s = (Ret tt, s, []).
Proof.
  intros s message.
  split; [reflexivity|].
  exact (C8_unknown_sender_dropped s "a" (ParsedObject message) 4 eq_refl).
Defined.

(** ** C10: sanitization is idempotent *)

Lemma sanitizeInput_idempotent input :
  Server.sanitizeInput (Server.sanitizeInput input) =
  Server.sanitizeInput input.
Proof. apply sanitizeInput_fixed, sanitizeInput_clean. Qed.

Lemma sanitized_joined s clientId name_param room_param role_param ip now :
  sanitized s →
  sanitized
    (joined s clientId
       (new_client clientId name_param room_param role_param ip now) now).
Proof.
  intros [Hc Hr]. split; cbn.
  - intros id c [[_ <-]|[_ ?]]%lookup_insert_Some; [|by eauto].
    cbn. by rewrite !sanitizeInput_idempotent.
  - intros room roomObj [[<- <-]|[_ ?]]%lookup_insert_Some; [|by eauto].
    cbn. split; [apply sanitizeInput_idempotent|].
    unfold room_or_new. destruct (rooms s !! _) as [ro|] eqn:Hro; cbn.
    + by apply (Hr _ _ Hro).
    + apply sanitizeInput_idempotent.
Qed.

Lemma sanitized_left s clientId client :
  sanitized s → sanitized (left s clientId client).
Proof.
  intros [Hc Hr]. split; cbn.
  - intros id c [_ ?]%lookup_delete_Some. eauto.
  - intros room roomObj. unfold rooms_without.
    destruct (rooms s !! Client.room client) as [ro|] eqn:Hro; [|by eauto].
    case_bool_decide.
    + intros [_ ?]%lookup_delete_Some. eauto.
    + intros [[<- <-]|[_ ?]]%lookup_insert_Some; [|by eauto].
      cbn. by apply (Hr _ _ Hro).
Qed.

Lemma sanitized_run ops : sanitized (Server.run ops initial).
Proof.
  induction ops as [|op ops IH] using rev_ind.
  - split; cbn; intros ?? H; by apply lookup_empty_Some in H.
  - rewrite run_snoc, exec_state
      by apply well_formed_run, well_formed_initial.
    destruct op.
    + by apply sanitized_joined.
    + destruct (clients _ !! clientId); [by apply sanitized_left|done].
Qed.

Lemma chat_frames_sanitized client message now s to userId userName text ts :
  (to, FChat userId userName text ts)
    ∈ sends_of (Server.handleChatMessage client message now s) →
  Server.sanitizeInput text = text.
Proof.
  unfold Server.handleChatMessage.
  destruct (js_or _ _) as [| | | |input|];
    try (by cbn; intros ?%elem_of_nil).
  cbn zeta.
  destruct (500 <? String.length (Server.sanitizeInput input))%nat.
  - cbn. by intros [=]%list_elem_of_singleton.
  - rewrite broadcastToRoom_run. cbn.
    intros [[= _ _ -> _] _]%elem_of_broadcast.
    apply sanitizeInput_idempotent.
Qed.

Lemma Deploy_handleChatMessage_frames client message now s :
  ∀ to frame,
    (to, frame) ∈ sends_of (Deploy.handleChatMessage client message now s) →
    frame = FError "Message too long" ∨
    ∃ input, frame = FChat (Client.userId client) (Client.name client)
                       (Server.sanitizeInput input) (Millis now).
Proof.
  intros to frame. unfold Deploy.handleChatMessage.
  destruct (js_or _ _) as [| | | |input|];
    try (by cbn; intros ?%elem_of_nil).
  cbn zeta. rewrite Deploy_sanitizeInput_eq.
  destruct (500 <? String.length (Server.sanitizeInput input))%nat.
  - cbn. intros [= _ ->]%list_elem_of_singleton. by left.
  - rewrite Deploy_broadcastToRoom_eq, broadcastToRoom_run. cbn.
    intros [-> _]%elem_of_broadcast. right. by exists input.
Qed.

(** C10: [sanitizeInput], in [server.ts] and in the deployment variant, is
    idempotent and its output contains none of the characters [<], [>],
    double quote and single quote; hence every name and room name stored by
    a sequence of joins and leaves, and the message of every chat frame the
    router broadcasts, is a fixed point of [sanitizeInput]. *)
Theorem C10_sanitizeInput_idempotent :
  (∀ input,
     Server.sanitizeInput (Server.sanitizeInput input) =
       Server.sanitizeInput input ∧
     clean (Server.sanitizeInput input)) ∧
  (∀ input,
     Deploy.sanitizeInput (Deploy.sanitizeInput input) =
       Deploy.sanitizeInput input ∧
     clean (Deploy.sanitizeInput input)) ∧
  (∀ ops, sanitized (Server.run ops initial)) ∧
  (∀ client message now s to userId userName text ts,
     (to, FChat userId userName text ts)
       ∈ sends_of (Server.handleChatMessage client message now s) →
     Server.sanitizeInput text = text) ∧
  (∀ client message now s to userId userName text ts,
     (to, FChat userId userName text ts)
       ∈ sends_of (Deploy.handleChatMessage client message now s) →
     Deploy.sanitizeInput text = text).
Proof.
  split_and!.
  - intros input. split;
      [apply sanitizeInput_idempotent|apply sanitizeInput_clean].
  - intros input. rewrite !Deploy_sanitizeInput_eq. split;
      [apply sanitizeInput_idempotent|apply sanitizeInput_clean].
  - apply sanitized_run.
  - apply chat_frames_sanitized.
  - intros client message now s to userId userName text ts Hin.
    rewrite Deploy_sanitizeInput_eq.
    apply Deploy_handleChatMessage_frames in Hin as [[=]|[input [=]]].
    subst. apply sanitizeInput_idempotent.
Qed.

Lemma C10_witness :
  Server.sanitizeInput "<b>'hi'</b>" = "&lt;b&gt;&#x27;hi&#x27;&lt;/b&gt;" ∧
  Server.sanitizeInput (Server.sanitizeInput "<b>'hi'</b>") =
    Server.sanitizeInput "<b>'hi'</b>" ∧
  clean (Server.sanitizeInput "<b>'hi'</b>") ∧
  Deploy.sanitizeInput (Deploy.sanitizeInput "<b>'hi'</b>") =
    Deploy.sanitizeInput "<b>'hi'</b>".
Proof.
  destruct C10_sanitizeInput_idempotent as (Hs & Hd & _).
  split_and!.
  - reflexivity.
  - exact (proj1 (Hs "<b>'hi'</b>")).
  - exact (proj2 (Hs "<b>'hi'</b>")).
  - exact (proj1 (Hd "<b>'hi'</b>")).
Defined.

(** ** C5: the fixed-window rate limiter *)

Lemma isRateLimited_spec ip now s :
  Server.isRateLimited ip now s =
    match rateLimits s !! ip with
    | None => (Ret false, with_bucket s ip (RateLimit.mk 1 (now + 60000)), [])
    | Some limit =>
        if RateLimit.resetTime limit <? now then
          (Ret false, with_bucket s ip (RateLimit.mk 1 (now + 60000)), [])
        else if 100 <=? RateLimit.count limit then (Ret true, s, [])
        else
          (Ret false,
           with_bucket s ip
             (RateLimit.mk (RateLimit.count limit + 1)
                (RateLimit.resetTime limit)), [])
    end.
Proof.
  unfold Server.isRateLimited. run_m.
  destruct (rateLimits s !! ip) as [limit|]; [|done].
  destruct (_ <? now); [done|]. by destruct (100 <=? _).
Qed.

Lemma isRateLimited_fresh ip now s :
  window_over s ip now →
  Server.isRateLimited ip now s =
    (Ret false, with_bucket s ip (RateLimit.mk 1 (now + 60000)), []).
Proof.
  unfold window_over. rewrite isRateLimited_spec.
  destruct (rateLimits s !! ip) as [limit|]; [|done].
  intros H. by rewrite (proj2 (Z.ltb_lt _ _) H).
Qed.

Lemma admissions_cons ip now rest s b s1 :
  Server.isRateLimited ip now s = (Ret b, s1, []) →
  admissions ((ip, now) :: rest) s =
    (let '(r, s2, t) := admissions rest s1 in
     (match r with Ret bs => Ret (b :: bs) | Throw e => Throw e end, s2, t)).
Proof.
  intros H. cbn [admissions]. unfold mbind at 1, M_bind at 1. rewrite H.
  run_m. destruct (admissions rest s1) as [[[bs|e] s2] t]; [|done].
  by rewrite app_nil_r.
Qed.

Lemma admissions_window ip (times : list Z) : ∀ s c R,
  rateLimits s !! ip = Some (RateLimit.mk c R) →
  Forall (λ t, t ≤ R) times →
  ∃ s', admissions ((λ t, (ip, t)) <$> times) s =
          (Ret ((λ k : nat, 100 <=? c + Z.of_nat k)
                  <$> seq 0 (length times)), s', []).
Proof.
  induction times as [|t times IH]; intros s c R Hb Hts.
  - by exists s.
  - apply Forall_cons in Hts as [Ht Hts].
    pose proof (isRateLimited_spec ip t s) as Hstep. rewrite Hb in Hstep.
    cbn [RateLimit.resetTime RateLimit.count] in Hstep.
    rewrite (proj2 (Z.ltb_ge _ _) Ht) in Hstep.
    cbn [fmap list_fmap length seq]. rewrite <- fmap_S_seq, <- list_fmap_compose.
    destruct (100 <=? c) eqn:Hc.
    + destruct (IH s c R Hb Hts) as (s' & Hrest).
      exists s'. rewrite (admissions_cons _ _ _ _ _ _ Hstep).
      fold (@fmap list _ Z (string * Z) (λ t, (ip, t)) times).
      rewrite Hrest. rewrite Z.add_0_r, Hc. do 4 f_equal.
      apply list_fmap_ext. intros _ k _. cbn. apply Z.leb_le in Hc.
      transitivity true; [|symmetry]; apply Z.leb_le; lia.
    + destruct (IH (with_bucket s ip (RateLimit.mk (c + 1) R)) (c + 1) R)
        as (s' & Hrest); [cbn; by rewrite lookup_insert_eq|done|].
      exists s'. rewrite (admissions_cons _ _ _ _ _ _ Hstep).
      fold (@fmap list _ Z (string * Z) (λ t, (ip, t)) times).
      rewrite Hrest. rewrite Z.add_0_r, Hc. do 4 f_equal.
      apply list_fmap_ext. intros _ k _. cbn. f_equal. lia.
Qed.

Lemma bucket_bounds_step ip now s :
  (∀ ip' limit, rateLimits s !! ip' = Some limit →
     1 ≤ RateLimit.count limit ≤ 100) →
  ∃ b s', Server.isRateLimited ip now s = (Ret b, s', []) ∧
    (∀ ip' limit, rateLimits s' !! ip' = Some limit →
       1 ≤ RateLimit.count limit ≤ 100).
Proof.
  intros Hinv. rewrite isRateLimited_spec.
  destruct (rateLimits s !! ip) as [limit|] eqn:Hb.
  - destruct (_ <? now).
    + do 2 eexists. split; [done|]. cbn.
      intros ip' l [[_ <-]|[_ ?]]%lookup_insert_Some; [cbn; lia|by eauto].
    + destruct (100 <=? _) eqn:Hc.
      * do 2 eexists. split; [done|]. done.
      * do 2 eexists. split; [done|]. cbn.
        intros ip' l [[_ <-]|[_ ?]]%lookup_insert_Some; [|by eauto].
        cbn. apply Z.leb_gt in Hc. specialize (Hinv _ _ Hb). lia.
  - do 2 eexists. split; [done|]. cbn.
    intros ip' l [[_ <-]|[_ ?]]%lookup_insert_Some; [cbn; lia|by eauto].
Qed.

Lemma bucket_bounds calls : ∀ s,
  (∀ ip limit, rateLimits s !! ip = Some limit →
     1 ≤ RateLimit.count limit ≤ 100) →
  ∀ ip limit,
    rateLimits (state_of (admissions calls s)) !! ip = Some limit →
    1 ≤ RateLimit.count limit ≤ 100.
Proof.
  induction calls as [|[ip0 now] calls IH]; intros s Hinv; [done|].
  destruct (bucket_bounds_step ip0 now s Hinv) as (b & s1 & Hstep & Hinv1).
  rewrite (admissions_cons _ _ _ _ _ _ Hstep).
  specialize (IH s1 Hinv1).
  by destruct (admissions calls s1) as [[r s2] t].
Qed.

(** C5: for every origin, a call that finds no bucket, or a bucket whose
    window has elapsed, installs a fresh bucket with count 1 and is admitted;
    of the calls made within one window the first 100 are admitted and the
    101st, like every later one, is rejected; a rejected call changes
    nothing, so that no bucket ever counts more than 100; once the window
    has elapsed the next call is admitted again with a count of 1; the calls
    of one origin leave the bucket of another untouched. *)
Theorem C5_fixed_window_admission :
  (∀ s ip now,
     window_over s ip now →
     Server.isRateLimited ip now s =
       (Ret false, with_bucket s ip (RateLimit.mk 1 (now + 60000)), [])) ∧
  (∀ s ip t0 times,
     window_over s ip t0 →
     Forall (λ t, t ≤ t0 + 60000) times →
     result_of (admissions ((λ t, (ip, t)) <$> t0 :: times) s) =
       Ret ((λ k, bool_decide (100 ≤ k)%nat) <$> seq 0 (S (length times)))) ∧
  (∀ s ip now s' t,
     Server.isRateLimited ip now s = (Ret true, s', t) →
     s' = s ∧ t = [] ∧
     ∃ limit, rateLimits s !! ip = Some limit ∧
              100 ≤ RateLimit.count limit ∧
              now ≤ RateLimit.resetTime limit) ∧
  (∀ calls ip limit,
     rateLimits (state_of (admissions calls initial)) !! ip = Some limit →
     1 ≤ RateLimit.count limit ≤ 100) ∧
  (∀ s ip other now,
     other ≠ ip →
     rateLimits (state_of (Server.isRateLimited other now s)) !! ip =
       rateLimits s !! ip).
Proof.
  split_and!.
  - intros s ip now. apply isRateLimited_fresh.
  - intros s ip t0 times Hover Hts.
    rewrite fmap_cons.
    rewrite (admissions_cons _ _ _ _ _ _ (isRateLimited_fresh _ _ _ Hover)).
    destruct (admissions_window ip times
                (with_bucket s ip (RateLimit.mk 1 (t0 + 60000))) 1
                (t0 + 60000)) as (s' & Hrest);
      [cbn; by rewrite lookup_insert_eq|done|].
    rewrite Hrest. cbn [result_of fst seq fmap list_fmap].
    rewrite bool_decide_false by lia. do 2 f_equal.
    rewrite <- fmap_S_seq, <- list_fmap_compose.
    apply list_fmap_ext. intros _ k _. cbn.
    destruct (Z.leb_spec 100 (1 + Z.of_nat k)).
    + symmetry. apply bool_decide_eq_true. lia.
    + symmetry. apply bool_decide_eq_false. lia.
  - intros s ip now s' t. rewrite isRateLimited_spec.
    destruct (rateLimits s !! ip) as [limit|]; [|done].
    destruct (Z.ltb_spec (RateLimit.resetTime limit) now); [done|].
    destruct (Z.leb_spec 100 (RateLimit.count limit)); [|done].
    intros [= <- <-]. split_and!; [done..|]. by exists limit.
  - intros calls ip limit. apply bucket_bounds.
    intros ?? H. cbn in H. by apply lookup_empty_Some in H.
  - intros s ip other now Hne. rewrite isRateLimited_spec.
    destruct (rateLimits s !! other) as [limit|].
    + destruct (_ <? now); [cbn; by rewrite lookup_insert_ne|].
      destruct (100 <=? _); [done|]. cbn. by rewrite lookup_insert_ne.
    + cbn. by rewrite lookup_insert_ne.
Qed.

Lemma C5_witness :
  let ip := "10.0.0.1" in
  let calls := (λ t, (ip, t)) <$> 1000 :: replicate 100 1500 in
  window_over initial ip 1000 ∧
  Forall (λ t, t ≤ 1000 + 60000) (replicate 100 1500) ∧
  result_of (admissions calls initial) =
    Ret (replicate 100 false ++ [true]) ∧
  window_over (state_of (admissions calls initial)) ip 61001 ∧
  Server.isRateLimited ip 61001 (state_of (admissions calls initial)) =
    (Ret false,
     with_bucket (state_of (admissions calls initial)) ip
       (RateLimit.mk 1 (61001 + 60000)), []).
Proof.
  intros ip calls.
  destruct C5_fixed_window_admission as (Hfresh & Hwindow & _ & _ & _).
  assert (H0 : window_over initial ip 1000) by exact I.
  assert (Hts : Forall (λ t, t ≤ 1000 + 60000) (replicate 100 1500)).
  { apply Forall_replicate. lia. }
  assert (H1 : window_over (state_of (admissions calls initial)) ip 61001)
    by (vm_compute; reflexivity).
  split_and!; [exact H0|exact Hts| |exact H1|].
  - exact (Hwindow initial ip 1000 (replicate 100 1500) H0 Hts).
  - exact (Hfresh (state_of (admissions calls initial)) ip 61001 H1).
Defined.

(** ** Counting the frames a connection is sent *)

Lemma sent_to_broadcast (to : string) (frame : Frame) (l : list string) :
  NoDup l →
  sent_to to ((λ x, (x, frame)) <$> l) =
    if bool_decide (to ∈ l) then [frame] else [].
Proof.
  unfold sent_to. induction 1 as [|x l Hx Hl IH]; [done|].
  rewrite fmap_cons, filter_cons. cbn [fst].
  destruct (decide (x = to)) as [->|Hne].
  - rewrite fmap_cons, IH. cbn [snd].
    rewrite (bool_decide_false (to ∈ l)) by done.
    rewrite bool_decide_true; [done|]. apply list_elem_of_here.
  - rewrite IH.
    assert (bool_decide (to ∈ l) = bool_decide (to ∈ x :: l)) as ->; [|done].
    apply bool_decide_ext. rewrite elem_of_cons.
    split; [by right|]. by intros [->|].
Qed.

Lemma NoDup_recipients s room excludeClientId :
  well_formed s → NoDup (recipients s room excludeClientId).
Proof.
  intros [Hnd _]. apply NoDup_filter. unfold members.
  destruct (rooms s !! room) eqn:E; [by eauto|apply NoDup_nil_2].
Qed.

Lemma elem_of_recipients s room excludeClientId to :
  to ∈ recipients s room excludeClientId ↔
  to ∈ members s room ∧ Some to ≠ excludeClientId ∧ is_open s to = true.
Proof. unfold recipients. rewrite list_elem_of_filter. tauto. Qed.

Lemma sent_to_recipients s room excludeClientId frame to :
  well_formed s →
  sent_to to ((λ x, (x, frame)) <$> recipients s room excludeClientId) =
    if bool_decide (to ∈ members s room ∧ Some to ≠ excludeClientId ∧
                    is_open s to = true)
    then [frame] else [].
Proof.
  intros Hwf. rewrite sent_to_broadcast by by apply NoDup_recipients.
  by rewrite (bool_decide_ext _ _ (elem_of_recipients s room excludeClientId to)).
Qed.

Lemma if_bool_decide_ext {A} (P Q : Prop) `{!Decision P, !Decision Q}
    (a b : A) :
  (P ↔ Q) →
  (if bool_decide P then a else b) = (if bool_decide Q then a else b).
Proof. intros H. by rewrite (bool_decide_ext P Q H). Qed.

Lemma recipient_test s room senderId to :
  bool_decide (to ∈ members s room ∧ Some to ≠ Some senderId ∧
               is_open s to = true) =
  bool_decide (to ∈ members s room ∧ to ≠ senderId ∧ is_open s to = true).
Proof.
  apply bool_decide_ext.
  split; intros (? & ? & ?); split_and!; congruence.
Qed.

Lemma type_tests message (t : string) :
  field message "type" = JStr t →
  ∀ t', strict_eq_str (field message "type") t' = String.eqb t t'.
Proof. by intros ->. Qed.

(** ** The example states are well formed *)

Lemma well_formed_socket_state clientId st s :
  well_formed s → well_formed (state_of (socket_state clientId st s)).
Proof.
  intros [Hnd Hid]. unfold socket_state, state_of. run_m.
  split; [done|]. cbn.
  intros id c [(_ & c0 & Hc0 & ->)|[_ ?]]%lookup_alter_Some; cbn; eauto.
Qed.

Lemma well_formed_three_joined : well_formed three_joined.
Proof. apply well_formed_run, well_formed_initial. Qed.

Lemma well_formed_all_open : well_formed all_open.
Proof.
  change all_open with
    (state_of (socket_state "c" OPEN
       (state_of (socket_state "b" OPEN
          (state_of (socket_state "a" OPEN three_joined)))))).
  do 3 apply well_formed_socket_state. apply well_formed_three_joined.
Qed.

Lemma well_formed_bob_connecting : well_formed bob_connecting.
Proof.
  change bob_connecting with
    (state_of (socket_state "c" OPEN
       (state_of (socket_state "a" OPEN three_joined)))).
  do 2 apply well_formed_socket_state. apply well_formed_three_joined.
Qed.

(** ** C2: numbered calls *)

(** C2, as stated, fails in two ways.  A broadcast skips a member whose
    socket is not open: Bob has joined Ann's room but his socket is still
    connecting, and Ann's call of 45 is sent to nobody.  And the handler
    tests the type and the range of the payload, not its integrality: Ann
    calls 1.5 in a room she shares with Bob, no error frame is sent and the
    call is broadcast to Bob. *)
Lemma C2_member_skipped_and_fraction_broadcast :
  let call (number : JsNumber) : WebSocketMessage :=
    {[ "type" := JStr "bingo-number"; "number" := JNum number ]} in
  (members bob_connecting "r1" = ["a"; "b"] ∧
   Server.handleWebSocketMessage "a"
     (ParsedObject (call (js_int 45))) 7 bob_connecting =
     (Ret tt, bob_connecting, [])) ∧
  ((∀ z : Z, ¬ (3 # 2 == inject_Z z)%Q) ∧
   Server.handleWebSocketMessage "a"
     (ParsedObject (call (Finite (3 # 2)))) 7 all_open =
     (Ret tt, all_open,
      [("b", FBingoNumber (Finite (3 # 2)) "Ann" (IsoString 7))])).
Proof.
  split_and!; try by vm_compute.
  intros z. unfold Qeq. cbn. lia.
Qed.

(** C2 (amended): a numbered call whose payload is not a number, or is a
    number below 1 or above 90 (0 and 91 among them), is answered with
    exactly one error frame to the sender and no other send; a call whose
    payload is a number from 1 to 90 (every integer from 1 to 90 among them)
    is sent, tagged with the caller's display name, exactly once to every
    other member of the caller's room whose socket is open, and to nobody
    else. *)
Theorem C2_bingo_number_validated (s : State) (senderId : string)
    (client : Client.t) (message : WebSocketMessage) (now : Z) :
  well_formed s →
  clients s !! senderId = Some client →
  field message "type" = JStr "bingo-number" →
  let r := Server.handleWebSocketMessage senderId
    (ParsedObject message) now s in
  ((∀ q, field message "number" = JNum (Finite q) →
         ¬ (1 <= q ∧ q <= 90)%Q) →
   r = (Ret tt, s, [(senderId, FError "Invalid bingo number")])) ∧
  (∀ q, field message "number" = JNum (Finite q) →
        (1 <= q ∧ q <= 90)%Q →
        let frame :=
          FBingoNumber (Finite q) (Client.name client) (IsoString now) in
        r = (Ret tt, s,
             (λ to, (to, frame)) <$>
               recipients s (Client.room client) (Some senderId)) ∧
        ∀ to, sent_to to (sends_of r) =
                if bool_decide (to ∈ members s (Client.room client) ∧
                                to ≠ senderId ∧ is_open s to = true)
                then [frame] else []).
Proof.
  intros Hwf Hc Htype r. subst r.
  rewrite (handleWebSocketMessage_dispatch _ _ _ _ _ Hc). cbn zeta.
  rewrite !(type_tests _ _ Htype). cbn [String.eqb Ascii.eqb Bool.eqb].
  cbn match.
  pose proof (proj2 Hwf _ _ Hc) as Hid.
  split.
  - intros Hq. rewrite handleBingoNumber_reject by done. by rewrite Hid.
  - intros q Hn Hq.
    rewrite (handleBingoNumber_accept _ _ _ _ _ Hn Hq).
    rewrite broadcast_targets_recipients, Hid by done.
    split; [done|]. intros to. cbn [sends_of snd].
    rewrite sent_to_recipients by done.
    by rewrite recipient_test.
Qed.

Lemma C2_witness :
  let ann :=
    Client.mk {| readyState := OPEN |} "a" "Ann" "r1" "player" 1 "10.0.0.1" in
  let call (number : JsValue) : WebSocketMessage :=
    {[ "type" := JStr "bingo-number"; "number" := number ]} in
  let rejected := (Ret tt, all_open, [("a", FError "Invalid bingo number")]) in
  let accepted (z : Z) :=
    (Ret tt, all_open,
     [("b", FBingoNumber (js_int z) "Ann" (IsoString 7))]) in
  Server.handleWebSocketMessage "a"
    (ParsedObject (call (JNum (js_int 0)))) 7 all_open
    = rejected ∧
  Server.handleWebSocketMessage "a"
    (ParsedObject (call (JNum (js_int 91)))) 7 all_open
    = rejected ∧
  Server.handleWebSocketMessage "a"
    (ParsedObject (call (JStr "seven"))) 7 all_open
    = rejected ∧
  Server.handleWebSocketMessage "a"
    (ParsedObject (call (JNum (js_int 1)))) 7 all_open
    = accepted 1 ∧
  Server.handleWebSocketMessage "a"
    (ParsedObject (call (JNum (js_int 90)))) 7 all_open
    = accepted 90 ∧
  sent_to "b" (sends_of (Server.handleWebSocketMessage "a"
                           (ParsedObject (call (JNum (js_int 90)))) 7 all_open))
    = [FBingoNumber (js_int 90) "Ann" (IsoString 7)] ∧
  sent_to "a" (sends_of (Server.handleWebSocketMessage "a"
                           (ParsedObject (call (JNum (js_int 90))))
                           7 all_open)) = [] ∧
  sent_to "c" (sends_of (Server.handleWebSocketMessage "a"
                           (ParsedObject (call (JNum (js_int 90))))
                           7 all_open)) = [].
Proof.
  intros ann call rejected accepted.
  pose proof (λ number,
    C2_bingo_number_validated all_open "a" ann (call number) 7
      well_formed_all_open eq_refl eq_refl) as H.
  cbn zeta in H.
  assert (Hlow : ∀ q, field (call (JNum (js_int 0))) "number"
                      = JNum (Finite q) → ¬ (1 <= q ∧ q <= 90)%Q).
  { intros q Hf [Hq _]. vm_compute in Hf. injection Hf as <-.
    unfold Qle in Hq. cbn in Hq. lia. }
  assert (Hhigh : ∀ q, field (call (JNum (js_int 91))) "number"
                       = JNum (Finite q) → ¬ (1 <= q ∧ q <= 90)%Q).
  { intros q Hf [_ Hq]. vm_compute in Hf. injection Hf as <-.
    unfold Qle in Hq. cbn in Hq. lia. }
  assert (Hstr : ∀ q, field (call (JStr "seven")) "number"
                      = JNum (Finite q) → ¬ (1 <= q ∧ q <= 90)%Q).
  { intros q Hf. vm_compute in Hf. discriminate Hf. }
  assert (H1 : (1 <= inject_Z 1 ∧ inject_Z 1 <= 90)%Q).
  { unfold Qle. cbn. lia. }
  assert (H90 : (1 <= inject_Z 90 ∧ inject_Z 90 <= 90)%Q).
  { unfold Qle. cbn. lia. }
  split_and!.
  - exact (proj1 (H (JNum (js_int 0))) Hlow).
  - exact (proj1 (H (JNum (js_int 91))) Hhigh).
  - exact (proj1 (H (JStr "seven")) Hstr).
  - exact (proj1 (proj2 (H (JNum (js_int 1))) (inject_Z 1) eq_refl H1)).
  - exact (proj1 (proj2 (H (JNum (js_int 90))) (inject_Z 90) eq_refl H90)).
  - exact (proj2 (proj2 (H (JNum (js_int 90))) (inject_Z 90) eq_refl H90) "b").
  - exact (proj2 (proj2 (H (JNum (js_int 90))) (inject_Z 90) eq_refl H90) "a").
  - exact (proj2 (proj2 (H (JNum (js_int 90))) (inject_Z 90) eq_refl H90) "c").
Defined.

(** ** C3: chat *)

(** C3, as stated, fails on a message of at most 500 characters that grows
    beyond 500 when escaped: the length is checked after [sanitizeInput].
    Ann sends 500 times the character [<]: she gets the error frame and
    nothing is broadcast. *)
Lemma C3_short_message_rejected :
  let text := str_repeat lt_sign 500 in
  let message : WebSocketMessage :=
    {[ "type" := JStr "chat"; "message" := JStr text ]} in
  String.length text = 500%nat ∧
  Server.handleWebSocketMessage "a" (ParsedObject message) 7 all_open =
    (Ret tt, all_open, [("a", FError "Message too long")]).
Proof. split; by vm_compute. Qed.

(** C3 (amended): the text of a chat event is HTML-escaped, and the escaped
    text is length-limited: when it is longer than 500 characters (as it is
    whenever the text itself is, a 501-character text included) the sender
    gets exactly one error frame and nothing is broadcast; when it is at
    most 500 characters long (as for a 500-character text with nothing to
    escape) the escaped text is sent exactly once to every member of the
    sender's room whose socket is open, the sender included, and to nobody
    else. *)
Theorem C3_chat_length_limited (s : State) (senderId : string)
    (client : Client.t) (message : WebSocketMessage) (now : Z)
    (text : string) :
  well_formed s →
  clients s !! senderId = Some client →
  field message "type" = JStr "chat" →
  field message "message" = JStr text →
  let r := Server.handleWebSocketMessage senderId
    (ParsedObject message) now s in
  let chatMessage := Server.sanitizeInput text in
  let rejected := (Ret tt, s, [(senderId, FError "Message too long")]) in
  let frame :=
    FChat senderId (Client.name client) chatMessage (IsoString now) in
  let broadcast :=
    r = (Ret tt, s,
         (λ to, (to, frame)) <$> recipients s (Client.room client) None) ∧
    ∀ to, sent_to to (sends_of r) =
            if bool_decide (to ∈ members s (Client.room client) ∧
                            is_open s to = true)
            then [frame] else [] in
  ((500 < String.length chatMessage)%nat → r = rejected) ∧
  ((500 < String.length text)%nat → r = rejected) ∧
  ((String.length chatMessage ≤ 500)%nat → broadcast) ∧
  (clean text → (String.length text ≤ 500)%nat →
   chatMessage = text ∧ broadcast).
Proof.
  intros Hwf Hc Htype Hm r chatMessage rejected frame broadcast.
  pose proof (proj2 Hwf _ _ Hc) as Hid.
  assert (Hr : r =
    if (500 <? String.length chatMessage)%nat then rejected
    else (Ret tt, s,
          (λ to, (to, frame)) <$> recipients s (Client.room client) None)).
  { subst r. rewrite (handleWebSocketMessage_dispatch _ _ _ _ _ Hc).
    cbn zeta. rewrite !(type_tests _ _ Htype).
    cbn [String.eqb Ascii.eqb Bool.eqb orb]. cbn match.
    rewrite (handleChatMessage_run _ _ _ _ _ Hm).
    rewrite broadcast_targets_recipients by done.
    subst rejected frame. by rewrite Hid. }
  assert (Hrej : (500 < String.length chatMessage)%nat → r = rejected).
  { intros Hlen. rewrite Hr.
    by rewrite (proj2 (Nat.ltb_lt _ _) Hlen). }
  assert (Hok : (String.length chatMessage ≤ 500)%nat → broadcast).
  { intros Hlen. subst broadcast. rewrite Hr.
    rewrite (proj2 (Nat.ltb_ge _ _) Hlen). split; [done|].
    intros to. cbn [sends_of snd]. rewrite sent_to_recipients by done.
    apply if_bool_decide_ext. split; [by intros (? & _ & ?)|].
    by intros [? ?]. }
  split_and!; [done| |done|].
  - intros Hlen. apply Hrej. subst chatMessage.
    pose proof (sanitizeInput_length text). lia.
  - intros Hclean Hlen.
    assert (Heq : chatMessage = text) by by apply sanitizeInput_fixed.
    split; [done|]. apply Hok. by rewrite Heq.
Qed.

Lemma C3_witness :
  let ann :=
    Client.mk {| readyState := OPEN |} "a" "Ann" "r1" "player" 1 "10.0.0.1" in
  let chat (text : string) : WebSocketMessage :=
    {[ "type" := JStr "chat"; "message" := JStr text ]} in
  let long := str_repeat "x" 501 in
  let short := str_repeat "x" 500 in
  let frame := FChat "a" "Ann" short (IsoString 7) in
  (500 < String.length long)%nat ∧
  Server.handleWebSocketMessage "a" (ParsedObject (chat long)) 7 all_open =
    (Ret tt, all_open, [("a", FError "Message too long")]) ∧
  clean short ∧ (String.length short ≤ 500)%nat ∧
  Server.handleWebSocketMessage "a" (ParsedObject (chat short)) 7 all_open =
    (Ret tt, all_open, [("a", frame); ("b", frame)]) ∧
  sent_to "a" (sends_of (Server.handleWebSocketMessage "a"
                           (ParsedObject (chat short)) 7 all_open))
    = [frame] ∧
  sent_to "c" (sends_of (Server.handleWebSocketMessage "a"
                           (ParsedObject (chat short)) 7 all_open)) = [].
Proof.
  intros ann chat long short frame.
  pose proof (λ text,
    C3_chat_length_limited all_open "a" ann (chat text) 7 text
      well_formed_all_open eq_refl eq_refl eq_refl) as H.
  cbn zeta in H.
  assert (Hlong : (500 < String.length long)%nat)
    by (vm_compute; repeat constructor).
  assert (Hclean : clean short) by (vm_compute; done).
  assert (Hshort : (String.length short ≤ 500)%nat)
    by (vm_compute; repeat constructor).
  destruct (H long) as (_ & Hrej & _ & _).
  destruct (H short) as (_ & _ & _ & Hok).
  destruct (Hok Hclean Hshort) as (Heq & Hsends & Hcount).
  rewrite Heq in Hsends, Hcount.
  split_and!; [exact Hlong|exact (Hrej Hlong)|exact Hclean|exact Hshort
              |exact Hsends|exact (Hcount "a")|exact (Hcount "c")].
Defined.

(** ** C4: signaling *)

(** C4, as stated, fails for a room member whose socket is not open.  Bob
    has joined Ann's room but his socket is still connecting.  Ann's offer
    to ["broadcast"] is relayed to nobody: the broadcast skips Bob.  Ann's
    offer to Bob himself is not relayed either: the send on his socket
    raises, and the [onmessage] handler answers Ann with an error frame. *)
Lemma C4_connecting_member_skipped :
  let offer (target : string) : WebSocketMessage :=
    {[ "type" := JStr "offer"; "target" := JStr target ]} in
  members bob_connecting "r1" = ["a"; "b"] ∧
  Server.handleWebSocketMessage "a" (ParsedObject (offer "broadcast")) 7
    bob_connecting = (Ret tt, bob_connecting, []) ∧
  Server.handleWebSocketMessage "a" (ParsedObject (offer "b")) 7
    bob_connecting = (Throw "InvalidStateError", bob_connecting, []) ∧
  Server.onmessage "a" (Some (ParsedObject (offer "b"))) 7 bob_connecting =
    (Ret tt, bob_connecting, [("a", FError "Invalid message format")]).
Proof. split_and!; by vm_compute. Qed.

(** C4 (amended): a signaling event (offer, answer, ice-candidate) whose
    target is the string ["broadcast"] is relayed, with [from] set to the
    sender's id, exactly once to every member of the sender's room other
    than the sender whose socket is open, and to nobody else.  One whose
    target names a registered connection whose socket is open is relayed
    to that connection alone, exactly once, and only if that connection's
    room equals the sender's room; a target in another room yields no
    delivery, whatever the state of its socket.  In no case does a frame go
    to a connection other than the target, to a target in another room, or
    to a target whose socket is still connecting: the send to a same-room
    target that is still connecting raises [InvalidStateError].  A target
    that names no registered connection, or is empty or not a string,
    yields no delivery. *)
Theorem C4_signaling_relay (s : State) (senderId : string) (client : Client.t)
    (message : WebSocketMessage) (type : string) (now : Z) :
  well_formed s →
  clients s !! senderId = Some client →
  field message "type" = JStr type →
  type ∈ ["offer"; "answer"; "ice-candidate"] →
  let r :=
    Server.handleWebSocketMessage senderId (ParsedObject message) now s in
  let frame := FRelay message senderId in
  (field message "target" = JStr "broadcast" →
   r = (Ret tt, s,
        (λ to, (to, frame)) <$>
          recipients s (Client.room client) (Some senderId)) ∧
   ∀ to, sent_to to (sends_of r) =
           if bool_decide (to ∈ members s (Client.room client) ∧
                           to ≠ senderId ∧ is_open s to = true)
           then [frame] else []) ∧
  (∀ target targetClient,
     field message "target" = JStr target →
     target ≠ "broadcast" → target ≠ "" →
     clients s !! target = Some targetClient →
     (Client.room targetClient = Client.room client →
      readyState (Client.socket targetClient) = OPEN →
      r = (Ret tt, s, [(target, frame)])) ∧
     (Client.room targetClient = Client.room client →
      readyState (Client.socket targetClient) = CONNECTING →
      r = (Throw "InvalidStateError", s, [])) ∧
     (Client.room targetClient ≠ Client.room client →
      r = (Ret tt, s, [])) ∧
     state_of r = s ∧
     ∀ to sent, (to, sent) ∈ sends_of r →
       to = target ∧ sent = frame ∧
       Client.room targetClient = Client.room client ∧
       readyState (Client.socket targetClient) ≠ CONNECTING) ∧
  (∀ target,
     field message "target" = JStr target →
     target ≠ "broadcast" →
     clients s !! target = None →
     r = (Ret tt, s, [])) ∧
  (field message "target" = JStr "" ∨
   (∀ target, field message "target" ≠ JStr target) →
   r = (Ret tt, s, [])).
Proof.
  intros Hwf Hc Htype Hsig r frame.
  pose proof (proj2 Hwf _ _ Hc) as Hid.
  assert (Hr : r = Server.handleRTCSignaling client message s).
  { subst r. rewrite (handleWebSocketMessage_dispatch _ _ _ _ _ Hc).
    cbn zeta. rewrite !(type_tests _ _ Htype).
    repeat (apply elem_of_cons in Hsig as [->|Hsig]); [done..|].
    by apply elem_of_nil in Hsig. }
  rewrite Hr. subst frame. rewrite <- Hid.
  split_and!.
  - intros Ht. rewrite (handleRTCSignaling_broadcast _ _ _ Ht).
    rewrite broadcast_targets_recipients by done.
    split; [done|]. intros to. cbn [sends_of snd].
    rewrite sent_to_recipients by done. by rewrite recipient_test.
  - intros target targetClient Ht Hnb Hne Htc.
    rewrite handleRTCSignaling_target
      by (rewrite Ht; cbn; by apply String.eqb_neq).
    rewrite Ht. cbn [Map_get truthy]. rewrite Htc.
    rewrite (proj2 (String.eqb_neq _ _) Hne). cbn [negb andb].
    rewrite (proj2 Hwf _ _ Htc).
    split_and!.
    + intros Hroom Hopen. rewrite bool_decide_true by done.
      rewrite bool_decide_false; [done|]. by rewrite Hopen.
    + intros Hroom Hconn. rewrite bool_decide_true by done.
      by rewrite bool_decide_true.
    + intros Hroom. by rewrite bool_decide_false.
    + by repeat case_bool_decide.
    + intros to sent. repeat case_bool_decide; cbn [sends_of snd];
        [by intros ?%elem_of_nil| |by intros ?%elem_of_nil].
      by intros [= -> ->]%list_elem_of_singleton.
  - intros target Ht Hnb Htc. rewrite handleRTCSignaling_target.
    + rewrite Ht. cbn [Map_get]. by rewrite Htc.
    + rewrite Ht. cbn. by apply String.eqb_neq.
  - intros Ht. rewrite handleRTCSignaling_target.
    + destruct Ht as [Ht|Ht].
      * rewrite Ht. cbn. by destruct (clients s !! "").
      * destruct (field message "target") as [| | | |target|]; cbn;
          try done. by destruct (Ht target).
    + destruct Ht as [Ht|Ht]; [by rewrite Ht|].
      destruct (field message "target") as [| | | |target|]; cbn;
        try done. by destruct (Ht target).
Qed.

Lemma C4_witness :
  let ann :=
    Client.mk {| readyState := OPEN |} "a" "Ann" "r1" "player" 1 "10.0.0.1" in
  let bob :=
    Client.mk {| readyState := OPEN |} "b" "Bob" "r1" "player" 2 "10.0.0.2" in
  let cy :=
    Client.mk {| readyState := OPEN |} "c" "Cy" "r2" "player" 3 "10.0.0.3" in
  let bob_early :=
    Client.mk {| readyState := CONNECTING |} "b" "Bob" "r1" "player" 2
      "10.0.0.2" in
  let offer (target : string) : WebSocketMessage :=
    {[ "type" := JStr "offer"; "target" := JStr target ]} in
  Server.handleWebSocketMessage "a" (ParsedObject (offer "broadcast")) 7
    all_open = (Ret tt, all_open, [("b", FRelay (offer "broadcast") "a")]) ∧
  sent_to "a" (sends_of (Server.handleWebSocketMessage "a"
                           (ParsedObject (offer "broadcast")) 7 all_open))
    = [] ∧
  Server.handleWebSocketMessage "a" (ParsedObject (offer "b")) 7 all_open =
    (Ret tt, all_open, [("b", FRelay (offer "b") "a")]) ∧
  Server.handleWebSocketMessage "a" (ParsedObject (offer "c")) 7 all_open =
    (Ret tt, all_open, []) ∧
  Server.handleWebSocketMessage "a" (ParsedObject (offer "nobody")) 7
    all_open = (Ret tt, all_open, []) ∧
  Server.handleWebSocketMessage "a" (ParsedObject (offer "b")) 7
    bob_connecting = (Throw "InvalidStateError", bob_connecting, []).
Proof.
  intros ann bob cy bob_early offer.
  assert (Hsig : "offer" ∈ ["offer"; "answer"; "ice-candidate"])
    by apply list_elem_of_here.
  pose proof (λ target,
    C4_signaling_relay all_open "a" ann (offer target) "offer" 7
      well_formed_all_open eq_refl eq_refl Hsig) as H.
  pose proof (C4_signaling_relay bob_connecting "a" ann (offer "b") "offer" 7
      well_formed_bob_connecting eq_refl eq_refl Hsig) as H'.
  cbn zeta in H, H'.
  assert (Hb : "b" ≠ "broadcast") by discriminate.
  assert (Hc : "c" ≠ "broadcast") by discriminate.
  assert (Hn : "nobody" ≠ "broadcast") by discriminate.
  assert (Hb' : "b" ≠ "") by discriminate.
  assert (Hc' : "c" ≠ "") by discriminate.
  assert (Hcy : Client.room cy ≠ Client.room ann) by discriminate.
  split_and!.
  - exact (proj1 (proj1 (H "broadcast") eq_refl)).
  - exact (proj2 (proj1 (H "broadcast") eq_refl) "a").
  - exact (proj1 (proj1 (proj2 (H "b")) "b" bob eq_refl Hb Hb' eq_refl)
             eq_refl eq_refl).
  - exact (proj1 (proj2 (proj2 (proj1 (proj2 (H "c")) "c" cy eq_refl Hc Hc'
                                  eq_refl))) Hcy).
  - exact (proj1 (proj2 (proj2 (H "nobody"))) "nobody" eq_refl Hn eq_refl).
  - exact (proj1 (proj2 (proj1 (proj2 H') "b" bob_early eq_refl Hb Hb'
                           eq_refl)) eq_refl eq_refl).
Defined.

(** ** C6: disconnect *)

(** C6, as stated, fails for a remaining member whose socket is not open.
    Ann and Bob are the members of ["r1"] and Bob's socket is still
    connecting; when Ann disconnects no [user-left] frame is sent. *)
Lemma C6_connecting_member_not_notified :
  members bob_connecting "r1" = ["a"; "b"] ∧
  sends_of (Server.handleClientDisconnect "a" 9 bob_connecting) = [] ∧
  members (state_of (Server.handleClientDisconnect "a" 9 bob_connecting))
    "r1" = ["b"].
Proof. split_and!; by vm_compute. Qed.

(** C6 (amended): the disconnect of a registered connection removes it from
    the member set of its room (deleting the room when that set becomes
    empty), removes its entry from the clients map, and then sends a
    [user-left] frame, carrying the member list of the updated state, once
    to every remaining member of the room whose socket is open; a second
    disconnect of the same id changes nothing and sends nothing.  When the
    connection and one other connection, whose socket is open, are the
    members of a room, the other one is sent one [user-left] frame whose
    [users] list holds it alone, and the room is left with one member. *)
Theorem C6_disconnect (s : State) (clientId : string) (client : Client.t)
    (now : Z) :
  well_formed s →
  clients s !! clientId = Some client →
  let r := Server.handleClientDisconnect clientId now s in
  let s' := state_of r in
  let room := Client.room client in
  let frame :=
    FUserLeft clientId (Client.name client) (IsoString now)
      (room_users s' room) in
  result_of r = Ret tt ∧
  rooms s' = rooms_without s clientId room ∧
  clients s' = delete clientId (clients s) ∧
  clientRooms s' = delete clientId (clientRooms s) ∧
  rateLimits s' = rateLimits s ∧
  sends_of r = (λ to, (to, frame)) <$> recipients s' room None ∧
  (∀ to, sent_to to (sends_of r) =
           if bool_decide (to ∈ members s' room ∧ is_open s' to = true)
           then [frame] else []) ∧
  (∀ now', Server.handleClientDisconnect clientId now' s' = (Ret tt, s', [])) ∧
  (∀ other otherClient,
     members s room ≡ₚ [clientId; other] →
     clients s !! other = Some otherClient →
     readyState (Client.socket otherClient) = OPEN →
     sends_of r =
       [(other,
         FUserLeft clientId (Client.name client) (IsoString now)
           [UserInfo.mk other (Client.name otherClient)
              (Client.role otherClient) (Client.joinedAt otherClient)])] ∧
     Set_size (members s' room) = 1%nat).
Proof.
  intros Hwf Hc r s' room frame.
  pose proof (handleClientDisconnect_spec clientId now s client Hwf Hc) as Hr.
  cbn zeta in Hr. fold r in Hr.
  assert (Hs' : s' = left s clientId client) by (subst s'; by rewrite Hr).
  assert (Hwf' : well_formed s')
    by (rewrite Hs'; by apply well_formed_left).
  assert (Hsends : sends_of r = (λ to, (to, frame)) <$> recipients s' room None).
  { subst frame. rewrite Hs'. by rewrite Hr. }
  split_and!; try (by rewrite Hs'); try (by rewrite Hr); [done| | |].
  - intros to. rewrite Hsends, sent_to_recipients by done.
    apply if_bool_decide_ext. split; [by intros (? & _ & ?)|by intros [? ?]].
  - intros now'. apply handleClientDisconnect_absent.
    rewrite Hs'. cbn. apply lookup_delete_eq.
  - intros other otherClient Hperm Hother Hopen.
    assert (Hne : other ≠ clientId).
    { intros ->. assert (Hnd : NoDup (members s room)).
      { unfold members. destruct (rooms s !! room) eqn:E;
          [by eapply Hwf|apply NoDup_nil_2]. }
      rewrite Hperm in Hnd. apply NoDup_cons in Hnd as [Hnd _].
      apply Hnd, list_elem_of_here. }
    assert (Hm : members s' room = [other]).
    { rewrite Hs'. unfold members, left, rooms_without in *. cbn [rooms].
      fold room. destruct (rooms s !! room) as [roomObj|] eqn:Hro.
      - assert (Hdel : Set_delete clientId (Room.clients roomObj) = [other]).
        { apply Permutation_singleton_r. unfold Set_delete.
          rewrite Hperm, filter_cons, decide_False by tauto.
          by rewrite filter_cons, decide_True, filter_nil by done. }
        rewrite Hdel, bool_decide_false by done.
        by rewrite lookup_insert_eq.
      - apply Permutation_nil_l in Hperm. done. }
    assert (Hother' : clients s' !! other = Some otherClient).
    { rewrite Hs'. cbn. by rewrite lookup_delete_ne. }
    split; [|by rewrite Hm].
    rewrite Hsends. subst frame. unfold recipients, room_users.
    rewrite Hm. cbn [omap list_omap]. rewrite Hother'.
    rewrite filter_cons, decide_True, filter_nil.
    + cbn. by rewrite (proj2 Hwf _ _ Hother).
    + split; [done|]. unfold is_open. rewrite Hother'.
      by apply bool_decide_eq_true.
Qed.

Lemma C6_witness :
  let ann :=
    Client.mk {| readyState := OPEN |} "a" "Ann" "r1" "player" 1 "10.0.0.1" in
  let bob :=
    Client.mk {| readyState := OPEN |} "b" "Bob" "r1" "player" 2 "10.0.0.2" in
  let r := Server.handleClientDisconnect "a" 9 all_open in
  members all_open "r1" = ["a"; "b"] ∧
  sends_of r =
    [("b", FUserLeft "a" "Ann" (IsoString 9)
             [UserInfo.mk "b" "Bob" "player" 2])] ∧
  Set_size (members (state_of r) "r1") = 1%nat ∧
  Server.handleClientDisconnect "a" 10 (state_of r) =
    (Ret tt, state_of r, []).
Proof.
  intros ann bob r.
  destruct (C6_disconnect all_open "a" ann 9 well_formed_all_open eq_refl)
    as (_ & _ & _ & _ & _ & _ & _ & Hagain & Htwo).
  assert (Hperm : members all_open "r1" ≡ₚ ["a"; "b"]) by reflexivity.
  destruct (Htwo "b" bob Hperm eq_refl eq_refl) as [Hsends Hsize].
  split_and!; [reflexivity|exact Hsends|exact Hsize|exact (Hagain 10)].
Defined.

(** ** C9: the two routers agree *)

Lemma same_routing_refl r : same_routing r r.
Proof. by repeat split. Qed.

Lemma same_routing_broadcast s (l : list string) (f1 f2 : Frame) :
  frame_type f1 = frame_type f2 →
  frame_is_error f1 = frame_is_error f2 →
  same_routing (Ret tt, s, (λ to, (to, f1)) <$> l)
               (Ret tt, s, (λ to, (to, f2)) <$> l).
Proof.
  intros Ht He. unfold same_routing, deliveries, decisions. cbn.
  rewrite <- !list_fmap_compose. split_and!; [done..| |].
  - apply list_fmap_ext. intros _ to _. cbn. by rewrite Ht.
  - apply list_fmap_ext. intros _ to _. cbn. by rewrite He.
Qed.

Lemma same_routing_single s (to : string) (f1 f2 : Frame) :
  frame_type f1 = frame_type f2 →
  frame_is_error f1 = frame_is_error f2 →
  same_routing (Ret tt, s, [(to, f1)]) (Ret tt, s, [(to, f2)]).
Proof. apply (same_routing_broadcast s [to]). Qed.

Lemma Deploy_broadcastToRoom_run s room excludeClientId message :
  Deploy.broadcastToRoom room excludeClientId message s =
    (Ret tt, s,
     (λ to, (to, message)) <$> broadcast_targets s room excludeClientId).
Proof. exact (broadcastToRoom_run s room excludeClientId message). Qed.

Lemma handleBingoNumber_same client message now s :
  same_routing (Server.handleBingoNumber client message now s)
               (Deploy.handleBingoNumber client message now s).
Proof.
  unfold Server.handleBingoNumber, Deploy.handleBingoNumber.
  destruct (field message "number") as [| | |n| |];
    try by apply same_routing_single.
  destruct (js_lt n (js_int 1) || js_gt n (js_int 90));
    [by apply same_routing_single|].
  rewrite broadcastToRoom_run, Deploy_broadcastToRoom_run.
  by apply same_routing_broadcast.
Qed.

Lemma handleWinner_same client message now s :
  same_routing (Server.handleWinner client message now s)
               (Deploy.handleWinner client message now s).
Proof.
  unfold Server.handleWinner, Deploy.handleWinner.
  rewrite broadcastToRoom_run, Deploy_broadcastToRoom_run.
  by apply same_routing_broadcast.
Qed.

Lemma handleChatMessage_same client message now s :
  same_routing (Server.handleChatMessage client message now s)
               (Deploy.handleChatMessage client message now s).
Proof.
  unfold Server.handleChatMessage, Deploy.handleChatMessage.
  destruct (js_or _ _) as [| | | |input|]; try apply same_routing_refl.
  cbn zeta. rewrite Deploy_sanitizeInput_eq.
  destruct (500 <? String.length (Server.sanitizeInput input))%nat;
    [apply same_routing_refl|].
  rewrite broadcastToRoom_run, Deploy_broadcastToRoom_run.
  by apply same_routing_broadcast.
Qed.

Lemma Deploy_getRoomUsers_spec s room :
  Deploy.getRoomUsers room s = (Ret (room_users s room), s, []).
Proof. exact (getRoomUsers_spec s room). Qed.

Lemma sendRoomUsers_same client now s :
  same_routing (Server.sendRoomUsers client now s)
               (Deploy.sendRoomUsers client now s).
Proof.
  unfold Server.sendRoomUsers, Deploy.sendRoomUsers.
  unfold mbind, M_bind.
  rewrite getRoomUsers_spec, Deploy_getRoomUsers_spec. unfold socket_send.
  by apply same_routing_single.
Qed.

(** C9: in every state and for every inbound event, whatever its type
    (ping, bingo-number, winner, offer, answer, ice-candidate, chat,
    get-users or anything else), the router of [server.ts] and the router
    of the deployment variant end with the same result and the same state,
    send frames of the same types to the same connections in the same
    order, and send error frames in the same places. *)
Theorem C9_routers_agree (s : State) (clientId : string) (parsed : Parsed)
    (now : Z) :
  same_routing (Server.handleWebSocketMessage clientId parsed now s)
               (Deploy.handleWebSocketMessage clientId parsed now s).
Proof.
  unfold Server.handleWebSocketMessage, Deploy.handleWebSocketMessage.
  unfold mbind, M_bind, get_state.
  destruct (clients s !! clientId) as [client|]; [|apply same_routing_refl].
  destruct parsed as [message| |]; [|apply same_routing_refl..].
  cbn zeta.
  assert (Hnil : ∀ x y : Result () * State * list Send,
            same_routing x y →
            same_routing (let '(r, s2, t2) := x in (r, s2, [] ++ t2))
                         (let '(r, s2, t2) := y in (r, s2, [] ++ t2))).
  { by intros [[??]?] [[??]?]. }
  apply Hnil. clear Hnil.
  destruct (field message "type") as [| | | |type|];
    try apply same_routing_refl.
  cbn [strict_eq_str].
  destruct (String.eqb_spec type "ping") as [->|_];
    [apply same_routing_refl|].
  destruct (String.eqb_spec type "join") as [->|_];
    [apply same_routing_refl|].
  destruct (String.eqb_spec type "bingo-number") as [->|_];
    [apply handleBingoNumber_same|].
  destruct (String.eqb_spec type "winner") as [->|_];
    [apply handleWinner_same|].
  destruct (String.eqb type "offer" || String.eqb type "answer"
            || String.eqb type "ice-candidate");
    [apply same_routing_refl|].
  destruct (String.eqb_spec type "chat") as [->|_];
    [apply handleChatMessage_same|].
  destruct (String.eqb_spec type "get-users") as [->|_];
    [apply sendRoomUsers_same|].
  apply same_routing_refl.
Qed.

Lemma C9_witness :
  let bingo : WebSocketMessage :=
    {[ "type" := JStr "bingo-number"; "number" := JNum (js_int 0) ]} in
  let chat : WebSocketMessage :=
    {[ "type" := JStr "chat"; "message" := JStr "hi" ]} in
  let join : WebSocketMessage := {[ "type" := JStr "join" ]} in
  same_routing
    (Server.handleWebSocketMessage "a" (ParsedObject bingo) 7 all_open)
    (Deploy.handleWebSocketMessage "a" (ParsedObject bingo) 7 all_open) ∧
  sends_of (Server.handleWebSocketMessage "a" (ParsedObject bingo) 7 all_open)
    = [("a", FError "Invalid bingo number")] ∧
  sends_of (Deploy.handleWebSocketMessage "a" (ParsedObject bingo) 7 all_open)
    = [("a", FError "Invalid bingo number (1-90)")] ∧
  same_routing
    (Server.handleWebSocketMessage "a" (ParsedObject chat) 7 all_open)
    (Deploy.handleWebSocketMessage "a" (ParsedObject chat) 7 all_open) ∧
  sends_of (Deploy.handleWebSocketMessage "a" (ParsedObject chat) 7 all_open)
    = [("a", FChat "a" "Ann" "hi" (Millis 7));
       ("b", FChat "a" "Ann" "hi" (Millis 7))] ∧
  same_routing
    (Server.handleWebSocketMessage "a" (ParsedObject join) 7 all_open)
    (Deploy.handleWebSocketMessage "a" (ParsedObject join) 7 all_open).
Proof.
  intros bingo chat join.
  split_and!.
  - exact (C9_routers_agree all_open "a" (ParsedObject bingo) 7).
  - reflexivity.
  - reflexivity.
  - exact (C9_routers_agree all_open "a" (ParsedObject chat) 7).
  - reflexivity.
  - exact (C9_routers_agree all_open "a" (ParsedObject join) 7).
Defined.

(** * Further properties of the relay *)

(** ** The second index and the join/leave round trip *)

Lemma mirrored_joined s clientId client now :
  mirrored s → mirrored (joined s clientId client now).
Proof.
  intros Hm id. cbn. destruct (decide (clientId = id)) as [->|Hne].
  - by rewrite !lookup_insert_eq.
  - by rewrite !lookup_insert_ne.
Qed.

Lemma mirrored_left s clientId client :
  mirrored s → mirrored (left s clientId client).
Proof.
  intros Hm id. cbn. destruct (decide (clientId = id)) as [->|Hne].
  - by rewrite !lookup_delete_eq.
  - by rewrite !lookup_delete_ne.
Qed.

Lemma mirrored_run ops : mirrored (Server.run ops initial).
Proof.
  induction ops as [|op ops IH] using rev_ind.
  - intros id. cbn. by rewrite !lookup_empty.
  - rewrite run_snoc, exec_state
      by apply well_formed_run, well_formed_initial.
    destruct op.
    + by apply mirrored_joined.
    + destruct (clients _ !! clientId); [by apply mirrored_left|done].
Qed.

(** X1: after every sequence of joins and leaves, reused ids included, the
    map [clientRooms] holds exactly the registered connection ids, each with
    the room of its registry entry. *)
Theorem X1_clientRooms_mirrors_registry (ops : list Server.Op)
    (clientId : string) :
  clientRooms (Server.run ops initial) !! clientId =
    Client.room <$> clients (Server.run ops initial) !! clientId.
Proof. apply mirrored_run. Qed.

Lemma Set_delete_absent x l : x ∉ l → Set_delete x l = l.
Proof.
  unfold Set_delete. induction l as [|y l IH]; [done|].
  intros [Hne Hx]%not_elem_of_cons.
  rewrite filter_cons, decide_True by done. by rewrite IH.
Qed.

Lemma Set_delete_add x l : x ∉ l → Set_delete x (Set_add x l) = l.
Proof.
  intros Hx. unfold Set_add, Set_has.
  rewrite bool_decide_false by done. unfold Set_delete.
  rewrite filter_app, filter_cons, decide_False, filter_nil, app_nil_r by tauto.
  by apply Set_delete_absent.
Qed.

Lemma Set_add_member x l : x ∈ l → Set_add x l = l.
Proof. intros Hx. unfold Set_add, Set_has. by rewrite bool_decide_true. Qed.

Lemma not_member_of_unregistered s clientId room :
  consistent s → clients s !! clientId = None → clientId ∉ members s room.
Proof.
  intros [Hrc _] Hc Hin. unfold members in Hin.
  destruct (rooms s !! room) as [roomObj|] eqn:Hro;
    [|by apply elem_of_nil in Hin].
  destruct (Hrc _ _ _ Hro Hin) as (c & Hc' & _). congruence.
Qed.

Lemma join_then_leave s clientId name_param room_param role_param ip now now' :
  well_formed s → consistent s → no_empty_room s → mirrored s →
  clients s !! clientId = None →
  state_of
    (Server.handleClientDisconnect clientId now'
       (state_of (Server.handleWebSocket clientId name_param room_param
                    role_param ip now s))) = s.
Proof.
  intros Hwf Hcons Hne Hm Hfresh.
  rewrite handleWebSocket_spec. cbn [state_of fst snd].
  set (client := new_client clientId name_param room_param role_param ip now).
  assert (Hwf1 : well_formed (joined s clientId client now))
    by by apply well_formed_joined.
  assert (Hc1 : clients (joined s clientId client now) !! clientId
                = Some client) by (cbn; by rewrite lookup_insert_eq).
  rewrite (handleClientDisconnect_spec _ _ _ _ Hwf1 Hc1). cbn [state_of fst snd].
  pose proof (not_member_of_unregistered s clientId (Client.room client)
                Hcons Hfresh) as Hnot.
  assert (Hcr : clientRooms s !! clientId = None) by by rewrite Hm, Hfresh.
  unfold left, joined, rooms_without. cbn [clients rooms clientRooms rateLimits].
  rewrite lookup_insert_eq. cbn [Room.clients Room.name Room.createdAt].
  unfold members, room_or_new in *.
  rewrite !delete_insert_eq.
  rewrite (delete_id (clients s)), (delete_id (clientRooms s)) by done.
  destruct (rooms s !! Client.room client) as [roomObj|] eqn:Hro;
    cbn [default from_option id] in *.
  - rewrite Set_delete_add by done.
    rewrite bool_decide_false.
    + rewrite insert_insert_eq, insert_id; [by destruct s|].
      rewrite Hro. by destruct roomObj.
    + intros Hsz. apply (Hne _ _ Hro). by apply nil_length_inv.
  - rewrite Set_delete_add by done.
    rewrite bool_decide_true by done.
    rewrite delete_id by done. by destruct s.
Qed.

(** X2: in a state built by joins (each under an id not registered at that
    moment) and leaves, the join of an unregistered id followed by its
    disconnect gives back the state before the join: registry, directory,
    [clientRooms] and rate limits. *)
Theorem X2_join_then_leave_restores (ops : list Server.Op) (clientId : string)
    (name_param room_param role_param : option string) (ip : string)
    (now now' : Z) :
  fresh_joins ops initial →
  clients (Server.run ops initial) !! clientId = None →
  state_of
    (Server.handleClientDisconnect clientId now'
       (state_of (Server.handleWebSocket clientId name_param room_param
                    role_param ip now (Server.run ops initial)))) =
  Server.run ops initial.
Proof.
  intros Hfresh Hc. apply join_then_leave; [| | | |done].
  - apply well_formed_run, well_formed_initial.
  - rewrite <- (firstn_all ops).
    by apply consistent_run;
      [apply well_formed_initial|apply consistent_initial|].
  - apply no_empty_room_run; [apply well_formed_initial|].
    intros ?? H. cbn in H. by apply lookup_empty_Some in H.
  - apply mirrored_run.
Qed.

Lemma X2_witness :
  let ops :=
    [Server.Join "a" (Some "Ann") (Some "r1") None "10.0.0.1" 1;
     Server.Join "b" (Some "Bob") (Some "r1") None "10.0.0.2" 2] in
  fresh_joins ops initial ∧
  clients (Server.run ops initial) !! "c" = None ∧
  state_of
    (Server.handleClientDisconnect "c" 9
       (state_of (Server.handleWebSocket "c" (Some "Cy") (Some "r1") None
                    "10.0.0.3" 3 (Server.run ops initial)))) =
  Server.run ops initial.
Proof.
  intros ops.
  assert (Hfresh : fresh_joins ops initial) by (vm_compute; done).
  split_and!; [exact Hfresh|reflexivity|].
  exact (X2_join_then_leave_restores ops "c" (Some "Cy") (Some "r1") None
           "10.0.0.3" 3 9 Hfresh eq_refl).
Defined.

Lemma room_users_ids s room :
  well_formed s →
  ∀ info, info ∈ room_users s room → UserInfo.userId info ∈ members s room.
Proof.
  intros [_ Hid] info. unfold room_users.
  intros (id & Hin & Hinfo)%list_elem_of_omap.
  destruct (clients s !! id) as [c|] eqn:Hc; [|done].
  injection Hinfo as <-. cbn. by rewrite (Hid _ _ Hc).
Qed.

(** X3: in a well-formed, consistent state the disconnect of a registered
    connection leaves no trace of its id: it is in no map and in no room's
    member set, no frame is sent to it, and the roster of the [user-left]
    frames does not list it. *)
Theorem X3_disconnect_leaves_no_trace (s : State) (clientId : string)
    (client : Client.t) (now : Z) :
  well_formed s → consistent s →
  clients s !! clientId = Some client →
  let r := Server.handleClientDisconnect clientId now s in
  let s' := state_of r in
  clients s' !! clientId = None ∧
  clientRooms s' !! clientId = None ∧
  (∀ room, clientId ∉ members s' room) ∧
  sent_to clientId (sends_of r) = [] ∧
  (∀ to userId name timestamp users info,
     (to, FUserLeft userId name timestamp users) ∈ sends_of r →
     info ∈ users → UserInfo.userId info ≠ clientId).
Proof.
  intros Hwf Hcons Hc r s'.
  pose proof (handleClientDisconnect_spec clientId now s client Hwf Hc) as Hr.
  cbn zeta in Hr. fold r in Hr.
  assert (Hs' : s' = left s clientId client) by (subst s'; by rewrite Hr).
  assert (Hwf' : well_formed s') by (rewrite Hs'; by apply well_formed_left).
  assert (Hcons' : consistent s') by (rewrite Hs'; by apply consistent_left).
  assert (Hgone : clients s' !! clientId = None).
  { rewrite Hs'. cbn. apply lookup_delete_eq. }
  assert (Hnot : ∀ room, clientId ∉ members s' room).
  { intros room. by apply not_member_of_unregistered. }
  split_and!; [done| |done| |].
  - rewrite Hs'. cbn. apply lookup_delete_eq.
  - rewrite Hr. cbn [sends_of snd]. rewrite <- Hs'.
    rewrite sent_to_recipients by done.
    rewrite bool_decide_false; [done|]. intros (Hin & _). by apply Hnot in Hin.
  - intros to userId name timestamp users info Hin Hinfo.
    rewrite Hr in Hin. cbn [sends_of snd] in Hin. rewrite <- Hs' in Hin.
    apply elem_of_broadcast in Hin as [[= _ _ _ ->] _].
    apply (room_users_ids _ _ Hwf') in Hinfo. intros Heq.
    rewrite Heq in Hinfo. by apply Hnot in Hinfo.
Qed.

Lemma consistent_socket_state clientId st s :
  consistent s → consistent (state_of (socket_state clientId st s)).
Proof.
  intros [Hrc Hcr]. unfold socket_state, state_of. run_m. split; cbn.
  - intros room roomObj id Hro Hin.
    destruct (Hrc _ _ _ Hro Hin) as (c & Hc & Hroom).
    destruct (decide (clientId = id)) as [->|Hne].
    + eexists. rewrite lookup_alter_eq, Hc. by split.
    + exists c. by rewrite lookup_alter_ne.
  - intros id c [(_ & c0 & Hc0 & ->)|[_ Hc]]%lookup_alter_Some; cbn; eauto.
Qed.

Lemma consistent_three_joined : consistent three_joined.
Proof.
  unfold three_joined.
  match goal with
  | |- consistent (Server.run ?ops initial) =>
      rewrite <- (firstn_all ops);
      apply consistent_run;
        [apply well_formed_initial|apply consistent_initial|]
  end.
  vm_compute. done.
Qed.

Lemma consistent_all_open : consistent all_open.
Proof.
  change all_open with
    (state_of (socket_state "c" OPEN
       (state_of (socket_state "b" OPEN
          (state_of (socket_state "a" OPEN three_joined)))))).
  do 3 apply consistent_socket_state. apply consistent_three_joined.
Qed.

Lemma X3_witness :
  let ann :=
    Client.mk {| readyState := OPEN |} "a" "Ann" "r1" "player" 1 "10.0.0.1" in
  let r := Server.handleClientDisconnect "a" 9 all_open in
  clients (state_of r) !! "a" = None ∧
  clientRooms (state_of r) !! "a" = None ∧
("a" ∉ members (state_of r) "r1") ∧
  sent_to "a" (sends_of r) = [].
Proof.
  intros ann r.
  destruct (X3_disconnect_leaves_no_trace all_open "a" ann 9
              well_formed_all_open consistent_all_open eq_refl)
    as (Hc & Hcr & Hm & Hs & _).
  split_and!; [exact Hc|exact Hcr|exact (Hm "r1")|exact Hs].
Defined.

(** X4: a join under an id that is already a member of the room it asks for
    leaves the directory as it is (the member set does not grow) and puts
    the new client object in the registry in place of the old one. *)
Theorem X4_rejoin_keeps_directory (s : State) (clientId : string)
    (name_param room_param role_param : option string) (ip : string)
    (now : Z) :
  let client := new_client clientId name_param room_param role_param ip now in
  let s' := state_of (Server.handleWebSocket clientId name_param room_param
                        role_param ip now s) in
  clientId ∈ members s (Client.room client) →
  rooms s' = rooms s ∧
  clients s' !! clientId = Some client ∧
  (∀ other, other ≠ clientId → clients s' !! other = clients s !! other).
Proof.
  intros client s' Hin. subst s'. rewrite handleWebSocket_spec.
  fold client. cbn [state_of fst snd joined clients rooms].
  split_and!.
  - unfold members, room_or_new in *.
    destruct (rooms s !! Client.room client) as [roomObj|] eqn:Hro;
      [|by apply elem_of_nil in Hin].
    cbn [default from_option id]. rewrite Set_add_member by done.
    apply insert_id. rewrite Hro. by destruct roomObj.
  - apply lookup_insert_eq.
  - intros other Hne. by apply lookup_insert_ne.
Qed.

Lemma X4_witness :
  let s' := state_of (Server.handleWebSocket "a" (Some "Anna") (Some "r1")
                        (Some "admin") "10.0.0.9" 20 all_open) in
  "a" ∈ members all_open "r1" ∧
  rooms s' = rooms all_open ∧
  clients s' !! "a" =
    Some (Client.mk {| readyState := CONNECTING |} "a" "Anna" "r1" "admin" 20
            "10.0.0.9").
Proof.
  intros s'.
  assert (Hin : "a" ∈ members all_open "r1") by apply list_elem_of_here.
  destruct (X4_rejoin_keeps_directory all_open "a" (Some "Anna") (Some "r1")
              (Some "admin") "10.0.0.9" 20 Hin) as (Hr & Hc & _).
  split_and!; [exact Hin|exact Hr|exact Hc].
Defined.

(** ** What the router sends, and to whom *)

Lemma handleWinner_run client message now s :
  Server.handleWinner client message now s =
    (Ret tt, s,
     (λ to, (to, FWinner (Client.userId client) (Client.name client)
                   (IsoString now)
                   (js_or (field message "winAmount") (JNum (js_int 0))))) <$>
       broadcast_targets s (Client.room client) None).
Proof. unfold Server.handleWinner. by rewrite broadcastToRoom_run. Qed.

Lemma sendRoomUsers_run client now s :
  Server.sendRoomUsers client now s =
    (Ret tt, s,
     [(Client.userId client,
       FUsers (room_users s (Client.room client)) (IsoString now))]).
Proof.
  unfold Server.sendRoomUsers, mbind, M_bind. by rewrite getRoomUsers_spec.
Qed.

Lemma local_sends_nil s client : local_sends s client [].
Proof. by intros to frame ?%elem_of_nil. Qed.

Lemma local_sends_self s client frame :
  local_sends s client [(Client.userId client, frame)].
Proof. intros to f [= -> _]%list_elem_of_singleton. by left. Qed.

Lemma local_sends_broadcast s client excludeClientId (frame : Frame) :
  local_sends s client
    ((λ to, (to, frame)) <$>
       broadcast_targets s (Client.room client) excludeClientId).
Proof. intros to f [_ Hin]%elem_of_broadcast. right. left. eauto. Qed.

Lemma handleBingoNumber_local client message now s :
  ∃ t, Server.handleBingoNumber client message now s = (Ret tt, s, t) ∧
       local_sends s client t.
Proof.
  unfold Server.handleBingoNumber.
  destruct (field message "number") as [| | |n| |];
    try (eexists; split; [reflexivity|apply local_sends_self]).
  destruct (js_lt n (js_int 1) || js_gt n (js_int 90)).
  - eexists; split; [reflexivity|apply local_sends_self].
  - rewrite broadcastToRoom_run. eexists; split; [reflexivity|].
    apply local_sends_broadcast.
Qed.

Lemma handleRTCSignaling_local client message s :
  (∃ t, Server.handleRTCSignaling client message s = (Ret tt, s, t) ∧
        local_sends s client t) ∨
  (Server.handleRTCSignaling client message s
     = (Throw "InvalidStateError", s, []) ∧
   ∃ target targetClient,
     field message "target" = JStr target ∧
     target ≠ "broadcast" ∧ target ≠ "" ∧
     clients s !! target = Some targetClient ∧
     Client.room targetClient = Client.room client ∧
     readyState (Client.socket targetClient) = CONNECTING).
Proof.
  destruct (strict_eq_str (field message "target") "broadcast") eqn:Hb.
  { left. unfold Server.handleRTCSignaling. rewrite Hb, broadcastToRoom_run.
    eexists; split; [reflexivity|]. apply local_sends_broadcast. }
  rewrite handleRTCSignaling_target by done.
  destruct (field message "target") as [| | | |target|] eqn:Ht; cbn [Map_get];
    try (left; eexists; split; [reflexivity|apply local_sends_nil]).
  destruct (clients s !! target) as [targetClient|] eqn:Htc;
    [|left; eexists; split; [reflexivity|apply local_sends_nil]].
  cbn [truthy]. destruct (String.eqb_spec target "") as [->|Hne]; cbn [negb andb];
    [left; eexists; split; [reflexivity|apply local_sends_nil]|].
  case_bool_decide as Hroom;
    [|left; eexists; split; [reflexivity|apply local_sends_nil]].
  case_bool_decide as Hconn.
  - right. split; [done|]. exists target, targetClient.
    split_and!; try done. cbn in Hb. by apply String.eqb_neq in Hb.
  - left. eexists; split; [reflexivity|].
    intros to f [= -> _]%list_elem_of_singleton. right. right. eauto.
Qed.

Lemma handleChatMessage_local client message now s :
  (∃ t, Server.handleChatMessage client message now s = (Ret tt, s, t) ∧
        local_sends s client t) ∨
  ((∃ e, Server.handleChatMessage client message now s = (Throw e, s, [])) ∧
   truthy (field message "message") = true ∧
   ∀ text, field message "message" ≠ JStr text).
Proof.
  unfold Server.handleChatMessage, js_or.
  destruct (truthy (field message "message")) eqn:Htruthy.
  - destruct (field message "message") as [| | | |input|] eqn:Hm;
      try (right; split; [by eexists|done]).
    left. cbn zeta.
    destruct (500 <? String.length (Server.sanitizeInput input))%nat.
    + eexists; split; [reflexivity|apply local_sends_self].
    + rewrite broadcastToRoom_run. eexists; split; [reflexivity|].
      apply local_sends_broadcast.
  - left. cbn zeta.
    destruct (500 <? String.length (Server.sanitizeInput ""))%nat.
    + eexists; split; [reflexivity|apply local_sends_self].
    + rewrite broadcastToRoom_run. eexists; split; [reflexivity|].
      apply local_sends_broadcast.
Qed.

Lemma strict_eq_str_true v str : strict_eq_str v str = true → v = JStr str.
Proof.
  destruct v as [| | | |x|]; try done. cbn. by intros ->%String.eqb_eq.
Qed.

Lemma router_effects s clientId client parsed now :
  clients s !! clientId = Some client →
  let r := Server.handleWebSocketMessage clientId parsed now s in
  state_of r = s ∧ local_sends s client (sends_of r) ∧
  (result_of r = Ret tt ∨
   (∃ e, result_of r = Throw e) ∧ sends_of r = [] ∧
   router_raises s client parsed).
Proof.
  intros Hc r. subst r.
  destruct parsed as [message| |].
  2: { unfold Server.handleWebSocketMessage, mbind, M_bind, get_state.
       rewrite Hc. split_and!; [done|apply local_sends_nil|].
       right. split_and!; [by eexists|done..]. }
  2: { unfold Server.handleWebSocketMessage, mbind, M_bind, get_state.
       rewrite Hc. split_and!; [done|apply local_sends_nil|by left]. }
  rewrite (handleWebSocketMessage_dispatch _ _ _ _ _ Hc). cbn zeta.
  assert (Hok : ∀ m : M unit,
    (∃ t, m s = (Ret tt, s, t) ∧ local_sends s client t) →
    state_of (m s) = s ∧ local_sends s client (sends_of (m s)) ∧
    (result_of (m s) = Ret tt ∨
     (∃ e, result_of (m s) = Throw e) ∧ sends_of (m s) = [] ∧
     router_raises s client (ParsedObject message))).
  { intros m (t & -> & Ht). split_and!; [done..|by left]. }
  destruct (strict_eq_str (field message "type") "ping");
    [apply Hok; eexists; split; [reflexivity|apply local_sends_self]|].
  destruct (strict_eq_str (field message "type") "join");
    [apply Hok; eexists; split; [reflexivity|apply local_sends_nil]|].
  destruct (strict_eq_str (field message "type") "bingo-number");
    [apply Hok, handleBingoNumber_local|].
  destruct (strict_eq_str (field message "type") "winner").
  { apply Hok. rewrite handleWinner_run. eexists; split; [reflexivity|].
    apply local_sends_broadcast. }
  destruct (strict_eq_str (field message "type") "offer"
            || strict_eq_str (field message "type") "answer"
            || strict_eq_str (field message "type") "ice-candidate")
    eqn:Hsig.
  { destruct (handleRTCSignaling_local client message s)
      as [Hnormal|[He (target & tc & Ht & Hnb & Hne & Htc & Hroom & Hconn)]];
      [by apply Hok|].
    rewrite He. split_and!; [done|apply local_sends_nil|].
    right. split_and!; [by eexists|done|]. right.
    apply orb_true_iff in Hsig as [[Hty|Hty]%orb_true_iff|Hty];
      apply strict_eq_str_true in Hty;
      eexists _, target, tc; (split_and!; [exact Hty| |done..]);
      repeat first [apply list_elem_of_here|apply list_elem_of_further]. }
  destruct (strict_eq_str (field message "type") "chat") eqn:Hchat.
  { destruct (handleChatMessage_local client message now s)
      as [Hnormal|([e He] & Htruthy & Hnot)]; [by apply Hok|].
    rewrite He. split_and!; [done|apply local_sends_nil|].
    right. split_and!; [by exists e|done|]. left.
    split_and!; [by apply strict_eq_str_true|done..]. }
  destruct (strict_eq_str (field message "type") "get-users").
  { apply Hok. rewrite sendRoomUsers_run. eexists; split; [reflexivity|].
    apply local_sends_self. }
  apply Hok. eexists; split; [reflexivity|apply local_sends_nil].
Qed.






(** X6: in a well-formed, consistent state every frame the router sends for
    a message of a registered sender goes to a registered connection whose
    [room] is the sender's room: nothing is delivered across rooms. *)
Theorem X6_no_cross_room_delivery (s : State) (senderId : string)
    (client : Client.t) (parsed : Parsed) (now : Z) :
  well_formed s → consistent s →
  clients s !! senderId = Some client →
  ∀ to frame,
    (to, frame) ∈ sends_of (Server.handleWebSocketMessage senderId parsed
                              now s) →
    ∃ recipient, clients s !! to = Some recipient ∧
                 Client.room recipient = Client.room client.
Proof.
  intros Hwf Hcons Hc to frame Hin.
  destruct (router_effects s senderId client parsed now Hc)
    as (_ & Hlocal & _).
  destruct (Hlocal to frame Hin)
    as [->|[[ex Hto]|(target & tc & Htc & -> & Hroom)]].
  - exists client. by rewrite (proj2 Hwf _ _ Hc).
  - rewrite broadcast_targets_recipients in Hto by done.
    apply elem_of_recipients in Hto as (Hmem & _).
    unfold members in Hmem.
    destruct (rooms s !! Client.room client) as [roomObj|] eqn:Hro;
      [|by apply elem_of_nil in Hmem].
    exact (proj1 Hcons _ _ _ Hro Hmem).
  - exists tc. by rewrite (proj2 Hwf _ _ Htc).
Qed.

Lemma X6_witness :
  let ann :=
    Client.mk {| readyState := OPEN |} "a" "Ann" "r1" "player" 1 "10.0.0.1" in
  let message : WebSocketMessage :=
    {[ "type" := JStr "chat"; "message" := JStr "hi" ]} in
  let frame := FChat "a" "Ann" "hi" (IsoString 7) in
  ("b", frame) ∈ sends_of (Server.handleWebSocketMessage "a"
                             (ParsedObject message) 7 all_open) ∧
  ∃ recipient, clients all_open !! "b" = Some recipient ∧
               Client.room recipient = "r1".
Proof.
  intros ann message frame.
  assert (Hin : ("b", frame) ∈ sends_of (Server.handleWebSocketMessage "a"
                                           (ParsedObject message) 7 all_open)).
  { change (("b", frame) ∈ [("a", frame); ("b", frame)]).
    apply list_elem_of_further, list_elem_of_here. }
  split; [exact Hin|].
  exact (X6_no_cross_room_delivery all_open "a" ann (ParsedObject message) 7
           well_formed_all_open consistent_all_open eq_refl "b" frame Hin).
Defined.



(** X8: a [winner] event of a registered sender is sent exactly once to
    every member of the sender's room whose socket is open, the sender
    included, and to nobody else.  The object handed to [JSON.stringify]
    has [message.winAmount || 0] as its [winAmount]; in the frame as the
    recipients read it that is 0 when the payload's [winAmount] is missing
    or falsy, the payload's own value when it is a finite number other than
    0, a non-empty string or [true], and [null] when it is a number that is
    not finite (an overflowing literal such as [1e999]). *)
Theorem X8_winner_reaches_whole_room (s : State) (senderId : string)
    (client : Client.t) (message : WebSocketMessage) (now : Z) :
  well_formed s →
  clients s !! senderId = Some client →
  field message "type" = JStr "winner" →
  let r :=
    Server.handleWebSocketMessage senderId (ParsedObject message) now s in
  let payload := field message "winAmount" in
  let winAmount := if truthy payload then payload else JNum (js_int 0) in
  let frame :=
    FWinner senderId (Client.name client) (IsoString now) winAmount in
  r = (Ret tt, s,
       (λ to, (to, frame)) <$> recipients s (Client.room client) None) ∧
  (∀ to, sent_to to (sends_of r) =
           if bool_decide (to ∈ members s (Client.room client) ∧
                           is_open s to = true)
           then [frame] else []) ∧
  (truthy payload = false → serialized winAmount = JNum (js_int 0)) ∧
  (∀ q, payload = JNum (Finite q) → ¬ (q == 0)%Q →
        serialized winAmount = JNum (Finite q)) ∧
  (∀ text, payload = JStr text → text ≠ "" →
           serialized winAmount = JStr text) ∧
  (payload = JBool true → serialized winAmount = JBool true) ∧
  (payload = JNum Infinity ∨ payload = JNum NegInfinity →
   winAmount = payload ∧ serialized winAmount = JNull).
Proof.
  intros Hwf Hc Htype r payload winAmount frame.
  pose proof (proj2 Hwf _ _ Hc) as Hid.
  assert (Hr : r = (Ret tt, s,
    (λ to, (to, frame)) <$> recipients s (Client.room client) None)).
  { subst r. rewrite (handleWebSocketMessage_dispatch _ _ _ _ _ Hc).
    cbn zeta. rewrite !(type_tests _ _ Htype).
    cbn [String.eqb Ascii.eqb Bool.eqb orb]. cbn match.
    rewrite handleWinner_run, broadcast_targets_recipients by done.
    subst frame winAmount payload. unfold js_or. by rewrite Hid. }
  split_and!; [done| | | | | |].
  - intros to. rewrite Hr. cbn [sends_of snd].
    rewrite sent_to_recipients by done.
    apply if_bool_decide_ext. split; [by intros (? & _ & ?)|by intros [? ?]].
  - intros Hfalsy. subst winAmount. by rewrite Hfalsy.
  - intros q Hq Hne. subst winAmount. rewrite Hq. cbn [truthy].
    destruct (Qeq_bool q 0) eqn:Hz; [|done].
    by apply Qeq_bool_iff in Hz.
  - intros text Ht Hne. subst winAmount. rewrite Ht. cbn [truthy].
    by rewrite (proj2 (String.eqb_neq _ _) Hne).
  - intros Hb. subst winAmount. by rewrite Hb.
  - intros [Hp|Hp]; subst winAmount; by rewrite Hp.
Qed.

Lemma X8_witness :
  let ann :=
    Client.mk {| readyState := OPEN |} "a" "Ann" "r1" "player" 1 "10.0.0.1" in
  let message : WebSocketMessage := {[ "type" := JStr "winner" ]} in
  let overflow : WebSocketMessage :=
    {[ "type" := JStr "winner"; "winAmount" := JNum Infinity ]} in
  let frame := FWinner "a" "Ann" (IsoString 7) (JNum (js_int 0)) in
  let overflowed := FWinner "a" "Ann" (IsoString 7) (JNum Infinity) in
  Server.handleWebSocketMessage "a" (ParsedObject message) 7 all_open =
    (Ret tt, all_open, [("a", frame); ("b", frame)]) ∧
  sent_to "a" (sends_of (Server.handleWebSocketMessage "a"
                           (ParsedObject message) 7 all_open)) = [frame] ∧
  sent_to "c" (sends_of (Server.handleWebSocketMessage "a"
                           (ParsedObject message) 7 all_open)) = [] ∧
  Server.handleWebSocketMessage "a" (ParsedObject overflow) 7 all_open =
    (Ret tt, all_open, [("a", overflowed); ("b", overflowed)]) ∧
  serialized (JNum Infinity) = JNull.
Proof.
  intros ann message overflow frame overflowed.
  destruct (X8_winner_reaches_whole_room all_open "a" ann message 7
              well_formed_all_open eq_refl eq_refl) as (Hr & Hcount & _).
  destruct (X8_winner_reaches_whole_room all_open "a" ann overflow 7
              well_formed_all_open eq_refl eq_refl)
    as (Hr' & _ & _ & _ & _ & _ & Hinf).
  split_and!; [exact Hr|exact (Hcount "a")|exact (Hcount "c")|exact Hr'|].
  exact (proj2 (Hinf (or_introl eq_refl))).
Defined.

Lemma roster_ids s room :
  well_formed s → consistent s →
  UserInfo.userId <$> room_users s room = members s room.
Proof.
  intros [_ Hid] [Hrc _]. unfold room_users, members.
  destruct (rooms s !! room) as [roomObj|] eqn:Hro; [|done].
  assert (Hall : ∀ id, id ∈ Room.clients roomObj →
                       ∃ c, clients s !! id = Some c).
  { intros id Hin. destruct (Hrc _ _ _ Hro Hin) as (c & Hc & _). eauto. }
  induction (Room.clients roomObj) as [|id l IH]; [done|].
  cbn [omap list_omap].
  destruct (Hall id) as [c Hc]; [apply list_elem_of_here|].
  rewrite Hc. cbn. rewrite (Hid _ _ Hc). f_equal. apply IH.
  intros id' Hin. apply Hall. by apply list_elem_of_further.
Qed.

(** X9: a [get-users] event of a registered sender is answered with exactly
    one [users] frame, sent to the sender alone; in a well-formed,
    consistent state its roster lists every member of the sender's room
    once, in the order they joined, the sender among them. *)
Theorem X9_roster_lists_the_members (s : State) (senderId : string)
    (client : Client.t) (message : WebSocketMessage) (now : Z) :
  well_formed s → consistent s →
  clients s !! senderId = Some client →
  field message "type" = JStr "get-users" →
  let roster := room_users s (Client.room client) in
  Server.handleWebSocketMessage senderId (ParsedObject message) now s =
    (Ret tt, s, [(senderId, FUsers roster (IsoString now))]) ∧
  UserInfo.userId <$> roster = members s (Client.room client) ∧
  NoDup (UserInfo.userId <$> roster) ∧
  UserInfo.mk senderId (Client.name client) (Client.role client)
    (Client.joinedAt client) ∈ roster.
Proof.
  intros Hwf Hcons Hc Htype roster.
  pose proof (proj2 Hwf _ _ Hc) as Hid.
  assert (Hids : UserInfo.userId <$> roster = members s (Client.room client))
    by by apply roster_ids.
  split_and!; [|done| |].
  - rewrite (handleWebSocketMessage_dispatch _ _ _ _ _ Hc).
    cbn zeta. rewrite !(type_tests _ _ Htype).
    cbn [String.eqb Ascii.eqb Bool.eqb orb]. cbn match.
    by rewrite sendRoomUsers_run, Hid.
  - rewrite Hids. unfold members.
    destruct (rooms s !! Client.room client) eqn:Hro;
      [by eapply Hwf|apply NoDup_nil_2].
  - destruct (proj2 Hcons _ _ Hc) as (roomObj & Hro & Hin).
    subst roster. unfold room_users, members. rewrite Hro.
    apply list_elem_of_omap. exists senderId. split; [done|].
    by rewrite Hc, Hid.
Qed.

Lemma X9_witness :
  let ann :=
    Client.mk {| readyState := OPEN |} "a" "Ann" "r1" "player" 1 "10.0.0.1" in
  let message : WebSocketMessage := {[ "type" := JStr "get-users" ]} in
  Server.handleWebSocketMessage "a" (ParsedObject message) 7 all_open =
    (Ret tt, all_open,
     [("a", FUsers [UserInfo.mk "a" "Ann" "player" 1;
                    UserInfo.mk "b" "Bob" "player" 2] (IsoString 7))]).
Proof.
  intros ann message.
  exact (proj1 (X9_roster_lists_the_members all_open "a" ann message 7
                  well_formed_all_open consistent_all_open eq_refl eq_refl)).
Defined.



(** ** The notification of a join *)

Lemma members_joined s clientId client now :
  members (joined s clientId client now) (Client.room client) =
  Set_add clientId (members s (Client.room client)).
Proof.
  unfold members, joined, room_or_new. cbn [rooms].
  rewrite lookup_insert_eq. cbn.
  by destruct (rooms s !! Client.room client).
Qed.

Lemma sent_to_cons to (x : Send) t :
  sent_to to (x :: t) =
    if decide (x.1 = to) then x.2 :: sent_to to t else sent_to to t.
Proof. unfold sent_to. rewrite filter_cons. by case_decide. Qed.

Lemma onopen_run s clientId name room now :
  well_formed s →
  Server.onopen clientId name room now s =
    (Ret tt, s,
     (clientId,
      FWelcome ("Welcome to " +:+ room +:+ "!") clientId (IsoString now))
     :: ((λ to, (to, FUserJoined clientId name (IsoString now)
                       (room_users s room))) <$>
           recipients s room (Some clientId))).
Proof.
  intros Hwf. unfold Server.onopen, mbind, M_bind, socket_send.
  by rewrite getRoomUsers_spec, broadcastToRoom_spec.
Qed.

(** X11: when a connection has been registered by [handleWebSocket] and its
    socket has opened, its [onopen] handler changes no map, sends the
    connection itself exactly one frame, the welcome naming its room, and
    sends exactly one [user-joined] frame to every other member of the room
    whose socket is open; the roster of that frame lists the newcomer. *)
Theorem X11_join_is_announced (s : State) (clientId : string)
    (name_param room_param role_param : option string) (ip : string)
    (now now' : Z) :
  well_formed s →
  let client := new_client clientId name_param room_param role_param ip now in
  let room := Client.room client in
  let s1 :=
    state_of (socket_state clientId OPEN
                (state_of (Server.handleWebSocket clientId name_param
                             room_param role_param ip now s))) in
  let r := Server.onopen clientId (Client.name client) room now' s1 in
  let announcement :=
    FUserJoined clientId (Client.name client) (IsoString now')
      (room_users s1 room) in
  result_of r = Ret tt ∧ state_of r = s1 ∧
  sent_to clientId (sends_of r) =
    [FWelcome ("Welcome to " +:+ room +:+ "!") clientId (IsoString now')] ∧
  (∀ to, to ≠ clientId →
     sent_to to (sends_of r) =
       if bool_decide (to ∈ members s room ∧ is_open s to = true)
       then [announcement] else []) ∧
  UserInfo.mk clientId (Client.name client) (Client.role client) now
    ∈ room_users s1 room.
Proof.
  intros Hwf client room s1 r announcement.
  assert (Hwf1 : well_formed s1).
  { apply well_formed_socket_state. rewrite handleWebSocket_spec.
    by apply well_formed_joined. }
  assert (Hmem : members s1 room = Set_add clientId (members s room)).
  { subst s1. rewrite handleWebSocket_spec. fold client.
    unfold socket_state, state_of. run_m. cbn [fst snd].
    subst room. by rewrite <- (members_joined s clientId client now). }
  assert (Hself : clients s1 !! clientId =
                  Some (Client.mk {| readyState := OPEN |} clientId
                          (Client.name client) room (Client.role client)
                          now ip)).
  { subst s1. rewrite handleWebSocket_spec. fold client.
    unfold socket_state, state_of. run_m. cbn [fst snd clients joined].
    by rewrite lookup_alter_eq, lookup_insert_eq. }
  assert (Hother : ∀ to, to ≠ clientId → is_open s1 to = is_open s to).
  { intros to Hne. unfold is_open. subst s1. rewrite handleWebSocket_spec.
    unfold socket_state, state_of. run_m. cbn [fst snd clients joined].
    by rewrite lookup_alter_ne, lookup_insert_ne by done. }
  subst r. rewrite onopen_run by done. cbn [result_of state_of sends_of fst snd].
  split_and!; [done..| | |].
  - rewrite sent_to_cons, decide_True by done. cbn [snd]. f_equal.
    rewrite sent_to_recipients by done.
    rewrite bool_decide_false; [done|]. by intros (_ & ? & _).
  - intros to Hne.
    rewrite sent_to_cons, decide_False by (cbn; congruence).
    rewrite sent_to_recipients by done.
    apply if_bool_decide_ext. rewrite Hmem, elem_of_Set_add, Hother by done.
    split; [intros ([?|?] & _ & ?); done|].
    intros [? ?]. split_and!; [by right|congruence|done].
  - unfold room_users. apply list_elem_of_omap. exists clientId.
    rewrite Hmem, Hself. split; [|done]. apply elem_of_Set_add. by left.
Qed.

Lemma X11_witness :
  let s1 :=
    state_of (socket_state "d" OPEN
                (state_of (Server.handleWebSocket "d" (Some "Dee") (Some "r1")
                             None "10.0.0.4" 10 all_open))) in
  let r := Server.onopen "d" "Dee" "r1" 11 s1 in
  let roster :=
    [UserInfo.mk "a" "Ann" "player" 1; UserInfo.mk "b" "Bob" "player" 2;
     UserInfo.mk "d" "Dee" "player" 10] in
  sent_to "d" (sends_of r) = [FWelcome "Welcome to r1!" "d" (IsoString 11)] ∧
  sent_to "a" (sends_of r) = [FUserJoined "d" "Dee" (IsoString 11) roster] ∧
  sent_to "c" (sends_of r) = [].
Proof.
  intros s1 r roster.
  destruct (X11_join_is_announced all_open "d" (Some "Dee") (Some "r1") None
              "10.0.0.4" 10 11 well_formed_all_open)
    as (_ & _ & Hself & Hothers & _).
  assert (Ha : "a" ≠ "d") by discriminate.
  assert (Hc : "c" ≠ "d") by discriminate.
  split_and!; [exact Hself|exact (Hothers "a" Ha)|exact (Hothers "c" Hc)].
Defined.

(** ** The origin of a request and the admin password *)

Local Arguments is_space : simpl never.

Lemma param_or_not_empty p fallback : fallback ≠ "" → param_or p fallback ≠ "".
Proof.
  intros Hf. unfold param_or. destruct p as [v|]; [|done].
  by destruct (String.eqb_spec v "").
Qed.

Lemma param_or_some v fallback : v ≠ "" → param_or (Some v) fallback = v.
Proof. intros Hv. cbn. by rewrite (proj2 (String.eqb_neq _ _) Hv). Qed.

Lemma occurs_first_field c s : occurs c (first_field c s) = false.
Proof.
  induction s as [|x s IH]; [done|]. cbn.
  destruct (Ascii.eqb x c) eqn:Hx; [done|]. cbn. by rewrite Hx.
Qed.

Lemma occurs_trim_start c s :
  occurs c s = false → occurs c (trim_start s) = false.
Proof.
  induction s as [|x s IH]; [done|]. cbn.
  intros [Hx Hs]%orb_false_iff. destruct (is_space x); [by apply IH|].
  cbn. by rewrite Hx, Hs.
Qed.

Lemma occurs_trim_end c s :
  occurs c s = false → occurs c (trim_end s) = false.
Proof.
  induction s as [|x s IH]; [done|]. cbn.
  intros [Hx Hs]%orb_false_iff.
  destruct (is_space x && String.eqb (trim_end s) ""); [done|].
  cbn. by rewrite Hx, IH.
Qed.

Lemma trim_end_idempotent s : trim_end (trim_end s) = trim_end s.
Proof.
  induction s as [|x s IH]; [done|]. cbn.
  destruct (is_space x && String.eqb (trim_end s) "") eqn:Hc; [done|].
  cbn. by rewrite IH, Hc.
Qed.

Lemma starts_clean_trim_start s : starts_clean (trim_start s) = true.
Proof.
  induction s as [|x s IH]; [done|]. cbn.
  destruct (is_space x) eqn:Hx; [done|]. cbn. by rewrite Hx.
Qed.

Lemma trim_start_clean s : starts_clean s = true → trim_start s = s.
Proof. destruct s as [|x s]; [done|]. cbn. by destruct (is_space x). Qed.

Lemma starts_clean_trim_end s :
  starts_clean s = true → starts_clean (trim_end s) = true.
Proof.
  destruct s as [|x s]; [done|]. cbn.
  destruct (is_space x) eqn:Hx; [done|]. cbn. by rewrite Hx.
Qed.

Lemma trim_idempotent s : trim (trim s) = trim s.
Proof.
  unfold trim.
  rewrite (trim_start_clean (trim_end (trim_start s)))
    by apply starts_clean_trim_end, starts_clean_trim_start.
  apply trim_end_idempotent.
Qed.

(** X12: [getClientIp] never returns the empty string.  When the request
    has an [x-forwarded-for] header whose first entry is not blank, the
    result is that entry without surrounding white space, and holds no
    comma; otherwise it is the [x-real-ip] header if that is present and not
    empty, and ["unknown"] if not. *)
Theorem X12_client_ip (req : Request.t) :
  Server.getClientIp req ≠ "" ∧
  (∀ forwardedFor,
     Request.headers req !! "x-forwarded-for" = Some forwardedFor →
     first_forwarded forwardedFor ≠ "" →
     Server.getClientIp req = first_forwarded forwardedFor ∧
     trim (Server.getClientIp req) = Server.getClientIp req ∧
     occurs "," (Server.getClientIp req) = false) ∧
  (Request.headers req !! "x-forwarded-for" = None ∨
   (∃ forwardedFor,
      Request.headers req !! "x-forwarded-for" = Some forwardedFor ∧
      first_forwarded forwardedFor = "") →
   Server.getClientIp req =
     match Request.headers req !! "x-real-ip" with
     | Some realIp => if String.eqb realIp "" then "unknown" else realIp
     | None => "unknown"
     end).
Proof.
  unfold Server.getClientIp, first_forwarded. split_and!.
  - by do 2 (apply param_or_not_empty).
  - intros forwardedFor -> Hne. rewrite param_or_some by done.
    split_and!; [done|apply trim_idempotent|].
    apply occurs_trim_end, occurs_trim_start, occurs_first_field.
  - intros [-> |(forwardedFor & -> & ->)]; done.
Qed.

Lemma X12_witness :
  let req (forwardedFor : string) :=
    Request.mk "GET" "/ws" ∅
      {[ "x-forwarded-for" := forwardedFor; "x-real-ip" := "10.9.9.9" ]} in
  Server.getClientIp (req " 203.0.113.7 , 10.0.0.1") = "203.0.113.7" ∧
  Server.getClientIp (req " , 10.0.0.1") = "10.9.9.9".
Proof.
  intros req.
  assert (H1 : first_forwarded " 203.0.113.7 , 10.0.0.1" ≠ "")
    by discriminate.
  split.
  - exact (proj1 (proj1 (proj2 (X12_client_ip (req " 203.0.113.7 , 10.0.0.1")))
                    " 203.0.113.7 , 10.0.0.1" eq_refl H1)).
  - exact (proj2 (proj2 (X12_client_ip (req " , 10.0.0.1")))
             (or_intror (ex_intro _ " , 10.0.0.1" (conj eq_refl eq_refl)))).
Defined.

(** X13: the deployment variant of [getClientIp] agrees with the one of
    [server.ts], except when the [x-forwarded-for] header is present, not
    empty, and its first entry is blank: there the variant answers
    ["unknown"] while [server.ts] falls back on [x-real-ip]. *)
Theorem X13_client_ip_variants (req : Request.t) :
  Deploy.getClientIp req =
    match Request.headers req !! "x-forwarded-for" with
    | Some forwardedFor =>
        if negb (String.eqb forwardedFor "")
           && String.eqb (first_forwarded forwardedFor) ""
        then "unknown"
        else Server.getClientIp req
    | None => Server.getClientIp req
    end.
Proof.
  unfold Deploy.getClientIp, Server.getClientIp, first_forwarded.
  destruct (Request.headers req !! "x-forwarded-for") as [forwardedFor|];
    [|done].
  destruct (String.eqb_spec forwardedFor "") as [->|Hne]; [done|].
  cbn [negb andb param_or].
  by destruct (String.eqb (trim (first_field "," forwardedFor)) "").
Qed.

Lemma X13_witness :
  let req :=
    Request.mk "GET" "/ws" ∅
      {[ "x-forwarded-for" := " , 10.0.0.1"; "x-real-ip" := "10.9.9.9" ]} in
  Deploy.getClientIp req = "unknown" ∧ Server.getClientIp req = "10.9.9.9".
Proof.
  intros req. split; [|reflexivity].
  exact (X13_client_ip_variants req).
Defined.

(** X14: the configured admin password is never empty (an unset or empty
    [ADMIN_PASSWORD] variable gives ["we17me78"]), and [validatePassword]
    accepts the configured password and nothing else: a missing or empty
    input is rejected. *)
Theorem X14_password_check (env input : option string) :
  Server.ADMIN_PASSWORD env ≠ "" ∧
  (env = None ∨ env = Some "" → Server.ADMIN_PASSWORD env = "we17me78") ∧
  (Server.validatePassword (Server.ADMIN_PASSWORD env) input = true ↔
   input = Some (Server.ADMIN_PASSWORD env)).
Proof.
  assert (Hne : Server.ADMIN_PASSWORD env ≠ "")
    by by apply param_or_not_empty.
  split_and!; [done|by intros [-> | ->]|].
  unfold Server.validatePassword. destruct input as [v|]; [|done].
  destruct (String.eqb_spec v "") as [->|Hv].
  - split; [done|]. intros [= Heq]. by rewrite <- Heq in Hne.
  - rewrite String.eqb_eq. split; [by intros ->|by intros [= ->]].
Qed.

Lemma X14_witness :
  Server.validatePassword (Server.ADMIN_PASSWORD None) (Some "we17me78")
    = true ∧
  Server.validatePassword (Server.ADMIN_PASSWORD (Some "s3cret"))
    (Some "we17me78") = false ∧
  Server.validatePassword (Server.ADMIN_PASSWORD (Some "s3cret")) None
    = false.
Proof.
  split_and!.
  - exact (proj2 (proj2 (proj2 (X14_password_check None (Some "we17me78"))))
             eq_refl).
  - reflexivity.
  - reflexivity.
Defined.

(** ** Requests *)

Lemma isRateLimited_rejects ip now s limit :
  rateLimits s !! ip = Some limit →
  100 ≤ RateLimit.count limit → now ≤ RateLimit.resetTime limit →
  Server.isRateLimited ip now s = (Ret true, s, []).
Proof.
  intros Hb Hc Ht. rewrite isRateLimited_spec, Hb.
  rewrite (proj2 (Z.ltb_ge _ _) Ht). by rewrite (proj2 (Z.leb_le _ _) Hc).
Qed.

Lemma isRateLimited_admits ip now s :
  admitted s ip now →
  ∃ s1, Server.isRateLimited ip now s = (Ret false, s1, []) ∧
        clients s1 = clients s ∧ rooms s1 = rooms s ∧
        clientRooms s1 = clientRooms s.
Proof.
  unfold admitted. rewrite isRateLimited_spec.
  destruct (rateLimits s !! ip) as [limit|]; [|by eexists].
  destruct (Z.ltb_spec (RateLimit.resetTime limit) now); [by eexists|].
  intros [?|Hc]; [lia|].
  rewrite (proj2 (Z.leb_gt _ _) Hc). by eexists.
Qed.

Lemma handleRequest_after_limit fs password observability req clientId now s
    limited s1 :
  Server.isRateLimited (Server.getClientIp req) now s = (Ret limited, s1, []) →
  Server.handleRequest fs password observability req clientId now s =
    if limited then
      (Ret (Response.mk 429 ∅ (BodyText "Too many requests")), s1, [])
    else
      (if String.eqb (Request.method req) "OPTIONS" then
         mret (Response.mk 200 cors_headers BodyNull)
       else if String.eqb (Request.pathname req) "/ws" then
         if bool_decide (Request.headers req !! "upgrade" = Some "websocket")
         then
           Server.handleWebSocket clientId
             (Request.searchParams req !! "name")
             (Request.searchParams req !! "room")
             (Request.searchParams req !! "role") (Server.getClientIp req)
             now ;;
           mret upgrade_response
         else
           mret (Response.mk 400 ∅ (BodyText "Expected WebSocket upgrade"))
       else if String.eqb (Request.pathname req) "/admin.html"
               || String.eqb (Request.pathname req) "/admin" then
         mret (Server.handleAdminRequest fs password req)
       else if String.eqb (Request.pathname req) "/health"
               || String.eqb (Request.pathname req) "/stats" then
         observability (Request.pathname req)
       else if String.eqb (Request.pathname req) "/"
               || String.eqb (Request.pathname req) "/index.html" then
         mret (Server.serveStaticFile fs "frontend/index.html" cors_headers)
       else
         mret (Server.serveStaticFile fs (Request.pathname req) cors_headers))
        s1.
Proof.
  intros Hl. unfold Server.handleRequest. cbn zeta.
  unfold mbind at 1, M_bind at 1. rewrite Hl.
  destruct limited; [done|].
  match goal with |- (let (_, _) := ?x in _) = _ => by destruct x as [[??]?] end.
Qed.

(** X15: a request from an origin whose bucket is full and whose window has
    not elapsed is answered 429 whatever it asks for, a websocket upgrade
    included: no connection is registered, no file is read, nothing is sent
    and no map changes, the bucket neither. *)
Theorem X15_limited_request_is_refused (fs : string → option N)
    (password : string) (observability : string → M Response.t)
    (req : Request.t) (clientId : string) (now : Z) (s : State)
    (limit : RateLimit.t) :
  rateLimits s !! Server.getClientIp req = Some limit →
  100 ≤ RateLimit.count limit →
  now ≤ RateLimit.resetTime limit →
  Server.handleRequest fs password observability req clientId now s =
    (Ret (Response.mk 429 ∅ (BodyText "Too many requests")), s, []).
Proof.
  intros Hb Hc Ht.
  by rewrite (handleRequest_after_limit _ _ _ _ _ _ _ _ _
                (isRateLimited_rejects _ _ _ _ Hb Hc Ht)).
Qed.

Lemma X15_witness :
  let s := with_bucket all_open "10.0.0.7" (RateLimit.mk 100 5000) in
  let req :=
    Request.mk "GET" "/ws" {[ "name" := "Eve" ]}
      {[ "upgrade" := "websocket"; "x-real-ip" := "10.0.0.7" ]} in
  Server.handleRequest (λ _, None) "we17me78" (λ _, throw "ReferenceError")
    req "e" 4000 s =
    (Ret (Response.mk 429 ∅ (BodyText "Too many requests")), s, []).
Proof.
  intros s req.
  assert (H1 : 100 ≤ 100) by lia.
  assert (H2 : 4000 ≤ 5000) by lia.
  exact (X15_limited_request_is_refused (λ _, None) "we17me78"
           (λ _, throw "ReferenceError") req "e" 4000 s
           (RateLimit.mk 100 5000) eq_refl H1 H2).
Defined.

(** X16: an admitted request for a websocket upgrade on [/ws] (the method
    is not OPTIONS and the [upgrade] header is exactly ["websocket"]) is
    counted in the bucket of its origin and then registered as by
    [handleWebSocket]: under the generated id, with the name, room and role
    of the query string and the address [getClientIp] gives; the answer is
    the upgrade response and nothing is sent yet. *)
Theorem X16_upgrade_registers (fs : string → option N) (password : string)
    (observability : string → M Response.t) (req : Request.t)
    (clientId : string) (now : Z) (s : State) :
  admitted s (Server.getClientIp req) now →
  is_upgrade req →
  let ip := Server.getClientIp req in
  let counted := state_of (Server.isRateLimited ip now s) in
  let client :=
    new_client clientId (Request.searchParams req !! "name")
      (Request.searchParams req !! "room")
      (Request.searchParams req !! "role") ip now in
  Server.handleRequest fs password observability req clientId now s =
    (Ret upgrade_response, joined counted clientId client now, []) ∧
  clients (joined counted clientId client now) =
    <[clientId := client]> (clients s).
Proof.
  intros Hadm (Hmethod & Hpath & Hup) ip counted client.
  destruct (isRateLimited_admits _ _ _ Hadm) as (s1 & Hl & Hc & _).
  subst counted ip. rewrite Hl. cbn [state_of fst snd].
  rewrite (handleRequest_after_limit _ _ _ _ _ _ _ _ _ Hl).
  rewrite (proj2 (String.eqb_neq _ _) Hmethod), Hpath.
  cbn [String.eqb Ascii.eqb Bool.eqb]. cbn match.
  rewrite bool_decide_true by done.
  unfold mbind, M_bind. rewrite handleWebSocket_spec.
  split; [done|]. cbn. by rewrite Hc.
Qed.

Lemma X16_witness :
  let req :=
    Request.mk "GET" "/ws" {[ "name" := "<Eve>"; "room" := "r1" ]}
      {[ "upgrade" := "websocket"; "x-forwarded-for" := "10.0.0.7, 10.1.1.1" ]}
  in
  let r :=
    Server.handleRequest (λ _, None) "we17me78" (λ _, throw "ReferenceError")
      req "e" 4000 all_open in
  result_of r = Ret upgrade_response ∧
  clients (state_of r) !! "e" =
    Some (Client.mk {| readyState := CONNECTING |} "e" "&lt;Eve&gt;" "r1"
            "player" 4000 "10.0.0.7") ∧
  members (state_of r) "r1" = ["a"; "b"; "e"] ∧
  rateLimits (state_of r) !! "10.0.0.7" = Some (RateLimit.mk 1 64000).
Proof.
  intros req r.
  assert (Hadm : admitted all_open (Server.getClientIp req) 4000) by exact I.
  assert (Hup : is_upgrade req).
  { split_and!; [discriminate|reflexivity|reflexivity]. }
  destruct (X16_upgrade_registers (λ _, None) "we17me78"
              (λ _, throw "ReferenceError") req "e" 4000 all_open Hadm Hup)
    as [Hr _].
  subst r. rewrite Hr. split_and!; reflexivity.
Defined.

Lemma isRateLimited_total ip now s :
  ∃ limited s1, Server.isRateLimited ip now s = (Ret limited, s1, []) ∧
    clients s1 = clients s ∧ rooms s1 = rooms s ∧
    clientRooms s1 = clientRooms s ∧
    (admitted s ip now → limited = false).
Proof.
  unfold admitted. rewrite isRateLimited_spec.
  destruct (rateLimits s !! ip) as [limit|]; [|by do 2 eexists].
  destruct (Z.ltb_spec (RateLimit.resetTime limit) now); [by do 2 eexists|].
  destruct (Z.leb_spec 100 (RateLimit.count limit)).
  - do 2 eexists. split_and!; [done..|]. intros [?|?]; lia.
  - by do 2 eexists.
Qed.

(** X17: [handleRequest] touches the registry and the directory only to
    register a websocket upgrade.  For any other request, outside the
    [/health] and [/stats] branches, it returns a response, sends nothing
    and leaves [clients], [rooms] and [clientRooms] as they were; an
    admitted OPTIONS request gets the empty CORS answer whatever its path,
    and an admitted request on [/ws] whose [upgrade] header is not exactly
    ["websocket"] gets status 400. *)
Theorem X17_only_upgrades_register (fs : string → option N)
    (password : string) (observability : string → M Response.t)
    (req : Request.t) (clientId : string) (now : Z) (s : State) :
  ¬ is_upgrade req → ¬ is_observability req →
  let r := Server.handleRequest fs password observability req clientId now s in
  (∃ response, result_of r = Ret response) ∧
  clients (state_of r) = clients s ∧
  rooms (state_of r) = rooms s ∧
  clientRooms (state_of r) = clientRooms s ∧
  sends_of r = [] ∧
  (admitted s (Server.getClientIp req) now →
   (Request.method req = "OPTIONS" →
    result_of r = Ret (Response.mk 200 cors_headers BodyNull)) ∧
   (Request.method req ≠ "OPTIONS" → Request.pathname req = "/ws" →
    result_of r =
      Ret (Response.mk 400 ∅ (BodyText "Expected WebSocket upgrade")))).
Proof.
  intros Hnup Hnobs r. subst r.
  destruct (isRateLimited_total (Server.getClientIp req) now s)
    as (limited & s1 & Hl & Hc & Hr & Hcr & Hadm).
  rewrite (handleRequest_after_limit _ _ _ _ _ _ _ _ _ Hl).
  destruct limited.
  { split_and!; [by eexists|done..|]. intros Ha. by specialize (Hadm Ha). }
  destruct (String.eqb_spec (Request.method req) "OPTIONS") as [Hm|Hm].
  { split_and!; [by eexists|done..|]. intros _. by split. }
  destruct (String.eqb_spec (Request.pathname req) "/ws") as [Hp|Hp].
  { rewrite bool_decide_false.
    - split_and!; [by eexists|done..|]. intros _. by split.
    - intros Hup. by apply Hnup. }
  destruct (String.eqb (Request.pathname req) "/admin.html"
            || String.eqb (Request.pathname req) "/admin").
  { split_and!; [by eexists|done..|]. intros _. by split. }
  destruct (String.eqb (Request.pathname req) "/health"
            || String.eqb (Request.pathname req) "/stats") eqn:Hobs.
  { exfalso. apply Hnobs. split; [done|].
    apply orb_true_iff in Hobs as [?%String.eqb_eq|?%String.eqb_eq]; eauto. }
  destruct (String.eqb (Request.pathname req) "/"
            || String.eqb (Request.pathname req) "/index.html");
    (split_and!; [by eexists|done..|]; intros _; by split).
Qed.

Lemma X17_witness :
  let preflight :=
    Request.mk "OPTIONS" "/ws" ∅ {[ "upgrade" := "websocket" ]} in
  let wrong_case := Request.mk "GET" "/ws" ∅ {[ "upgrade" := "WebSocket" ]} in
  let run req :=
    Server.handleRequest (λ _, None) "we17me78" (λ _, throw "ReferenceError")
      req "e" 4000 all_open in
  result_of (run preflight) = Ret (Response.mk 200 cors_headers BodyNull) ∧
  clients (state_of (run preflight)) = clients all_open ∧
  result_of (run wrong_case) =
    Ret (Response.mk 400 ∅ (BodyText "Expected WebSocket upgrade")) ∧
  rooms (state_of (run wrong_case)) = rooms all_open.
Proof.
  intros preflight wrong_case run.
  assert (H1 : ¬ is_upgrade preflight) by (intros (Hm & _); by apply Hm).
  assert (H2 : ¬ is_observability preflight)
    by (intros (Hm & _); by apply Hm).
  assert (H3 : ¬ is_upgrade wrong_case) by (intros (_ & _ & Hup); done).
  assert (H4 : ¬ is_observability wrong_case)
    by (intros (_ & [Hp|Hp]); done).
  destruct (X17_only_upgrades_register (λ _, None) "we17me78"
              (λ _, throw "ReferenceError") preflight "e" 4000 all_open H1 H2)
    as (_ & Hc1 & _ & _ & _ & Ha1).
  destruct (X17_only_upgrades_register (λ _, None) "we17me78"
              (λ _, throw "ReferenceError") wrong_case "e" 4000 all_open H3 H4)
    as (_ & _ & Hr2 & _ & _ & Ha2).
  assert (Hget : "GET" ≠ "OPTIONS") by discriminate.
  split_and!.
  - exact (proj1 (Ha1 I) eq_refl).
  - exact Hc1.
  - exact (proj2 (Ha2 I) Hget eq_refl).
  - exact Hr2.
Defined.

(** X18: the admin page is answered with status 200 only when the
    [password] parameter is the configured password and the file
    [frontend/admin.html] can be read.  With a missing or wrong parameter
    the answer is the 403 page, whatever the file system holds; with the
    right one it is the file, as [text/html] with its size as content
    length, or status 404 when the file cannot be read. *)
Theorem X18_admin_page_is_gated (fs : string → option N) (password : string)
    (req : Request.t) :
  password ≠ "" →
  let response := Server.handleAdminRequest fs password req in
  let given := Request.searchParams req !! "password" in
  (given ≠ Some password →
   response =
     Response.mk 403 {[ "content-type" := "text/html" ]}
       (BodyPage AccessDeniedPage)) ∧
  (given = Some password →
   response =
     match fs "frontend/admin.html" with
     | Some size =>
         Response.mk 200
           {[ "content-type" := "text/html";
              "content-length" := size_toString size ]}
           (BodyFile "frontend/admin.html")
     | None => Response.mk 404 ∅ (BodyText "Admin page not found")
     end) ∧
  (Response.status response = 200 →
   given = Some password ∧ is_Some (fs "frontend/admin.html")).
Proof.
  intros Hpw response given.
  assert (Hno : given ≠ Some password →
    response = Response.mk 403 {[ "content-type" := "text/html" ]}
                 (BodyPage AccessDeniedPage)).
  { intros Hne. subst response given. unfold Server.handleAdminRequest.
    destruct (Server.validatePassword _ _) eqn:Hv; [|done].
    exfalso. apply Hne. unfold Server.validatePassword in Hv.
    destruct (Request.searchParams req !! "password") as [v|]; [|done].
    destruct (String.eqb v ""); [done|]. by apply String.eqb_eq in Hv as ->. }
  assert (Hyes : given = Some password →
    response =
      match fs "frontend/admin.html" with
      | Some size =>
          Response.mk 200
            {[ "content-type" := "text/html";
               "content-length" := size_toString size ]}
            (BodyFile "frontend/admin.html")
      | None => Response.mk 404 ∅ (BodyText "Admin page not found")
      end).
  { intros Hg. subst response given. unfold Server.handleAdminRequest.
    rewrite Hg. unfold Server.validatePassword.
    rewrite (proj2 (String.eqb_neq _ _) Hpw), String.eqb_refl. cbn [negb].
    unfold Server.serveStaticFile.
    change (starts_with "/" "frontend/admin.html") with false. cbn match.
    change (String.eqb "frontend/admin.html" "") with false. cbn match.
    destruct (fs "frontend/admin.html") as [size|]; [|done].
    change (ends_with ".html" "frontend/admin.html") with true. cbn match.
    reflexivity. }
  split_and!; [done..|].
  intros Hst. destruct (decide (given = Some password)) as [Hg|Hg].
  - split; [done|]. rewrite (Hyes Hg) in Hst.
    destruct (fs "frontend/admin.html"); [by eexists|done].
  - by rewrite (Hno Hg) in Hst.
Qed.

Lemma X18_witness :
  let fs (path : string) : option N :=
    if String.eqb path "frontend/admin.html" then Some 2048%N else None in
  let ask (params : gmap string string) :=
    Request.mk "GET" "/admin" params ∅ in
  Server.handleAdminRequest fs "we17me78" (ask {[ "password" := "guess" ]}) =
    Response.mk 403 {[ "content-type" := "text/html" ]}
      (BodyPage AccessDeniedPage) ∧
  Server.handleAdminRequest fs "we17me78" (ask {[ "password" := "we17me78" ]})
    = Response.mk 200
        {[ "content-type" := "text/html"; "content-length" := "2048" ]}
        (BodyFile "frontend/admin.html").
Proof.
  intros fs ask.
  assert (Hpw : "we17me78" ≠ "") by discriminate.
  assert (Hwrong : Request.searchParams (ask {[ "password" := "guess" ]})
                     !! "password" ≠ Some "we17me78").
  { intros H. vm_compute in H. discriminate H. }
  split.
  - exact (proj1 (X18_admin_page_is_gated fs "we17me78"
                    (ask {[ "password" := "guess" ]}) Hpw) Hwrong).
  - exact (proj1 (proj2 (X18_admin_page_is_gated fs "we17me78"
                           (ask {[ "password" := "we17me78" ]}) Hpw)) eq_refl).
Defined.

(** ** The rate limit over a sequence of requests *)

Lemma serveStaticFile_status fs path headers :
  Response.status (Server.serveStaticFile fs path headers) = 200 ∨
  Response.status (Server.serveStaticFile fs path headers) = 404.
Proof.
  unfold Server.serveStaticFile. cbn zeta.
  destruct (fs _); [by left|]. destruct (includes "admin" path); by right.
Qed.

Lemma handleAdminRequest_status fs password req :
  Response.status (Server.handleAdminRequest fs password req) ≠ 429.
Proof.
  unfold Server.handleAdminRequest.
  destruct (negb _); [done|].
  by destruct (serveStaticFile_status fs "frontend/admin.html"
                 {[ "content-type" := "text/html" ]}) as [-> | ->].
Qed.

Lemma handleRequest_step fs password observability req clientId now s :
  ¬ is_observability req →
  ∃ limited s1 response s',
    Server.isRateLimited (Server.getClientIp req) now s
      = (Ret limited, s1, []) ∧
    Server.handleRequest fs password observability req clientId now s
      = (Ret response, s', []) ∧
    rateLimits s' = rateLimits s1 ∧
    bool_decide (Response.status response = 429) = limited.
Proof.
  intros Hnobs.
  destruct (isRateLimited_total (Server.getClientIp req) now s)
    as (limited & s1 & Hl & _).
  exists limited, s1.
  rewrite (handleRequest_after_limit _ _ _ _ _ _ _ _ _ Hl).
  destruct limited; [by do 2 eexists|].
  destruct (String.eqb_spec (Request.method req) "OPTIONS") as [Hm|Hm];
    [by do 2 eexists|].
  destruct (String.eqb (Request.pathname req) "/ws").
  { case_bool_decide; [|by do 2 eexists].
    unfold mbind, M_bind. rewrite handleWebSocket_spec. by do 2 eexists. }
  destruct (String.eqb (Request.pathname req) "/admin.html"
            || String.eqb (Request.pathname req) "/admin").
  { do 2 eexists. split_and!; [done..|].
    apply bool_decide_eq_false, handleAdminRequest_status. }
  destruct (String.eqb (Request.pathname req) "/health"
            || String.eqb (Request.pathname req) "/stats") eqn:Hobs.
  { exfalso. apply Hnobs. split; [done|].
    apply orb_true_iff in Hobs as [?%String.eqb_eq|?%String.eqb_eq]; eauto. }
  destruct (String.eqb (Request.pathname req) "/"
            || String.eqb (Request.pathname req) "/index.html").
  - do 2 eexists. split_and!; [done..|]. apply bool_decide_eq_false.
    by destruct (serveStaticFile_status fs "frontend/index.html" cors_headers)
      as [-> | ->].
  - do 2 eexists. split_and!; [done..|]. apply bool_decide_eq_false.
    by destruct (serveStaticFile_status fs (Request.pathname req) cors_headers)
      as [-> | ->].
Qed.

Lemma serve_all_cons fs password observability req clientId now rest s
    response s1 :
  Server.handleRequest fs password observability req clientId now s
    = (Ret response, s1, []) →
  serve_all fs password observability ((req, clientId, now) :: rest) s =
    (let '(r, s2, t) := serve_all fs password observability rest s1 in
     (match r with
      | Ret others => Ret (response :: others)
      | Throw e => Throw e
      end, s2, t)).
Proof.
  intros H. cbn [serve_all]. unfold mbind at 1, M_bind at 1. rewrite H.
  run_m.
  destruct (serve_all fs password observability rest s1)
    as [[[others|e] s2] t]; [|done].
  by rewrite app_nil_r.
Qed.

Lemma serve_all_window fs password observability ip
    (requests : list (Request.t * string * Z)) : ∀ s c R,
  rateLimits s !! ip = Some (RateLimit.mk c R) →
  Forall (λ x, Server.getClientIp x.1.1 = ip ∧ ¬ is_observability x.1.1 ∧
               x.2 ≤ R) requests →
  ∃ responses s',
    serve_all fs password observability requests s = (Ret responses, s', []) ∧
    (λ response, bool_decide (Response.status response = 429)) <$> responses =
    (λ k : nat, 100 <=? c + Z.of_nat k) <$> seq 0 (length requests).
Proof.
  induction requests as [|[[req clientId] now] requests IH];
    intros s c R Hb Hall.
  - by exists [], s.
  - apply Forall_cons in Hall as [(Hip & Hnobs & Hnow) Hall].
    cbn [fst snd] in Hip, Hnobs, Hnow.
    destruct (handleRequest_step fs password observability req clientId now s
                Hnobs) as (limited & s1 & response & s' & Hl & Hr & Hrl & Hst).
    rewrite Hip, isRateLimited_spec, Hb in Hl.
    cbn [RateLimit.resetTime RateLimit.count] in Hl.
    rewrite (proj2 (Z.ltb_ge _ _) Hnow) in Hl.
    cbn [length seq fmap list_fmap].
    rewrite <- fmap_S_seq, <- list_fmap_compose.
    rewrite (serve_all_cons _ _ _ _ _ _ _ _ _ _ Hr).
    destruct (100 <=? c) eqn:Hc; injection Hl as <- <-.
    + destruct (IH s' c R) as (responses & s2 & Hrest & Hsts);
        [by rewrite Hrl|done|].
      rewrite Hrest. exists (response :: responses), s2. split; [done|].
      rewrite fmap_cons, Hst, Hsts, Z.add_0_r, Hc. f_equal.
      apply list_fmap_ext. intros _ k _. cbn. apply Z.leb_le in Hc.
      transitivity true; [|symmetry]; apply Z.leb_le; lia.
    + destruct (IH s' (c + 1) R) as (responses & s2 & Hrest & Hsts);
        [rewrite Hrl; cbn; by rewrite lookup_insert_eq|done|].
      rewrite Hrest. exists (response :: responses), s2. split; [done|].
      rewrite fmap_cons, Hst, Hsts, Z.add_0_r, Hc. f_equal.
      apply list_fmap_ext. intros _ k _. cbn. f_equal. lia.
Qed.

(** X19: of the requests one origin sends within a window, started by a
    request that finds no bucket or an elapsed one, the first 100 are
    handled and every later one is answered 429, whatever the requests ask
    for (requests to [/health] and [/stats] left aside): preflights, pages
    and upgrades all count. *)
Theorem X19_hundred_requests_per_window (fs : string → option N)
    (password : string) (observability : string → M Response.t)
    (ip : string) (first : Request.t * string * Z)
    (later : list (Request.t * string * Z)) (s : State) :
  window_over s ip first.2 →
  Forall (λ x, Server.getClientIp x.1.1 = ip ∧ ¬ is_observability x.1.1 ∧
               x.2 ≤ first.2 + 60000) (first :: later) →
  ∃ responses,
    result_of (serve_all fs password observability (first :: later) s)
      = Ret responses ∧
    sends_of (serve_all fs password observability (first :: later) s) = [] ∧
    (λ response, bool_decide (Response.status response = 429)) <$> responses =
    (λ k, bool_decide (100 ≤ k)%nat) <$> seq 0 (S (length later)).
Proof.
  destruct first as [[req clientId] t0]. cbn [snd].
  intros Hover [(Hip & Hnobs & _) Hall]%Forall_cons.
  cbn [fst snd] in Hip, Hnobs.
  destruct (handleRequest_step fs password observability req clientId t0 s
              Hnobs) as (limited & s1 & response & s' & Hl & Hr & Hrl & Hst).
  rewrite Hip, (isRateLimited_fresh _ _ _ Hover) in Hl.
  injection Hl as <- <-.
  destruct (serve_all_window fs password observability ip later s' 1
              (t0 + 60000)) as (responses & s2 & Hrest & Hsts);
    [rewrite Hrl; cbn; by rewrite lookup_insert_eq|done|].
  rewrite (serve_all_cons _ _ _ _ _ _ _ _ _ _ Hr), Hrest.
  exists (response :: responses). split_and!; [done..|].
  cbn [seq]. rewrite !fmap_cons, Hst, Hsts. f_equal.
  rewrite <- fmap_S_seq, <- list_fmap_compose.
  apply list_fmap_ext. intros _ k _. cbn.
  destruct (Z.leb_spec 100 (1 + Z.of_nat k)).
  - symmetry. apply bool_decide_eq_true. lia.
  - symmetry. apply bool_decide_eq_false. lia.
Qed.

Lemma X19_witness :
  let preflight :=
    Request.mk "OPTIONS" "/" ∅ {[ "x-real-ip" := "10.0.0.7" ]} in
  let upgrade :=
    Request.mk "GET" "/ws" ∅
      {[ "upgrade" := "websocket"; "x-real-ip" := "10.0.0.7" ]} in
  let requests :=
    (preflight, "x", 1000) :: replicate 99 (preflight, "x", 1500)
      ++ [(upgrade, "e", 2000)] in
  let r :=
    serve_all (λ _, None) "we17me78" (λ _, throw "ReferenceError") requests
      all_open in
  ∃ responses,
    result_of r = Ret responses ∧
    (λ response, bool_decide (Response.status response = 429)) <$> responses =
      replicate 100 false ++ [true] ∧
    clients (state_of r) !! "e" = None.
Proof.
  intros preflight upgrade requests r.
  assert (Hover : window_over all_open "10.0.0.7" 1000) by exact I.
  assert (Hall :
    Forall (λ x, Server.getClientIp x.1.1 = "10.0.0.7" ∧
                 ¬ is_observability x.1.1 ∧ x.2 ≤ 1000 + 60000) requests).
  { subst requests. apply Forall_cons. split.
    { split_and!; [reflexivity| |cbn; lia]. intros (Hm & _). by apply Hm. }
    apply Forall_app. split.
    - apply Forall_replicate.
      split_and!; [reflexivity| |cbn; lia]. intros (Hm & _). by apply Hm.
    - apply Forall_singleton.
      split_and!; [reflexivity| |cbn; lia].
      intros (_ & [Hp|Hp]); discriminate Hp. }
  destruct (X19_hundred_requests_per_window (λ _, None) "we17me78"
              (λ _, throw "ReferenceError") "10.0.0.7"
              (preflight, "x", 1000)
              (replicate 99 (preflight, "x", 1500) ++ [(upgrade, "e", 2000)])
              all_open Hover Hall) as (responses & Hres & _ & Hsts).
  exists responses. split_and!; [exact Hres|exact Hsts|].
  by vm_compute.
Defined.

(** ** The deployment variant: lifecycle and admission *)

Lemma Deploy_handleWebSocket_eq clientId name_param room_param role_param ip
    now :
  Deploy.handleWebSocket clientId name_param room_param role_param ip now =
  Server.handleWebSocket clientId name_param room_param role_param ip now.
Proof.
  unfold Deploy.handleWebSocket, Server.handleWebSocket.
  by rewrite !Deploy_sanitizeInput_eq.
Qed.

Lemma handleClientDisconnect_run clientId now s client :
  clients s !! clientId = Some client →
  let s' := left s clientId client in
  Server.handleClientDisconnect clientId now s =
    (Ret tt, s',
     (λ to, (to, FUserLeft clientId (Client.name client) (IsoString now)
                   (room_users s' (Client.room client)))) <$>
       broadcast_targets s' (Client.room client) None).
Proof.
  intros Hc s'.
  unfold Server.handleClientDisconnect. run_m. rewrite Hc.
  subst s'. unfold left, rooms_without in *.
  destruct (rooms s !! Client.room client) as [roomObj|] eqn:Hro.
  - case_bool_decide; run_m.
    + rewrite delete_insert_eq, getRoomUsers_spec.
      by rewrite broadcastToRoom_run.
    + rewrite getRoomUsers_spec. by rewrite broadcastToRoom_run.
  - rewrite getRoomUsers_spec. by rewrite broadcastToRoom_run.
Qed.

Lemma Deploy_handleClientDisconnect_run clientId now s client :
  clients s !! clientId = Some client →
  let s' := left s clientId client in
  Deploy.handleClientDisconnect clientId now s =
    (Ret tt, s',
     (λ to, (to, FUserLeft clientId (Client.name client) (Millis now)
                   (room_users s' (Client.room client)))) <$>
       broadcast_targets s' (Client.room client) None).
Proof.
  intros Hc s'.
  unfold Deploy.handleClientDisconnect. run_m. rewrite Hc.
  subst s'. unfold left, rooms_without in *.
  destruct (rooms s !! Client.room client) as [roomObj|] eqn:Hro.
  - case_bool_decide; run_m.
    + rewrite delete_insert_eq, Deploy_getRoomUsers_spec.
      by rewrite Deploy_broadcastToRoom_run.
    + rewrite Deploy_getRoomUsers_spec. by rewrite Deploy_broadcastToRoom_run.
  - rewrite Deploy_getRoomUsers_spec. by rewrite Deploy_broadcastToRoom_run.
Qed.

(** X20: the lifecycle of the two variants agrees up to the stored
    address and the format of the timestamp.  For the same request, id and
    time a join builds in each variant the state of a join of the same
    name, room and role, under the address the variant's own [getClientIp]
    returns: the two states are equal when the two addresses are, and
    differ in the [ip] of the new entry when they are not.  A disconnect
    and an [onopen] end with the same result and in the same state, and
    the variant sends the frames [server.ts] sends, to the same connections
    in the same order, with the timestamp as a number where [server.ts]
    writes an ISO string (the [joinedAt] of a roster entry is the same
    instant in both). *)
Theorem X20_lifecycles_agree (s : State) (clientId : string)
    (req : Request.t) (name room : string) (now : Z) :
  let params := Request.searchParams req in
  let join (handleWebSocket :
              string → option string → option string → option string →
              string → Z → M unit) (ip : string) :=
    handleWebSocket clientId (params !! "name") (params !! "room")
      (params !! "role") ip now s in
  let built (ip : string) :=
    joined s clientId
      (new_client clientId (params !! "name") (params !! "room")
         (params !! "role") ip now) now in
  join Server.handleWebSocket (Server.getClientIp req)
    = (Ret tt, built (Server.getClientIp req), []) ∧
  join Deploy.handleWebSocket (Deploy.getClientIp req)
    = (Ret tt, built (Deploy.getClientIp req), []) ∧
  (built (Server.getClientIp req) = built (Deploy.getClientIp req) ↔
   Server.getClientIp req = Deploy.getClientIp req) ∧
  (let r := Server.handleClientDisconnect clientId now s in
   Deploy.handleClientDisconnect clientId now s =
     (result_of r, state_of r, numeric_timestamps (sends_of r))) ∧
  (let r := Server.onopen clientId name room now s in
   Deploy.onopen clientId name room now s =
     (result_of r, state_of r, numeric_timestamps (sends_of r))).
Proof.
  intros params join built. subst join built. cbn beta.
  split_and!.
  - apply handleWebSocket_spec.
  - rewrite Deploy_handleWebSocket_eq. apply handleWebSocket_spec.
  - split; [|by intros ->].
    intros Heq. apply (f_equal (λ st, Client.ip <$> clients st !! clientId))
      in Heq.
    unfold joined in Heq. cbn [clients] in Heq.
    rewrite !lookup_insert_eq in Heq. by injection Heq.
  - destruct (clients s !! clientId) as [client|] eqn:Hc.
    + rewrite (handleClientDisconnect_run _ _ _ _ Hc).
      rewrite (Deploy_handleClientDisconnect_run _ _ _ _ Hc).
      cbn. unfold numeric_timestamps. by rewrite <- list_fmap_compose.
    + rewrite handleClientDisconnect_absent by done.
      unfold Deploy.handleClientDisconnect, mbind, M_bind, get_state.
      by rewrite Hc.
  - unfold Server.onopen, Deploy.onopen, mbind, M_bind, socket_send.
    rewrite getRoomUsers_spec, Deploy_getRoomUsers_spec.
    rewrite broadcastToRoom_run, Deploy_broadcastToRoom_run.
    cbn. unfold numeric_timestamps. cbn.
    by rewrite <- list_fmap_compose.
Qed.

(** X21: the deployment variant has no rate limit.  Its [handleRequest]
    registers every request for a websocket upgrade on [/ws], in any state
    and however many requests the origin has made, as [handleWebSocket]
    does, under the address its own [getClientIp] gives; the rate-limit map
    is never read nor written. *)
Theorem X21_deploy_admits_every_upgrade (later : Request.t → M Response.t)
    (req : Request.t) (clientId : string) (now : Z) (s : State) :
  is_upgrade req →
  let client :=
    new_client clientId (Request.searchParams req !! "name")
      (Request.searchParams req !! "room")
      (Request.searchParams req !! "role") (Deploy.getClientIp req) now in
  Deploy.handleRequest later req clientId now s =
    (Ret upgrade_response, joined s clientId client now, []) ∧
  rateLimits (joined s clientId client now) = rateLimits s.
Proof.
  intros (Hmethod & Hpath & Hup) client. split; [|done].
  unfold Deploy.handleRequest. cbn zeta.
  rewrite (proj2 (String.eqb_neq _ _) Hmethod), Hpath.
  cbn [String.eqb Ascii.eqb Bool.eqb]. cbn match.
  rewrite bool_decide_true by done.
  unfold mbind, M_bind.
  by rewrite Deploy_handleWebSocket_eq, handleWebSocket_spec.
Qed.

Lemma X21_witness :
  let s := with_bucket all_open "10.0.0.7" (RateLimit.mk 100 5000) in
  let req :=
    Request.mk "GET" "/ws" {[ "name" := "Eve"; "room" := "r1" ]}
      {[ "upgrade" := "websocket"; "x-real-ip" := "10.0.0.7" ]} in
  result_of (Deploy.handleRequest (λ _, throw "ReferenceError") req "e" 4000 s)
    = Ret upgrade_response ∧
  members (state_of (Deploy.handleRequest (λ _, throw "ReferenceError") req
                       "e" 4000 s)) "r1" = ["a"; "b"; "e"] ∧
  result_of (Server.handleRequest (λ _, None) "we17me78"
               (λ _, throw "ReferenceError") req "e" 4000 s)
    = Ret (Response.mk 429 ∅ (BodyText "Too many requests")).
Proof.
  intros s req.
  assert (Hup : is_upgrade req).
  { split_and!; [discriminate|reflexivity|reflexivity]. }
  destruct (X21_deploy_admits_every_upgrade (λ _, throw "ReferenceError")
              req "e" 4000 s Hup) as [Hr _].
  rewrite Hr. split_and!; reflexivity.
Defined.

(** X22: every state built by joins and leaves, reused ids included, and by
    changes of socket state is well formed: no member set lists an id
    twice, and every client is stored under its own [userId]. *)
Theorem X22_states_are_well_formed (ops : list Server.Op)
    (changes : list (string * ReadyState)) :
  well_formed
    (foldl (λ s change, state_of (socket_state change.1 change.2 s))
       (Server.run ops initial) changes).
Proof.
  induction changes as [|change changes IH] using rev_ind.
  - apply well_formed_run, well_formed_initial.
  - rewrite foldl_app. cbn. by apply well_formed_socket_state.
Qed.
